(** * Display formatters of [static/app/utils/formatters.tsx]

    A shallow embedding of the duration, clock, number-abbreviation and
    percentage formatters, together with the host primitives they call
    (number-to-string conversion, [parseInt], [Number], [Math.*],
    lodash [round]).

    Numbers.  A script number is NaN, one of the two infinities, or a
    finite value.  The first embedding keeps finite values as unbounded
    decimals [m * 10^e] and computes on them exactly.  This is what the
    script computes wherever the double computation is exact: on
    integers of magnitude at most 2^53, and on whole numbers of
    milliseconds within the bounds stated with each property.  The sign
    of zero is not tracked there: it is visible in none of the functions
    embedded ([-0 === 0], [-0 < 0] is false, and [String(-0)] is ["0"]).

    The module [F64] embeds the clock, percentage, truncation and
    abbreviation functions a second time on IEEE 754 binary64 numbers,
    with rounding, overflow, shortest printing, the white space of the
    script and the [RangeError] of the host's option checks.  What
    depends on any of these is stated over [F64]. *)

From Stdlib Require Import ZArith Lia Bool List.
From Stdlib Require Import Strings.String Strings.Ascii.
From Stdlib Require Import Numbers.DecimalString Numbers.DecimalN Numbers.DecimalPos.
From Stdlib Require Import Floats.
Import ListNotations.

Open Scope string_scope.
Open Scope Z_scope.

(** ** Script numbers *)

Inductive number : Type :=
| NaN : number
| PosInf : number
| NegInf : number
| Fin (m e : Z) : number.   (* the value m * 10^e *)

Definition ofZ (z : Z) : number := Fin z 0.

Module Num.

(** Two decimals brought to their common (smaller) exponent. *)
Definition align (m1 e1 m2 e2 : Z) : Z * Z * Z :=
  let e := Z.min e1 e2 in
  (m1 * 10 ^ (e1 - e), m2 * 10 ^ (e2 - e), e).

Definition isZero (x : number) : bool :=
  match x with Fin m _ => m =? 0 | _ => false end.

(** [x === y] on numbers. *)
Definition eqb (x y : number) : bool :=
  match x, y with
  | NaN, _ | _, NaN => false
  | PosInf, PosInf | NegInf, NegInf => true
  | Fin m1 e1, Fin m2 e2 =>
      let '(a, b, _) := align m1 e1 m2 e2 in a =? b
  | _, _ => false
  end.

(** [x < y]; every comparison with NaN is false. *)
Definition ltb (x y : number) : bool :=
  match x, y with
  | NaN, _ | _, NaN => false
  | PosInf, _ => false
  | _, PosInf => true
  | _, NegInf => false
  | NegInf, _ => true
  | Fin m1 e1, Fin m2 e2 =>
      let '(a, b, _) := align m1 e1 m2 e2 in a <? b
  end.

Definition leb (x y : number) : bool :=
  match x, y with
  | NaN, _ | _, NaN => false
  | _, _ => negb (ltb y x)
  end.

Definition gtb (x y : number) : bool := ltb y x.
Definition geb (x y : number) : bool := leb y x.

(** [isNaN(x)]. *)
Definition isNaN (x : number) : bool :=
  match x with NaN => true | _ => false end.

(** Truthiness of a number: false for 0 and NaN. *)
Definition truthy (x : number) : bool :=
  match x with
  | NaN => false
  | Fin m _ => negb (m =? 0)
  | _ => true
  end.

(** [Math.abs]. *)
Definition abs (x : number) : number :=
  match x with
  | NaN => NaN
  | PosInf | NegInf => PosInf
  | Fin m e => Fin (Z.abs m) e
  end.

Definition sgn (x : number) : Z :=
  match x with
  | NaN => 0
  | PosInf => 1
  | NegInf => -1
  | Fin m _ => Z.sgn m
  end.

(** [x * y]. *)
Definition mul (x y : number) : number :=
  match x, y with
  | NaN, _ | _, NaN => NaN
  | Fin m1 e1, Fin m2 e2 => Fin (m1 * m2) (e1 + e2)
  | _, _ =>
      match sgn x * sgn y with
      | 0 => NaN
      | Zpos _ => PosInf
      | Zneg _ => NegInf
      end
  end.

(** [x + y]. *)
Definition add (x y : number) : number :=
  match x, y with
  | NaN, _ | _, NaN => NaN
  | PosInf, NegInf | NegInf, PosInf => NaN
  | PosInf, _ | _, PosInf => PosInf
  | NegInf, _ | _, NegInf => NegInf
  | Fin m1 e1, Fin m2 e2 =>
      let '(a, b, e) := align m1 e1 m2 e2 in Fin (a + b) e
  end.

(** [x / 10^k], the only division by a constant other than a time
    unit that the formatters perform ([/ 1000], [/ multi] with
    [multi = 10^places], and the thresholds of the step table). *)
Definition divPow10 (x : number) (k : Z) : number :=
  match x with
  | Fin m e => Fin m (e - k)
  | _ => x
  end.

(** [Math.floor]. *)
Definition floor (x : number) : number :=
  match x with
  | Fin m e => if 0 <=? e then Fin (m * 10 ^ e) 0 else Fin (m / 10 ^ (- e)) 0
  | _ => x
  end.

(** [Math.ceil]. *)
Definition ceil (x : number) : number :=
  match x with
  | Fin m e =>
      if 0 <=? e then Fin (m * 10 ^ e) 0 else Fin (- ((- m) / 10 ^ (- e))) 0
  | _ => x
  end.

(** [Math.round]: nearest integer, halves towards +Infinity.  This is
    also lodash [round] at precision 0. *)
Definition round (x : number) : number :=
  match x with
  | Fin m e =>
      if 0 <=? e then Fin (m * 10 ^ e) 0
      else Fin ((2 * m + 10 ^ (- e)) / (2 * 10 ^ (- e))) 0
  | _ => x
  end.

(** [x / t] for a finite nonzero integer constant [t > 0], followed
    by [Math.floor] or [Math.ceil]: the two are only ever used
    together in [divideBy]. *)
Definition floorDiv (x : number) (t : Z) : number :=
  match x with
  | Fin m e =>
      if 0 <=? e then Fin ((m * 10 ^ e) / t) 0
      else Fin (m / (t * 10 ^ (- e))) 0
  | _ => x
  end.

Definition ceilDiv (x : number) (t : Z) : number :=
  match x with
  | Fin m e =>
      if 0 <=? e then Fin (- ((- (m * 10 ^ e)) / t)) 0
      else Fin (- ((- m) / (t * 10 ^ (- e)))) 0
  | _ => x
  end.

(** [x % t] for a finite integer constant [t > 0]: the remainder has
    the sign of the dividend; it is NaN for a dividend that is not
    finite. *)
Definition rem (x : number) (t : Z) : number :=
  match x with
  | Fin m e =>
      let '(a, b, c) := align m e t 0 in Fin (Z.rem a b) c
  | _ => NaN
  end.

End Num.

(** ** Strings and the conversions between strings and numbers *)

Module Str.

Definition isDigit (c : ascii) : bool :=
  let n := nat_of_ascii c in (48 <=? n)%nat && (n <=? 57)%nat.

(** White space recognised by [trim], [Number] and [parseInt]
    (the ASCII part of it). *)
Definition isSpace (c : ascii) : bool :=
  let n := nat_of_ascii c in
  (n =? 32)%nat || ((9 <=? n)%nat && (n <=? 13)%nat).

Fixpoint zeros (n : nat) : string :=
  match n with
  | O => ""
  | S k => String "0" (zeros k)
  end.

Definition isEmpty (s : string) : bool :=
  match s with "" => true | _ => false end.

(** Decimal digits of a non-negative integer, without leading zeros
    (["0"] for zero). *)
Definition digits (z : Z) : string :=
  NilEmpty.string_of_uint (N.to_uint (Z.to_N z)).

(** Value of a string of decimal digits (0 for the empty string);
    [None] when a character is not a digit. *)
Definition digitsValue (s : string) : option Z :=
  match NilEmpty.uint_of_string s with
  | Some d => Some (Z.of_N (N.of_uint d))
  | None => None
  end.

Fixpoint stripTrailingZeros (s : string) : string :=
  match s with
  | "" => ""
  | String c r =>
      let r' := stripTrailingZeros r in
      if isEmpty r' && Ascii.eqb c "0" then "" else String c r'
  end.

Fixpoint trimStart (s : string) : string :=
  match s with
  | String c r => if isSpace c then trimStart r else s
  | "" => ""
  end.

Fixpoint trimEnd (s : string) : string :=
  match s with
  | "" => ""
  | String c r =>
      let r' := trimEnd r in
      if isEmpty r' && isSpace c then "" else String c r'
  end.

(** [s.trim()]. *)
Definition trim (s : string) : string := trimEnd (trimStart s).

(** [s.split(sep)] for a one-character separator. *)
Fixpoint split (sep : ascii) (s : string) : list string :=
  match s with
  | "" => [""]
  | String c r =>
      if Ascii.eqb c sep then "" :: split sep r
      else match split sep r with
           | h :: t => String c h :: t
           | [] => [String c ""]
           end
  end.

(** [parts.join(sep)]. *)
Fixpoint join (sep : string) (l : list string) : string :=
  match l with
  | [] => ""
  | [x] => x
  | x :: r => x ++ sep ++ join sep r
  end.

(** [s.slice(-n)] for [n > 0]: the last [n] characters. *)
Definition sliceLast (n : nat) (s : string) : string :=
  substring (String.length s - n) n s.

(** Longest prefix of decimal digits, and what follows it. *)
Fixpoint spanDigits (s : string) : string * string :=
  match s with
  | String c r =>
      if isDigit c then let '(d, t) := spanDigits r in (String c d, t)
      else ("", s)
  | "" => ("", "")
  end.

End Str.

(** [Number.prototype.toString] in radix 10, which is also what
    [String(x)] and template literals apply to a number.  With [s] the
    significant digits ([k] of them, none trailing zero) and [n] the
    position of the decimal point ([x = 0.s * 10^n]): plain digits when
    [k <= n <= 21], a point inside the digits when [0 < n <= 21], leading
    ["0.00"] when [-6 < n <= 0], exponent notation otherwise. *)
Definition toStringPos (m e : Z) : string :=
  let ds := Str.digits m in
  let s := Str.stripTrailingZeros ds in
  let k := Z.of_nat (String.length s) in
  let n := Z.of_nat (String.length ds) + e in
  if (k <=? n) && (n <=? 21) then s ++ Str.zeros (Z.to_nat (n - k))
  else if (0 <? n) && (n <=? 21) then
    substring 0 (Z.to_nat n) s ++ "." ++ substring (Z.to_nat n) (Z.to_nat (k - n)) s
  else if (-6 <? n) && (n <=? 0) then "0." ++ Str.zeros (Z.to_nat (- n)) ++ s
  else
    let ex := (if n - 1 <? 0 then "-" else "+") ++ Str.digits (Z.abs (n - 1)) in
    if k =? 1 then s ++ "e" ++ ex
    else substring 0 1 s ++ "." ++ substring 1 (Z.to_nat (k - 1)) s ++ "e" ++ ex.

Definition toString (x : number) : string :=
  match x with
  | NaN => "NaN"
  | PosInf => "Infinity"
  | NegInf => "-Infinity"
  | Fin m e =>
      if m =? 0 then "0"
      else
        let sign := if m <? 0 then "-" else "" in
        if (0 <=? e) && (Z.abs m * 10 ^ e <? 10 ^ 21)
        then sign ++ Str.digits (Z.abs m * 10 ^ e)
        else sign ++ toStringPos (Z.abs m) e
  end.

Definition startsWithChar (c : ascii) (s : string) : bool :=
  match s with
  | String a _ => Ascii.eqb a c
  | "" => false
  end.

Definition tail (s : string) : string :=
  match s with
  | String _ r => r
  | "" => ""
  end.

(** An optional sign in front of a literal: whether it is negative,
    and the rest of the string. *)
Definition takeSign (s : string) : bool * string :=
  if startsWithChar "-" s then (true, tail s)
  else if startsWithChar "+" s then (false, tail s)
  else (false, s).

Definition signed (neg : bool) (x : number) : number :=
  if neg then Num.mul (Fin (-1) 0) x else x.

(** [parseInt(s, 10)]: leading white space, an optional sign, then the
    longest run of digits; whatever follows is ignored, and no digit at
    all gives NaN. *)
Definition parseInt (s : string) : number :=
  let '(neg, r) := takeSign (Str.trimStart s) in
  let '(d, _) := Str.spanDigits r in
  match d, Str.digitsValue d with
  | String _ _, Some v => signed neg (Fin v 0)
  | _, _ => NaN
  end.

(** An unsigned decimal literal at the start of [s]: digits, an
    optional fraction, an optional exponent.  Returns its value and the
    unread rest; an ["e"] that no digit follows is not part of it. *)
Definition decimalPrefix (s : string) : option (number * string) :=
  let '(ip, r1) := Str.spanDigits s in
  let '(fp, r2) :=
    if startsWithChar "." r1 then Str.spanDigits (tail r1) else ("", r1) in
  if Str.isEmpty ip && Str.isEmpty fp then None
  else
    match Str.digitsValue (ip ++ fp) with
    | None => None
    | Some v =>
        let fl := Z.of_nat (String.length fp) in
        let plain := Some (Fin v (- fl), r2) in
        if startsWithChar "e" r2 || startsWithChar "E" r2 then
          let '(neg, r3) := takeSign (tail r2) in
          let '(ed, r4) := Str.spanDigits r3 in
          match ed, Str.digitsValue ed with
          | String _ _, Some x => Some (Fin v ((if neg then - x else x) - fl), r4)
          | _, _ => plain
          end
        else plain
    end.

Definition radixDigit (base : Z) (c : ascii) : option Z :=
  let n := Z.of_nat (nat_of_ascii c) in
  let v := if (48 <=? n) && (n <=? 57) then n - 48
           else if (97 <=? n) && (n <=? 102) then n - 87
           else if (65 <=? n) && (n <=? 70) then n - 55
           else base in
  if v <? base then Some v else None.

Fixpoint radixValue (base : Z) (acc : Z) (s : string) : option Z :=
  match s with
  | "" => Some acc
  | String c r =>
      match radixDigit base c with
      | Some v => radixValue base (acc * base + v) r
      | None => None
      end
  end.

(** A [0x], [0o] or [0b] literal (either case of the letter). *)
Definition radixLiteral (s : string) : option number :=
  match s with
  | String "0" (String c (String d r)) =>
      let body := String d r in
      let base := if Ascii.eqb c "x" || Ascii.eqb c "X" then 16
                  else if Ascii.eqb c "o" || Ascii.eqb c "O" then 8
                  else if Ascii.eqb c "b" || Ascii.eqb c "B" then 2
                  else 0 in
      if base =? 0 then None
      else match radixValue base 0 body with
           | Some v => Some (Fin v 0)
           | None => None
           end
  | _ => None
  end.

(** [Number(s)] on a string: white space is trimmed, the empty string
    is 0, and anything that is not a numeric literal as a whole is NaN. *)
Definition Number (s : string) : number :=
  let t := Str.trim s in
  if Str.isEmpty t then Fin 0 0
  else
    match radixLiteral t with
    | Some x => x
    | None =>
        let '(neg, r) := takeSign t in
        if String.eqb r "Infinity" then (if neg then NegInf else PosInf)
        else match decimalPrefix r with
             | Some (x, "") => signed neg x
             | _ => NaN
             end
    end.

(** [parseFloat(s)]: like [Number] but reads the longest literal
    prefix, and has no radix literals and no empty-string case. *)
Definition parseFloat (s : string) : number :=
  let '(neg, r) := takeSign (Str.trimStart s) in
  if String.prefix "Infinity" r then (if neg then NegInf else PosInf)
  else match decimalPrefix r with
       | Some (x, _) => signed neg x
       | None => NaN
       end.

(** A value that may be [undefined], as what array destructuring, an
    omitted argument or an index past the end yields. *)
Definition NumberOpt (v : option string) : number :=
  match v with
  | Some s => Number s
  | None => NaN
  end.

(** [x || 0] on a number. *)
Definition orZero (x : number) : number :=
  if Num.truthy x then x else Fin 0 0.

(** Number of decimal digits of a positive integer. *)
Definition numDigits (a : Z) : Z := Z.of_nat (String.length (Str.digits a)).

(** [a * 10^b] rounded to a multiple of [10^t], halves away from zero
    ([a >= 0]); the result is the multiplier of [10^t]. *)
Definition roundAt (a b t : Z) : Z :=
  if t <=? b then a * 10 ^ (b - t)
  else (2 * a + 10 ^ (t - b)) / (2 * 10 ^ (t - b)).

(** [x.toPrecision(p)] for [1 <= p <= 100]. *)
Definition toPrecision (x : number) (p : Z) : string :=
  match x with
  | Fin m b =>
      if m =? 0 then (if 1 <? p then "0." ++ Str.zeros (Z.to_nat (p - 1)) else "0")
      else
        let a := Z.abs m in
        let e0 := numDigits a + b - 1 in
        let n0 := roundAt a b (e0 - p + 1) in
        let '(n, e) := if n0 =? 10 ^ p then (10 ^ (p - 1), e0 + 1) else (n0, e0) in
        let ds := Str.digits n in
        let sign := if m <? 0 then "-" else "" in
        if (e <? -6) || (p <=? e) then
          sign ++ substring 0 1 ds
               ++ (if 1 <? p then "." ++ substring 1 (Z.to_nat (p - 1)) ds else "")
               ++ "e" ++ (if e <? 0 then "-" else "+") ++ Str.digits (Z.abs e)
        else if e =? p - 1 then sign ++ ds
        else if 0 <=? e then
          sign ++ substring 0 (Z.to_nat (e + 1)) ds ++ "."
               ++ substring (Z.to_nat (e + 1)) (Z.to_nat (p - (e + 1))) ds
        else sign ++ "0." ++ Str.zeros (Z.to_nat (- (e + 1))) ++ ds
  | _ => toString x
  end.

(** lodash [round(x, precision)]: shift the decimal point, apply
    [Math.round], shift back. *)
Definition round (x : number) (precision : Z) : number :=
  match x with
  | Fin m e =>
      if precision =? 0 then Num.round x
      else Num.divPow10 (Num.round (Fin m (e + precision))) precision
  | _ => x
  end.

(** Digit grouping of the [en-US] locale: a comma before every group
    of three digits. *)
Fixpoint groupDigits (s : string) : string :=
  match s with
  | "" => ""
  | String c r =>
      let g := groupDigits r in
      if (0 <? String.length r)%nat && (Nat.modulo (String.length r) 3 =? 0)%nat
      then String c ("," ++ g) else String c g
  end.

(** Options of [toLocaleString] that the formatters set. *)
Record NumberFormatOptions : Type := {
  maximumSignificantDigits : option Z;
  maximumFractionDigits : option Z
}.

Definition noOptions : NumberFormatOptions :=
  {| maximumSignificantDigits := None; maximumFractionDigits := None |}.

(** [x.toLocaleString(undefined, options)] in the [en-US] locale, which
    is the locale the expected strings of this module are written in:
    at most 3 fraction digits unless told otherwise, halves rounded away
    from zero, no trailing zeros, grouped integer digits.  The options
    are taken to be in the range the host accepts. *)
Definition toLocaleString (x : number) (o : NumberFormatOptions) : string :=
  match x with
  | NaN => "NaN"
  | PosInf => String (ascii_of_nat 226) (String (ascii_of_nat 136) (String (ascii_of_nat 158) ""))
  | NegInf => "-" ++ String (ascii_of_nat 226) (String (ascii_of_nat 136) (String (ascii_of_nat 158) ""))
  | Fin m b =>
      let a := Z.abs m in
      let t0 := match maximumSignificantDigits o, maximumFractionDigits o with
                | Some p, _ => if a =? 0 then 0 else numDigits a + b - p
                | None, Some f => - f
                | None, None => -3
                end in
      let t := Z.min t0 0 in
      let r := if t0 <=? b then a * 10 ^ (b - t)
               else roundAt a b t0 * 10 ^ (t0 - t) in
      let ip := r / 10 ^ (- t) in
      let fp := r mod 10 ^ (- t) in
      let fs := Str.digits fp in
      let frac := Str.stripTrailingZeros
                    (Str.zeros (Z.to_nat (- t) - String.length fs) ++ fs) in
      let frac := if fp =? 0 then "" else frac in
      (if m <? 0 then "-" else "") ++ groupDigits (Str.digits ip)
        ++ (if Str.isEmpty frac then "" else "." ++ frac)
  end.

(** ** The text-lookup collaborator *)

(** Modelled from the spec: [t] and [tn] of [sentry/locale] are not
    part of the source at hand.  The spec has them supply "singular/plural
    unit words", "keyed by a message identifier and a count for
    pluralization"; in the source locale [t] returns its message and
    [tn] returns the singular exactly when the count is 1. *)
Definition t (msg : string) : string := msg.

Definition tn (singular plural : string) (count : number) : string :=
  if Num.eqb count (Fin 1 0) then singular else plural.

(** ** Time units, in milliseconds *)

Definition MONTH : Z := 2629800000.
Definition WEEK : Z := 604800000.
Definition DAY : Z := 86400000.
Definition HOUR : Z := 3600000.
Definition MINUTE : Z := 60000.
Definition SECOND : Z := 1000.
Definition MILLISECOND : Z := 1.

(** The keys of [SUFFIX_ABBR], which are the precision tokens. *)
Inductive Precision : Type :=
| Years | Weeks | Days | Hours | Minutes | Seconds | Milliseconds.

Definition precisionName (p : Precision) : string :=
  match p with
  | Years => "years"
  | Weeks => "weeks"
  | Days => "days"
  | Hours => "hours"
  | Minutes => "minutes"
  | Seconds => "seconds"
  | Milliseconds => "milliseconds"
  end.

Definition SUFFIX_ABBR (p : Precision) : string :=
  match p with
  | Years => t "yr"
  | Weeks => t "wk"
  | Days => t "d"
  | Hours => t "hr"
  | Minutes => t "min"
  | Seconds => t "s"
  | Milliseconds => t "ms"
  end.

(** ** getExactDuration *)

(** [divideBy]: quotient truncated towards zero, remainder with the
    sign of the dividend. *)
Definition divideBy (msValue : number) (time : Z) : number * number :=
  (if Num.ltb msValue (Fin 0 0) then Num.ceilDiv msValue time
   else Num.floorDiv msValue time,
   Num.rem msValue time).

(** One of the five unit blocks of [convertDuration]: the body that
    runs once the unit [time] has been selected.  [rec] is the recursive
    call on the remainder. *)
Definition unitBlock (rec : number -> option string) (minSuffix : string)
    (msValue : number) (abbr : bool) (time : Z) (short singular plural : string)
    : option string :=
  let '(quotient, remainder) := divideBy msValue time in
  let suffix := if abbr then t short else " " ++ tn singular plural quotient in
  if String.eqb minSuffix suffix
  then Some (toString quotient ++ suffix ++ " " ++ "")
  else match rec (Num.divPow10 remainder 3) with
       | Some rest => Some (toString quotient ++ suffix ++ " " ++ rest)
       | None => None
       end.

(** [convertDuration], the recursive closure of [getExactDuration].
    [fuel] bounds the depth of the recursion; [None] is a computation
    that has not returned within it. *)
Fixpoint convertDuration (fuel : nat) (minSuffix : string) (secs : number)
    (abbr : bool) : option string :=
  match fuel with
  | O => None
  | S fuel' =>
      let msValue := round (Num.mul secs (Fin 1000 0)) 0 in
      let value := round (Num.abs (Num.mul secs (Fin 1000 0))) 0 in
      let rec := fun r => convertDuration fuel' minSuffix r abbr in
      if Num.geb value (ofZ WEEK) || (Num.truthy value && String.eqb minSuffix " weeks")
      then unitBlock rec minSuffix msValue abbr WEEK "wk" "week" "weeks"
      else if Num.geb value (ofZ DAY) || (Num.truthy value && String.eqb minSuffix " days")
      then unitBlock rec minSuffix msValue abbr DAY "d" "day" "days"
      else if Num.geb value (ofZ HOUR) || (Num.truthy value && String.eqb minSuffix " hours")
      then unitBlock rec minSuffix msValue abbr HOUR "hr" "hour" "hours"
      else if Num.geb value (ofZ MINUTE) || (Num.truthy value && String.eqb minSuffix " minutes")
      then unitBlock rec minSuffix msValue abbr MINUTE "min" "minute" "minutes"
      else if Num.geb value (ofZ SECOND) || (Num.truthy value && String.eqb minSuffix " seconds")
      then unitBlock rec minSuffix msValue abbr SECOND "s" "second" "seconds"
      else if Num.eqb value (Fin 0 0) then Some ""
      else
        let suffix := if abbr then t "ms"
                      else " " ++ tn "millisecond" "milliseconds" value in
        Some (toString msValue ++ suffix)
  end.

Definition getExactDuration (fuel : nat) (seconds : number) (abbreviation : bool)
    (precision : Precision) : option string :=
  let minSuffix := " " ++ precisionName precision in
  match convertDuration fuel minSuffix seconds abbreviation with
  | None => None
  | Some r =>
      let result := Str.trim r in
      if negb (String.length result =? 0)%nat then Some result
      else Some ("0" ++ (if abbreviation then SUFFIX_ABBR precision else minSuffix))
  end.

(** ** formatSecondsToClock and parseClockToSeconds *)

Definition fill (num : number) : string :=
  if Num.ltb num (Fin 10 0) then "0" ++ toString num else toString num.

Definition formatSecondsToClock (seconds : number) (padAll : bool) : string :=
  if Num.eqb seconds (Fin 0 0) || Num.isNaN seconds
  then (if padAll then "00:00" else "0:00")
  else
    let absMSValue := round (Num.abs (Num.mul seconds (Fin 1000 0))) 0 in
    let '(hours, rMins) := divideBy absMSValue HOUR in
    let '(minutes, rSeconds) := divideBy rMins MINUTE in
    let '(secs, milliseconds) := divideBy rSeconds SECOND in
    let parts :=
      if Num.truthy hours
      then [if padAll then fill hours else toString hours; fill minutes; fill secs]
      else [if padAll then fill minutes else toString minutes; fill secs] in
    let ms := Str.sliceLast 3 ("000" ++ toString milliseconds) in
    if Num.truthy milliseconds then Str.join ":" parts ++ "." ++ ms
    else Str.join ":" parts.

(** [list.slice(-n)]: the last [n] elements, the whole list when there
    are fewer (and when [n] is 0, as [-0] is 0). *)
Definition sliceFromEnd {A : Type} (n : nat) (l : list A) : list A :=
  match n with
  | O => l
  | _ => skipn (List.length l - n) l
  end.

Definition parseClockToSeconds (clock : string) : number :=
  let fields := Str.split "." clock in
  let rest := hd "" fields in
  let milliseconds := nth_error fields 1 in
  let parts := Str.split ":" rest in
  let progression :=
    sliceFromEnd (List.length parts) [MONTH; WEEK; DAY; HOUR; MINUTE; SECOND] in
  let seconds :=
    fold_left
      (fun seconds i =>
         let num := orZero (NumberOpt (nth_error parts i)) in
         let time := match nth_error progression i with
                     | Some p => Num.divPow10 (ofZ p) 3
                     | None => NaN
                     end in
         Num.add seconds (Num.mul num time))
      (seq 0 (List.length parts)) (Fin 0 0) in
  let ms := orZero (NumberOpt milliseconds) in
  Num.add seconds (Num.divPow10 ms 3).

(** ** formatFloat and formatPercentage *)

(** [places] is an integer, so [Math.pow(10, places)] is [10^places]. *)
Definition formatFloat (num : number) (places : Z) : number :=
  let multi := Fin 1 places in
  Num.divPow10 (parseInt (toString (Num.mul num multi))) places.

Definition formatPercentage (value : number) (places : Z)
    (minimumValue : option number) : string :=
  if Num.eqb value (Fin 0 0) then "0%"
  else
    let minimumValue := match minimumValue with Some v => v | None => Fin 0 0 end in
    if Num.leb (Num.abs value) minimumValue
    then "<" ++ toString (Num.mul minimumValue (Fin 100 0)) ++ "%"
    else toLocaleString (round (Num.mul value (Fin 100 0)) places)
           {| maximumSignificantDigits := None;
              maximumFractionDigits := Some places |} ++ "%".

(** ** formatAbbreviatedNumber *)

(** The step table.  Each threshold is a power of ten and is kept as
    its exponent: [1_000_000_000], [1_000_000], [1_000]. *)
Definition numberFormatSteps : list (Z * string) :=
  [(9, "b"); (6, "m"); (3, "k")].

(** The argument is [number | string]. *)
Inductive NumberOrString : Type :=
| IsNumber (x : number)
| IsString (s : string).

Definition toNumber (v : NumberOrString) : number :=
  match v with
  | IsNumber x => x
  | IsString s => Number s
  end.

(** The [for] loop over the step table, with its [continue] and its
    two [return]s; the expression after the loop is the base case. *)
Fixpoint abbreviateFrom (steps : list (Z * string)) (num : number)
    (maximumSignificantDigits : option Z) (includeDecimals : bool) : string :=
  let prefix := if Num.ltb num (Fin 0 0) then "-" else "" in
  let numAbsValue := Num.abs num in
  match steps with
  | [] =>
      toLocaleString num
        {| maximumSignificantDigits := maximumSignificantDigits;
           maximumFractionDigits := None |}
  | (suffixNum, suffix) :: rest =>
      let shortValue := Num.floor (Num.divPow10 numAbsValue suffixNum) in
      let fitsBound := Num.eqb (Num.rem numAbsValue (10 ^ suffixNum)) (Fin 0 0) in
      if Num.leb shortValue (Fin 0 0)
      then abbreviateFrom rest num maximumSignificantDigits includeDecimals
      else
        let useShortValue :=
          negb includeDecimals && (Num.gtb shortValue (Fin 10 0) || fitsBound) in
        if useShortValue then
          match maximumSignificantDigits with
          | None => prefix ++ toString shortValue ++ suffix
          | Some p =>
              let formattedNumber := toString (parseFloat (toPrecision shortValue p)) in
              prefix ++ formattedNumber ++ suffix
          end
        else
          let places := match maximumSignificantDigits with
                        | Some p => if p =? 0 then 1 else p
                        | None => 1
                        end in
          let formattedNumber :=
            toLocaleString (formatFloat (Num.divPow10 numAbsValue suffixNum) places)
              {| maximumSignificantDigits := maximumSignificantDigits;
                 maximumFractionDigits := None |} in
          prefix ++ formattedNumber ++ suffix
  end.

(** [includeDecimals] omitted is [false]. *)
Definition formatAbbreviatedNumber (num : NumberOrString)
    (maximumSignificantDigits : option Z) (includeDecimals : bool) : string :=
  abbreviateFrom numberFormatSteps (toNumber num)
    maximumSignificantDigits includeDecimals.

(** ** userDisplayName *)

(** What [userDisplayName] reads of a [User] or a [CommitAuthor]; a
    field may be missing. *)
Record UserLike : Type := {
  name : option string;
  email : option string
}.

(** [user] itself may be null or undefined. *)
Definition userDisplayName (user : option UserLike) (includeEmail : bool) : string :=
  let displayName :=
    Str.trim (match user with
              | Some u => match name u with
                          | Some n => n
                          | None => t "Unknown author"
                          end
              | None => t "Unknown author"
              end) in
  let displayName :=
    if (String.length displayName <=? 0)%nat then t "Unknown author"
    else displayName in
  let email :=
    Str.trim (match user with
              | Some u => match email u with
                          | Some e => e
                          | None => ""
                          end
              | None => ""
              end) in
  if (0 <? String.length email)%nat && negb (String.eqb email displayName)
     && includeEmail
  then displayName ++ " (" ++ email ++ ")"
  else displayName.

(** ** isSemverRelease and formatVersion *)

(** What the two functions read of a parsed release:
    [versionParsed] as a truth value, the result of [describe()]
    ([None] when it throws) and the package name if there is one. *)
Record ReleaseInfo : Type := {
  versionParsed : bool;
  describe : option string;
  package : option string
}.

Section Version.

(** The constructor of [Release] from [@sentry/release-parser]; [None]
    is a constructor that throws. *)
Variable Release : string -> option ReleaseInfo.

Definition isSemverRelease (rawVersion : string) : bool :=
  match Release rawVersion with
  | Some parsedVersion => versionParsed parsedVersion
  | None => false
  end.

Definition formatVersion (rawVersion : string) (withPackage : bool) : string :=
  match Release rawVersion with
  | Some parsedVersion =>
      match describe parsedVersion with
      | Some versionToDisplay =>
          if negb (String.length versionToDisplay =? 0)%nat
          then versionToDisplay
               ++ (match package parsedVersion with
                   | Some pkg =>
                       if withPackage && negb (String.length pkg =? 0)%nat
                       then ", " ++ pkg else ""
                   | None => ""
                   end)
          else rawVersion
      | None => rawVersion
      end
  | None => rawVersion
  end.

End Version.

(** ** formatRate *)

Section Rate.

(** [RateUnit] and [RATE_UNIT_LABELS] come from
    [sentry/utils/discover/fields]; the compact notation of
    [toLocaleString] is the host's.  All are taken as given. *)
Variable RateUnit : Type.
Variable RATE_UNIT_LABELS : RateUnit -> string.
Variable compactLocaleString : number -> Z -> string.

Definition formatRate (value : number) (unit : RateUnit)
    (minimumValue : option number) (significantDigits : option Z) : string :=
  if Num.eqb value (Fin 0 0) then toString (Fin 0 0) ++ RATE_UNIT_LABELS unit
  else
    let minimumValue := match minimumValue with Some v => v | None => Fin 0 0 end in
    let significantDigits :=
      match significantDigits with Some d => d | None => 3 end in
    if Num.leb value minimumValue
    then "<" ++ toString minimumValue ++ RATE_UNIT_LABELS unit
    else compactLocaleString value significantDigits ++ RATE_UNIT_LABELS unit.

End Rate.

(** ** formatSpanOperation *)

(** [operation?.startsWith(p)]: false for a missing operation. *)
Definition startsWith (p : string) (operation : option string) : bool :=
  match operation with
  | Some op => String.prefix p op
  | None => false
  end.

(** [operation === s]. *)
Definition isOperation (s : string) (operation : option string) : bool :=
  match operation with
  | Some op => String.eqb op s
  | None => false
  end.

Definition getLongSpanOperationDescription (operation : option string) : string :=
  if startsWith "http" operation then t "URL request"
  else if isOperation "db.redis" operation then t "cache query"
  else if startsWith "db" operation then t "database query"
  else if startsWith "task" operation then t "application task"
  else if startsWith "serialize" operation then t "serializer"
  else if startsWith "middleware" operation then t "middleware"
  else if isOperation "resource" operation then t "resource"
  else if isOperation "resource.script" operation then t "JavaScript file"
  else if isOperation "resource.css" operation then t "stylesheet"
  else if isOperation "resource.img" operation then t "image"
  else t "span".

Definition getShortSpanOperationDescription (operation : option string) : string :=
  if startsWith "http" operation then t "request"
  else if startsWith "db" operation then t "query"
  else if startsWith "task" operation then t "task"
  else if startsWith "serialize" operation then t "serializer"
  else if startsWith "middleware" operation then t "middleware"
  else if startsWith "resource" operation then t "resource"
  else t "span".

(** The [length] argument is ['short'] or ['long']. *)
Inductive DescriptionLength : Type := short | long.

Definition formatSpanOperation (operation : option string)
    (length : DescriptionLength) : string :=
  match length with
  | long => getLongSpanOperationDescription operation
  | short => getShortSpanOperationDescription operation
  end.

(** Unary minus. *)
Definition negate (x : number) : number :=
  match x with
  | NaN => NaN
  | PosInf => NegInf
  | NegInf => PosInf
  | Fin m e => Fin (- m) e
  end.

(** * The same formatters on binary64 numbers

    The embedding above computes on exact decimals.  The module below
    embeds the clock, percentage, truncation and abbreviation functions
    once more on the script's own numbers, IEEE 754 binary64, with the
    arithmetic of the processor: every product, sum and quotient is
    rounded to the nearest double, large values overflow to infinity,
    numbers print with the fewest digits that read back as the same
    double, and a numeric literal is read as the nearest double.

    Strings hold the UTF-8 bytes of the script's strings. *)

Module F64.

(** ** Between doubles and exact decimals *)

(** The exact value of a double. *)
Definition toExact (x : float) : number :=
  match Prim2SF x with
  | S754_nan => NaN
  | S754_infinity false => PosInf
  | S754_infinity true => NegInf
  | S754_zero _ => Fin 0 0
  | S754_finite s m e =>
      let v := if 0 <=? e then Fin (Zpos m * 2 ^ e) 0
               else Fin (Zpos m * 5 ^ (- e)) e in
      if s then negate v else v
  end.

(** [a / q / 2^E] as a fraction of integers. *)
Definition scaled (a q E : Z) : Z * Z :=
  if 0 <=? E then (a, q * 2 ^ E) else (a * 2 ^ (- E), q).

(** The double nearest to [a / q] for positive integers [a] and [q],
    ties to the even mantissa; subnormal below [2^-1022], infinity from
    [2^1024 - 2^970] on. *)
Definition nearestDouble (a q : Z) : float :=
  let E1 := Z.log2 a - Z.log2 q - 52 in
  let '(N1, D1) := scaled a q E1 in
  let E2 := if N1 / D1 <? 2 ^ 52 then E1 - 1 else E1 in
  let E := Z.max E2 (-1074) in
  let '(N, D) := scaled a q E in
  let n := N / D in
  let r := N mod D in
  let n' := if (D <? 2 * r) || ((D =? 2 * r) && Z.odd n) then n + 1 else n in
  Z.ldexp (PrimFloat.of_uint63 (Uint63.of_Z n')) E.

(** The double nearest to the decimal [m * 10^e]. *)
Definition ofDecimal (m e : Z) : float :=
  if m =? 0 then PrimFloat.zero
  else
    let a := Z.abs m in
    let f := if 0 <=? e then nearestDouble (a * 10 ^ e) 1
             else nearestDouble a (10 ^ (- e)) in
    if m <? 0 then PrimFloat.opp f else f.

Definition ofExact (x : number) : float :=
  match x with
  | NaN => PrimFloat.nan
  | PosInf => PrimFloat.infinity
  | NegInf => PrimFloat.neg_infinity
  | Fin m e => ofDecimal m e
  end.

(** An integer as a double (rounded beyond 2^53). *)
Definition ofZ (z : Z) : float := ofDecimal z 0.

(** ** Tests and [Math] *)

Definition isNaN (x : float) : bool := PrimFloat.is_nan x.

(** Truthiness: false for 0, -0 and NaN. *)
Definition truthy (x : float) : bool :=
  negb (PrimFloat.is_nan x || PrimFloat.eqb x PrimFloat.zero).

Definition gtb (x y : float) : bool := PrimFloat.ltb y x.
Definition geb (x y : float) : bool := PrimFloat.leb y x.

(** [Math.floor]: a double with a fraction is below 2^52 in magnitude,
    so its floor is a double. *)
Definition floor (x : float) : float :=
  match toExact x with
  | Fin m e => if 0 <=? e then x else ofZ (m / 10 ^ (- e))
  | _ => x
  end.

(** [-0] where a negative number comes out as zero. *)
Definition signedZero (negative : bool) (z : Z) : float :=
  if (z =? 0) && negative then PrimFloat.neg_zero else ofZ z.

(** [Math.ceil]. *)
Definition ceil (x : float) : float :=
  match toExact x with
  | Fin m e =>
      if 0 <=? e then x else signedZero (m <? 0) (- ((- m) / 10 ^ (- e)))
  | _ => x
  end.

(** [Math.round]: the nearest integer, halves towards +Infinity,
    computed on the exact value (lodash [round] at precision 0). *)
Definition mathRound (x : float) : float :=
  match toExact x with
  | Fin m e =>
      if 0 <=? e then x
      else signedZero (m <? 0) ((2 * m + 10 ^ (- e)) / (2 * 10 ^ (- e)))
  | _ => x
  end.

(** [x % y]: the exact remainder of the truncated division, with the
    sign of the dividend, also when it is zero; NaN for an infinite
    dividend or a zero divisor. *)
Definition rem (x y : float) : float :=
  match toExact x, toExact y with
  | Fin m1 e1, Fin m2 e2 =>
      if m2 =? 0 then PrimFloat.nan
      else if m1 =? 0 then x
      else
        let '(a, b, c) := Num.align m1 e1 m2 e2 in
        if Z.rem a b =? 0 then signedZero (m1 <? 0) 0 else ofDecimal (Z.rem a b) c
  | Fin _ _, (PosInf | NegInf) => x
  | _, _ => PrimFloat.nan
  end.

(** ** Numbers as strings *)

(** Whether the decimal [c * 10^t] reads back as [x]. *)
Definition readsBack (x : float) (c t : Z) : bool :=
  PrimFloat.eqb (ofDecimal c t) x.

(** The fewest digits that read back as the positive double [x],
    whose exact value is [m * 10^e]: with [k] digits the candidates are
    the two neighbours of the value among the multiples of
    [10^(n - k)], the nearer first. *)
Fixpoint shortest (x : float) (m e n : Z) (k : Z) (fuel : nat) : Z * Z :=
  match fuel with
  | O => (m, e)
  | S fuel' =>
      let t := n - k in
      if t <=? e then (m, e)
      else
        let d := 10 ^ (t - e) in
        let lo := m / d in
        let r := m mod d in
        let hi := lo + 1 in
        let first := if 2 * r <? d then lo
                     else if d <? 2 * r then hi
                     else if Z.even lo then lo else hi in
        let second := if first =? lo then hi else lo in
        if readsBack x first t then (first, t)
        else if readsBack x second t then (second, t)
        else shortest x m e n (k + 1) fuel'
  end.

(** [Number.prototype.toString] in radix 10. *)
Definition toString (x : float) : string :=
  match toExact x with
  | NaN => "NaN"
  | PosInf => "Infinity"
  | NegInf => "-Infinity"
  | Fin m e =>
      if m =? 0 then "0"
      else
        let a := Z.abs m in
        let n := numDigits a + e in
        let '(c, t) := shortest (PrimFloat.abs x) a e n 1 17 in
        (if m <? 0 then "-" else "") ++ toStringPos c t
  end.

(** ** Strings as numbers *)

(** The number of bytes of the white-space or line-terminator code
    point that starts [s] (TAB, LF, VT, FF, CR, SP, U+00A0, U+1680,
    U+2000 to U+200A, U+2028, U+2029, U+202F, U+205F, U+3000, U+FEFF),
    0 when [s] starts with none. *)
Definition wsBytes (s : string) : nat :=
  match s with
  | String a r =>
      let n := nat_of_ascii a in
      if (n =? 32)%nat || ((9 <=? n)%nat && (n <=? 13)%nat) then 1%nat
      else
        match r with
        | String b (String c _) =>
            let m := nat_of_ascii b in
            let k := nat_of_ascii c in
            if (n =? 194)%nat && (m =? 160)%nat then 2%nat
            else if (n =? 225)%nat && (m =? 154)%nat && (k =? 128)%nat then 3%nat
            else if (n =? 226)%nat && (m =? 128)%nat
                    && (((128 <=? k)%nat && (k <=? 138)%nat) || (k =? 168)%nat
                        || (k =? 169)%nat || (k =? 175)%nat) then 3%nat
            else if (n =? 226)%nat && (m =? 129)%nat && (k =? 159)%nat then 3%nat
            else if (n =? 227)%nat && (m =? 128)%nat && (k =? 128)%nat then 3%nat
            else if (n =? 239)%nat && (m =? 187)%nat && (k =? 191)%nat then 3%nat
            else 0%nat
        | String b "" =>
            if (n =? 194)%nat && (nat_of_ascii b =? 160)%nat then 2%nat else 0%nat
        | "" => 0%nat
        end
  | "" => 0%nat
  end.

(** [s] cut into white-space code points (marked [true]) and the
    other bytes, one by one. *)
Fixpoint tokens (fuel : nat) (s : string) : list (bool * string) :=
  match fuel with
  | O => []
  | S fuel' =>
      match s with
      | "" => []
      | String a r =>
          match wsBytes s with
          | O => (false, String a "") :: tokens fuel' r
          | n => (true, substring 0 n s)
                   :: tokens fuel' (substring n (String.length s - n) s)
          end
      end
  end.

Fixpoint dropSpaces (l : list (bool * string)) : list (bool * string) :=
  match l with
  | (true, _) :: r => dropSpaces r
  | _ => l
  end.

Definition untoken (l : list (bool * string)) : string :=
  fold_right (fun t acc => snd t ++ acc) "" l.

Definition trimStart (s : string) : string :=
  untoken (dropSpaces (tokens (String.length s) s)).

(** [s.trim()]. *)
Definition trim (s : string) : string :=
  untoken (rev (dropSpaces (rev (dropSpaces (tokens (String.length s) s))))).

(** The value of a trimmed, non-empty numeric literal; NaN when [t]
    is none. *)
Definition ofLiteral (t : string) : float :=
  match radixLiteral t with
  | Some x => ofExact x
  | None =>
      let '(neg, r) := takeSign t in
      let mag := if String.eqb r "Infinity" then PrimFloat.infinity
                 else match decimalPrefix r with
                      | Some (x, "") => ofExact x
                      | _ => PrimFloat.nan
                      end in
      if neg then PrimFloat.opp mag else mag
  end.

(** [Number(s)] on a string. *)
Definition Number (s : string) : float :=
  let t := trim s in
  if Str.isEmpty t then PrimFloat.zero else ofLiteral t.

(** [Number(v)] for a value that may be [undefined]. *)
Definition NumberOpt (v : option string) : float :=
  match v with
  | Some s => Number s
  | None => PrimFloat.nan
  end.

(** [parseInt(s, 10)]. *)
Definition parseInt (s : string) : float :=
  let '(neg, r) := takeSign (trimStart s) in
  let '(d, _) := Str.spanDigits r in
  match d, Str.digitsValue d with
  | String _ _, Some v => if neg then PrimFloat.opp (ofZ v) else ofZ v
  | _, _ => PrimFloat.nan
  end.

(** [parseFloat(s)]. *)
Definition parseFloat (s : string) : float :=
  let '(neg, r) := takeSign (trimStart s) in
  let mag := if String.prefix "Infinity" r then PrimFloat.infinity
             else match decimalPrefix r with
                  | Some (x, _) => ofExact x
                  | None => PrimFloat.nan
                  end in
  if neg then PrimFloat.opp mag else mag.

(** [x || 0]. *)
Definition orZero (x : float) : float := if truthy x then x else PrimFloat.zero.

(** The decimal that [toString] prints for a finite [x], sign
    included. *)
Definition shortestDecimal (x : float) : Z * Z :=
  match toExact x with
  | Fin m e =>
      if m =? 0 then (0, 0)
      else
        let a := Z.abs m in
        let '(c, t) := shortest (PrimFloat.abs x) a e (numDigits a + e) 1 17 in
        (if m <? 0 then - c else c, t)
  | _ => (0, 0)
  end.

(** lodash [round(x, precision)]: at a precision other than 0 the
    number is printed, its decimal exponent is raised by the precision,
    the result is read back and rounded by [Math.round], and the same is
    done in the other direction; a zero keeps its sign on the way. *)
Definition round (x : float) (precision : Z) : float :=
  let precision := Z.min precision 292 in
  if negb (precision =? 0) && PrimFloat.is_finite x then
    if PrimFloat.eqb x PrimFloat.zero then x
    else
      let '(c, t) := shortestDecimal x in
      let value := mathRound (ofDecimal c (t + precision)) in
      if PrimFloat.eqb value PrimFloat.zero then value
      else
        let '(c', t') := shortestDecimal value in
        ofDecimal c' (t' - precision)
  else mathRound x.

(** [Math.pow(10, places)] for an integer [places], taken as the
    correctly rounded power (exact for 0 to 22). *)
Definition pow10 (places : Z) : float := ofDecimal 1 places.

(** ** What a call returns *)

(** A formatter returns a string or throws the [RangeError] of the
    host's option checks. *)
Inductive Result : Type :=
| Ok (s : string)
| RangeError.

Definition andThen (r : Result) (k : string -> Result) : Result :=
  match r with
  | Ok s => k s
  | RangeError => RangeError
  end.

(** [x.toPrecision(p)]: a precision outside 1..100 is refused, for a
    finite [x]. *)
Definition toPrecision (x : float) (p : Z) : Result :=
  if PrimFloat.is_finite x then
    if (1 <=? p) && (p <=? 100) then Ok (toPrecision (toExact x) p)
    else RangeError
  else Ok (toString x).

(** ** The formatters *)

Definition HOUR : float := ofZ 3600000.
Definition MINUTE : float := ofZ 60000.
Definition SECOND : float := ofZ 1000.

(** [divideBy] of [formatSecondsToClock]. *)
Definition divideBy (msValue time : float) : float * float :=
  (if PrimFloat.ltb msValue PrimFloat.zero then ceil (PrimFloat.div msValue time)
   else floor (PrimFloat.div msValue time),
   rem msValue time).

Definition fill (num : float) : string :=
  if PrimFloat.ltb num (ofZ 10) then "0" ++ toString num else toString num.

Definition formatSecondsToClock (seconds : float) (padAll : bool) : string :=
  if PrimFloat.eqb seconds PrimFloat.zero || isNaN seconds
  then (if padAll then "00:00" else "0:00")
  else
    let absMSValue := round (PrimFloat.abs (PrimFloat.mul seconds (ofZ 1000))) 0 in
    let '(hours, rMins) := divideBy absMSValue HOUR in
    let '(minutes, rSeconds) := divideBy rMins MINUTE in
    let '(secs, milliseconds) := divideBy rSeconds SECOND in
    let parts :=
      if truthy hours
      then [if padAll then fill hours else toString hours; fill minutes; fill secs]
      else [if padAll then fill minutes else toString minutes; fill secs] in
    let ms := Str.sliceLast 3 ("000" ++ toString milliseconds) in
    if truthy milliseconds then Str.join ":" parts ++ "." ++ ms
    else Str.join ":" parts.

Definition parseClockToSeconds (clock : string) : float :=
  let fields := Str.split "." clock in
  let rest := hd "" fields in
  let milliseconds := nth_error fields 1 in
  let parts := Str.split ":" rest in
  let progression :=
    sliceFromEnd (List.length parts)
      (map ofZ [2629800000; 604800000; 86400000; 3600000; 60000; 1000]) in
  let seconds :=
    fold_left
      (fun seconds i =>
         let num := orZero (NumberOpt (nth_error parts i)) in
         let time := match nth_error progression i with
                     | Some p => PrimFloat.div p (ofZ 1000)
                     | None => PrimFloat.nan
                     end in
         PrimFloat.add seconds (PrimFloat.mul num time))
      (seq 0 (List.length parts)) PrimFloat.zero in
  let ms := orZero (NumberOpt milliseconds) in
  PrimFloat.add seconds (PrimFloat.div ms (ofZ 1000)).

Definition formatFloat (num : float) (places : Z) : float :=
  let multi := pow10 places in
  PrimFloat.div (parseInt (toString (PrimFloat.mul num multi))) multi.

(** The step table, thresholds as doubles. *)
Definition numberFormatSteps : list (float * string) :=
  [(ofZ 1000000000, "b"); (ofZ 1000000, "m"); (ofZ 1000, "k")].

Section Host.

(** What the host's locale formatting prints for a number under
    options it accepts; which locale that is, is the host's affair. *)
Variable localeString : float -> NumberFormatOptions -> string.

(** [x.toLocaleString(undefined, options)]: the options are checked
    first, whatever the number. *)
Definition toLocaleString (x : float) (o : NumberFormatOptions) : Result :=
  let sigOk := match maximumSignificantDigits o with
               | Some p => (1 <=? p) && (p <=? 21)
               | None => true
               end in
  let fracOk := match maximumFractionDigits o with
                | Some f => (0 <=? f) && (f <=? 100)
                | None => true
                end in
  if sigOk && fracOk then Ok (localeString x o) else RangeError.

Definition formatPercentage (value : float) (places : Z)
    (minimumValue : option float) : Result :=
  if PrimFloat.eqb value PrimFloat.zero then Ok "0%"
  else
    let minimumValue :=
      match minimumValue with Some v => v | None => PrimFloat.zero end in
    if PrimFloat.leb (PrimFloat.abs value) minimumValue
    then Ok ("<" ++ toString (PrimFloat.mul minimumValue (ofZ 100)) ++ "%")
    else
      andThen
        (toLocaleString (round (PrimFloat.mul value (ofZ 100)) places)
           {| maximumSignificantDigits := None;
              maximumFractionDigits := Some places |})
        (fun text => Ok (text ++ "%")).

(** The loop of [formatAbbreviatedNumber] over the step table. *)
Fixpoint abbreviateFrom (steps : list (float * string)) (num : float)
    (maximumSignificantDigits : option Z) (includeDecimals : bool) : Result :=
  let prefix := if PrimFloat.ltb num PrimFloat.zero then "-" else "" in
  let numAbsValue := PrimFloat.abs num in
  match steps with
  | [] =>
      toLocaleString num
        {| maximumSignificantDigits := maximumSignificantDigits;
           maximumFractionDigits := None |}
  | (suffixNum, suffix) :: rest =>
      let shortValue := floor (PrimFloat.div numAbsValue suffixNum) in
      let fitsBound := PrimFloat.eqb (rem numAbsValue suffixNum) PrimFloat.zero in
      if PrimFloat.leb shortValue PrimFloat.zero
      then abbreviateFrom rest num maximumSignificantDigits includeDecimals
      else
        let useShortValue :=
          negb includeDecimals && (gtb shortValue (ofZ 10) || fitsBound) in
        if useShortValue then
          match maximumSignificantDigits with
          | None => Ok (prefix ++ toString shortValue ++ suffix)
          | Some p =>
              andThen (toPrecision shortValue p)
                (fun text => Ok (prefix ++ toString (parseFloat text) ++ suffix))
          end
        else
          let places := match maximumSignificantDigits with
                        | Some p => if p =? 0 then 1 else p
                        | None => 1
                        end in
          andThen
            (toLocaleString (formatFloat (PrimFloat.div numAbsValue suffixNum) places)
               {| maximumSignificantDigits := maximumSignificantDigits;
                  maximumFractionDigits := None |})
            (fun formattedNumber => Ok (prefix ++ formattedNumber ++ suffix))
  end.

End Host.

(** The argument of [formatAbbreviatedNumber] is [number | string]. *)
Inductive NumberOrString : Type :=
| IsNumber (x : float)
| IsString (s : string).

(** [Number(number)] on the argument. *)
Definition toNumber (v : NumberOrString) : float :=
  match v with
  | IsNumber x => x
  | IsString s => Number s
  end.

Definition formatAbbreviatedNumber (localeString : float -> NumberFormatOptions -> string)
    (num : NumberOrString) (maximumSignificantDigits : option Z)
    (includeDecimals : bool) : Result :=
  abbreviateFrom localeString numberFormatSteps (toNumber num)
    maximumSignificantDigits includeDecimals.

End F64.

(** * Vocabulary of the statements *)

(** A host whose locale formatting is the en-US one of the first
    embedding, applied to the exact value of the double. *)
Definition hostEnUS (x : float) (o : NumberFormatOptions) : string :=
  toLocaleString (F64.toExact x) o.

(** ** Strings of digits *)

Fixpoint allb (p : ascii -> bool) (s : string) : bool :=
  match s with
  | "" => true
  | String c r => p c && allb p r
  end.

Definition allDigits (s : string) : bool := allb Str.isDigit s.

(** [fill] on an integer, as a string of digits. *)
Definition fillZ (z : Z) : string :=
  if z <? 10 then "0" ++ Str.digits z else Str.digits z.

(** ** Quotients of the step table *)

(** [Math.floor(numAbsValue / 10^k)] for the number [x]. *)
Definition shortValueAt (x : number) (k : Z) : number :=
  Num.floor (Num.divPow10 (Num.abs x) k).

(** ** Segments of an exact duration *)

(** The units a block of [convertDuration] exists for. *)
Inductive TimeUnit : Type :=
| UWeek | UDay | UHour | UMinute | USecond | UMillisecond.

Definition unitMs (u : TimeUnit) : Z :=
  match u with
  | UWeek => WEEK
  | UDay => DAY
  | UHour => HOUR
  | UMinute => MINUTE
  | USecond => SECOND
  | UMillisecond => MILLISECOND
  end.

Definition unitShort (u : TimeUnit) : string :=
  match u with
  | UWeek => "wk"
  | UDay => "d"
  | UHour => "hr"
  | UMinute => "min"
  | USecond => "s"
  | UMillisecond => "ms"
  end.

Definition unitSingular (u : TimeUnit) : string :=
  match u with
  | UWeek => "week"
  | UDay => "day"
  | UHour => "hour"
  | UMinute => "minute"
  | USecond => "second"
  | UMillisecond => "millisecond"
  end.

Definition unitPlural (u : TimeUnit) : string := unitSingular u ++ "s".

(** A segment: the number printed, the count the plural is chosen by
    (they differ in the millisecond block only, which prints the signed
    value and counts the absolute one), and the unit. *)
Record Segment : Type := {
  shown : number;
  counted : number;
  segUnit : TimeUnit
}.

Definition segmentSuffix (abbr : bool) (s : Segment) : string :=
  if abbr then t (unitShort (segUnit s))
  else " " ++ tn (unitSingular (segUnit s)) (unitPlural (segUnit s)) (counted s).

(** The text of a list of segments: every segment but a millisecond
    one is followed by a space. *)
Fixpoint render (abbr : bool) (segs : list Segment) : string :=
  match segs with
  | [] => ""
  | s :: rest =>
      toString (shown s) ++ segmentSuffix abbr s
        ++ (match segUnit s with UMillisecond => "" | _ => " " end)
        ++ render abbr rest
  end.

(** A segment given by integers: quotient, count and unit. *)
Definition segOfZ (z : Z * Z * TimeUnit) : Segment :=
  let '(q, c, u) := z in {| shown := Fin q 0; counted := Fin c 0; segUnit := u |}.

(** The milliseconds a list of segments stands for. *)
Fixpoint totalMs (zs : list (Z * Z * TimeUnit)) : Z :=
  match zs with
  | [] => 0
  | (q, _, u) :: rest => q * unitMs u + totalMs rest
  end.

(** How many blocks a magnitude of [V] milliseconds can still go
    through. *)
Definition rank (V : Z) : nat :=
  if WEEK <=? V then 6
  else if DAY <=? V then 5
  else if HOUR <=? V then 4
  else if MINUTE <=? V then 3
  else if SECOND <=? V then 2
  else if V =? 0 then 0
  else 1.

Definition unitRank (u : TimeUnit) : nat :=
  match u with
  | UWeek => 6
  | UDay => 5
  | UHour => 4
  | UMinute => 3
  | USecond => 2
  | UMillisecond => 1
  end.

Ltac unfold_units :=
  unfold unitMs, WEEK, DAY, HOUR, MINUTE, SECOND, MILLISECOND in *.

(** ** Fields of a clock *)

(** A non-empty string of digits and the integer it denotes. *)
Definition digitField (p : string) (v : Z) : Prop :=
  p <> "" /\ allDigits p = true /\ Str.digitsValue p = Some v.

(** The progression of [parseClockToSeconds], in seconds. *)
Definition unitSeconds : list Z := [2629800; 604800; 86400; 3600; 60; 1].

(** Each value times the weight at its position. *)
Fixpoint weighted (vs ws : list Z) : Z :=
  match vs, ws with
  | v :: vs', w :: ws' => v * w + weighted vs' ws'
  | _, _ => 0
  end.

(** The loop of [parseClockToSeconds] on the colon-separated parts. *)
Definition clockPartsSeconds (parts : list string) : number :=
  let progression :=
    sliceFromEnd (List.length parts) [MONTH; WEEK; DAY; HOUR; MINUTE; SECOND] in
  fold_left
    (fun seconds i =>
       let num := orZero (NumberOpt (nth_error parts i)) in
       let time := match nth_error progression i with
                   | Some p => Num.divPow10 (ofZ p) 3
                   | None => NaN
                   end in
       Num.add seconds (Num.mul num time))
    (seq 0 (List.length parts)) (Fin 0 0).

(** The leading bucket of a clock: padded or not. *)
Definition leadZ (padAll : bool) (z : Z) : string :=
  if padAll then fillZ z else Str.digits z.

(** The fraction of a clock: the milliseconds on three digits. *)
Definition msField (r : Z) : string := Str.sliceLast 3 ("000" ++ Str.digits r).

(** Whether [s] is a non-empty string of digits denoting [v]. *)
Definition isDigitField (s : string) (v : Z) : bool :=
  negb (Str.isEmpty s) && allDigits s
  && match Str.digitsValue s with Some x => x =? v | None => false end.

(** Successive segments have strictly smaller units. *)
Fixpoint descending (zs : list (Z * Z * TimeUnit)) : Prop :=
  match zs with
  | [] => True
  | z :: rest =>
      Forall (fun z' => unitMs (snd z') < unitMs (snd z)) rest /\ descending rest
  end.

(** The unit whose block a precision token can lock in: the tokens
    'years' and 'milliseconds' name no block. *)
Definition lockUnit (p : Precision) : option TimeUnit :=
  match p with
  | Weeks => Some UWeek
  | Days => Some UDay
  | Hours => Some UHour
  | Minutes => Some UMinute
  | Seconds => Some USecond
  | Years | Milliseconds => None
  end.

(** A run of [convertDuration] that elides nothing: the segments [zs]
    are what it returns for the rounded value [M] of rounded magnitude
    [V]; they add up to [M], carry its sign, have units of at most [V]
    in strictly descending order, and are none only for [V = 0]. *)
Definition fullRun (minSuffix : string) (fuel : nat) (x : number) (abbr : bool)
    (M V : Z) (zs : list (Z * Z * TimeUnit)) : Prop :=
  convertDuration fuel minSuffix x abbr = Some (render abbr (map segOfZ zs))
  /\ totalMs zs = M
  /\ (V = 0 <-> zs = [])
  /\ Forall (fun z => unitMs (snd z) <= V) zs
  /\ Forall (fun z => 0 <= fst (fst z) * M) zs
  /\ descending zs.

(** * Properties *)

(** ** Basic facts about numbers *)

Lemma pow10_0 : 10 ^ 0 = 1.
Proof. reflexivity. Qed.

Lemma round_Fin_int (m e p : Z) : exists v, round (Fin m e) p = Fin v (- p).
Proof.
  unfold round. destruct (p =? 0) eqn:Hp.
  - apply Z.eqb_eq in Hp. subst p. cbn [Num.round Z.opp].
    destruct (0 <=? e); eexists; reflexivity.
  - cbn [Num.round]. destruct (0 <=? e + p); cbn [Num.divPow10];
      eexists; reflexivity.
Qed.

Lemma eqb_Fin_0 (v : Z) : Num.eqb (Fin v 0) (Fin 0 0) = (v =? 0).
Proof.
  unfold Num.eqb, Num.align. cbn. rewrite Z.mul_1_r. reflexivity.
Qed.

Lemma ltb_Fin_int (a b : Z) : Num.ltb (Fin a 0) (Fin b 0) = (a <? b).
Proof.
  unfold Num.ltb, Num.align. cbn. rewrite !Z.mul_1_r. reflexivity.
Qed.

Lemma leb_Fin_int (a b : Z) : Num.leb (Fin a 0) (Fin b 0) = (a <=? b).
Proof.
  unfold Num.leb. rewrite ltb_Fin_int. rewrite Z.ltb_antisym, negb_involutive.
  reflexivity.
Qed.

Lemma geb_Fin_int (a b : Z) : Num.geb (Fin a 0) (Fin b 0) = (b <=? a).
Proof. unfold Num.geb. apply leb_Fin_int. Qed.

Lemma truthy_Fin (v e : Z) : Num.truthy (Fin v e) = negb (v =? 0).
Proof. reflexivity. Qed.

(** ** The host model on sample values *)

Example toString_samples :
  map toString [Fin 15 2; Fin 1234 (-2); Fin 1 (-7); Fin (-5) (-3); Fin 12 20;
                Fin 15 (-8); Fin 3915 0; Fin 1500 (-2)]
  = ["1500"; "12.34"; "1e-7"; "-0.005"; "1.2e+21"; "1.5e-7"; "3915"; "15"].
Proof. vm_compute. reflexivity. Qed.

Example Number_samples :
  map Number ["05"; " -3.50"; ""; "0x1f"; "5."; ".5"; "1e3"; "."; "12abc"; "abc"]
  = [Fin 5 0; Fin (-350) (-2); Fin 0 0; Fin 31 0; Fin 5 0; Fin 5 (-1); Fin 1 3;
     NaN; NaN; NaN].
Proof. vm_compute. reflexivity. Qed.

Example parseInt_samples :
  map parseInt ["12.34"; "1e-7"; " -3.5"; "NaN"; ""]
  = [Fin 12 0; Fin 1 0; Fin (-3) 0; NaN; NaN].
Proof. vm_compute. reflexivity. Qed.

Example toPrecision_samples :
  map (fun xp => toString (parseFloat (toPrecision (fst xp) (snd xp))))
      [(Fin 12 0, 1); (Fin 12 0, 2); (Fin 123456 0, 2); (Fin 999 0, 2)]
  = ["10"; "12"; "120000"; "1000"].
Proof. vm_compute. reflexivity. Qed.

Example getExactDuration_samples :
  getExactDuration 7 (ofZ 3915) false Milliseconds = Some "1 hour 5 minutes 15 seconds" /\
  getExactDuration 7 (ofZ 234235435) true Milliseconds = Some "387wk 2d 1hr 23min 55s" /\
  getExactDuration 7 (Fin 15 (-1)) false Seconds = Some "1 second 0 seconds" /\
  getExactDuration 7 (Fin (-3915123) (-3)) false Years
  = Some "-1 hours -5 minutes -15 seconds -123 milliseconds".
Proof. repeat split; vm_compute; reflexivity. Qed.

Example clock_samples :
  formatSecondsToClock (Fin 39155 (-1)) true = "01:05:15.500" /\
  formatSecondsToClock (ofZ 360000) true = "100:00:00" /\
  map parseClockToSeconds ["01:05:15"; "1:05:15.500"; "5"; "abc"]
  = [Fin 3915000 (-3); Fin 3915500 (-3); Fin 5000 (-3); Fin 0 (-3)].
Proof. repeat split; vm_compute; reflexivity. Qed.

Example formatAbbreviatedNumber_samples :
  map (fun x => formatAbbreviatedNumber (IsNumber x) None false)
      [ofZ 999; ofZ 1234; ofZ 12345000; PosInf]
  = ["999"; "1.2k"; "12m"; "Infinityb"].
Proof. vm_compute. reflexivity. Qed.

(** ** formatSecondsToClock on fixed inputs *)

(** C3, as stated, fails: with the default [padAll] the hour bucket is
    padded like the others, so 3915 seconds do not render as "1:05:15". *)
Lemma C3_clock_3915_is_padded :
  formatSecondsToClock (ofZ 3915) true <> "1:05:15".
Proof. vm_compute. discriminate. Qed.

(** C3, amended: [formatSecondsToClock(3915)] is "01:05:15" at the
    default options and "1:05:15" with [padAll] false;
    [formatSecondsToClock(0)] is "00:00"; and
    [formatSecondsToClock(5, {padAll: false})] is "0:05". *)
Theorem C3_clock_examples :
  formatSecondsToClock (ofZ 3915) true = "01:05:15" /\
  formatSecondsToClock (ofZ 3915) false = "1:05:15" /\
  formatSecondsToClock (ofZ 0) true = "00:00" /\
  formatSecondsToClock (ofZ 5) false = "0:05".
Proof. repeat split; vm_compute; reflexivity. Qed.

(** C4, as stated, fails: an infinite input is not caught by the guard
    (it tests [=== 0] and [isNaN] only) and runs through the general
    division, which yields "Infinity:NaN:NaN". *)
Lemma C4_clock_infinity_not_special :
  formatSecondsToClock PosInf true = "Infinity:NaN:NaN" /\
  formatSecondsToClock NegInf true = "Infinity:NaN:NaN" /\
  formatSecondsToClock PosInf true <> "00:00" /\
  formatSecondsToClock PosInf false <> "0:00".
Proof. repeat split; vm_compute; try reflexivity; discriminate. Qed.

(** C4, amended: for every input that is zero or NaN,
    [formatSecondsToClock] returns exactly "00:00" when [padAll] is true
    and "0:00" when it is false, whatever the general division would
    give. *)
Theorem C4_clock_zero_or_nan (x : number) (padAll : bool) :
  Num.eqb x (Fin 0 0) = true \/ Num.isNaN x = true ->
  formatSecondsToClock x padAll = if padAll then "00:00" else "0:00".
Proof.
  intros [H | H]; unfold formatSecondsToClock; rewrite H;
    [reflexivity | rewrite orb_true_r; reflexivity].
Qed.

Lemma C4_clock_zero_or_nan_witness :
  formatSecondsToClock NaN true = "00:00".
Proof. apply (C4_clock_zero_or_nan NaN true). right. reflexivity. Defined.

(** ** formatFloat *)

(** C6 does not hold of the code.  The product is turned into a string
    before it is truncated, and a number below 1e-6 (or from 1e21 on)
    prints in exponent notation, of which [parseInt] reads the mantissa
    only: [formatFloat(1e-7, 0)] is 1, not 0, and [formatFloat(5e21, 0)]
    is 5.  The first result is larger in magnitude than the input. *)
Theorem C6_formatFloat_exponent_notation :
  toString (Num.mul (Fin 1 (-7)) (Fin 1 0)) = "1e-7" /\
  formatFloat (Fin 1 (-7)) 0 = Fin 1 0 /\
  Num.ltb (Num.abs (Fin 1 (-7))) (Num.abs (formatFloat (Fin 1 (-7)) 0)) = true /\
  formatFloat (Fin 5 21) 0 = Fin 5 0.
Proof. repeat split. Qed.

(** ** getExactDuration: precision *)

Lemma convertDuration_S (fuel : nat) (minSuffix : string) (secs : number) (abbr : bool) :
  convertDuration (S fuel) minSuffix secs abbr =
  let msValue := round (Num.mul secs (Fin 1000 0)) 0 in
  let value := round (Num.abs (Num.mul secs (Fin 1000 0))) 0 in
  let rec := fun r => convertDuration fuel minSuffix r abbr in
  if Num.geb value (ofZ WEEK) || (Num.truthy value && String.eqb minSuffix " weeks")
  then unitBlock rec minSuffix msValue abbr WEEK "wk" "week" "weeks"
  else if Num.geb value (ofZ DAY) || (Num.truthy value && String.eqb minSuffix " days")
  then unitBlock rec minSuffix msValue abbr DAY "d" "day" "days"
  else if Num.geb value (ofZ HOUR) || (Num.truthy value && String.eqb minSuffix " hours")
  then unitBlock rec minSuffix msValue abbr HOUR "hr" "hour" "hours"
  else if Num.geb value (ofZ MINUTE) || (Num.truthy value && String.eqb minSuffix " minutes")
  then unitBlock rec minSuffix msValue abbr MINUTE "min" "minute" "minutes"
  else if Num.geb value (ofZ SECOND) || (Num.truthy value && String.eqb minSuffix " seconds")
  then unitBlock rec minSuffix msValue abbr SECOND "s" "second" "seconds"
  else if Num.eqb value (Fin 0 0) then Some ""
  else
    let suffix := if abbr then t "ms"
                  else " " ++ tn "millisecond" "milliseconds" value in
    Some (toString msValue ++ suffix).
Proof. reflexivity. Qed.

(** Abbreviated, at precision 'minutes', a remainder of 15 seconds is
    handed to the minute block again and again. *)
Lemma convertDuration_15s_abbr_minutes (fuel : nat) :
  convertDuration fuel " minutes" (Fin 15000 (-3)) true = None.
Proof.
  induction fuel as [| fuel IH]; [reflexivity |].
  rewrite convertDuration_S.
  change (round (Num.mul (Fin 15000 (-3)) (Fin 1000 0)) 0) with (Fin 15000 0).
  change (round (Num.abs (Num.mul (Fin 15000 (-3)) (Fin 1000 0))) 0) with (Fin 15000 0).
  cbv zeta.
  change (Num.geb (Fin 15000 0) (ofZ WEEK) || (Num.truthy (Fin 15000 0) && (" minutes" =? " weeks")%string)) with false.
  change (Num.geb (Fin 15000 0) (ofZ DAY) || (Num.truthy (Fin 15000 0) && (" minutes" =? " days")%string)) with false.
  change (Num.geb (Fin 15000 0) (ofZ HOUR) || (Num.truthy (Fin 15000 0) && (" minutes" =? " hours")%string)) with false.
  change (Num.geb (Fin 15000 0) (ofZ MINUTE) || (Num.truthy (Fin 15000 0) && (" minutes" =? " minutes")%string)) with true.
  cbv iota. unfold unitBlock.
  change (divideBy (Fin 15000 0) MINUTE) with (Fin 0 0, Fin 15000 0).
  cbv iota beta. change (Num.divPow10 (Fin 15000 0) 3) with (Fin 15000 (-3)).
  rewrite IH. reflexivity.
Qed.

(** C2 does not hold of the code.  The block of a unit compares its own
    suffix with [" " + precision]; the abbreviated suffix ("min") and
    the singular word (" minute") never equal it.  So in abbreviated form
    nothing is ever elided and the lock-in case calls itself with an
    unchanged remainder: [getExactDuration(3915, true, 'minutes')] does
    not return, at any depth.  In long form a quotient of 1 is not
    recognised either: [getExactDuration(65, false, 'minutes')] is
    "1 minute 0 minutes".  Where the plural word is used the truncation
    works: [getExactDuration(3915, false, 'minutes')] is
    "1 hour 5 minutes". *)
Theorem C2_precision_not_honoured :
  (forall fuel, getExactDuration fuel (ofZ 3915) true Minutes = None) /\
  getExactDuration 7 (ofZ 65) false Minutes = Some "1 minute 0 minutes" /\
  getExactDuration 7 (ofZ 3915) false Minutes = Some "1 hour 5 minutes".
Proof.
  split; [| split; vm_compute; reflexivity].
  intros fuel. unfold getExactDuration.
  destruct fuel as [| [| [| fuel]]]; try reflexivity.
  cut (convertDuration (S (S (S fuel))) (" " ++ precisionName Minutes) (ofZ 3915) true = None).
  { intros ->. reflexivity. }
  rewrite convertDuration_S. cbn -[convertDuration].
  rewrite convertDuration_S. cbn -[convertDuration].
  change (String "0" "") with "0".
  rewrite convertDuration_15s_abbr_minutes. reflexivity.
Qed.

(** ** getExactDuration: durations that round to zero *)

Lemma convertDuration_zero (fuel : nat) (minSuffix : string) (x : number) (abbr : bool) :
  Num.eqb (round (Num.abs (Num.mul x (Fin 1000 0))) 0) (Fin 0 0) = true ->
  convertDuration (S fuel) minSuffix x abbr = Some "".
Proof.
  intros H. rewrite convertDuration_S. cbv zeta.
  assert (Hv : round (Num.abs (Num.mul x (Fin 1000 0))) 0 = Fin 0 0).
  { destruct x as [| | | m e]; try discriminate H.
    cbn [Num.mul Num.abs] in *.
    destruct (round_Fin_int (Z.abs (m * 1000)) (e + 0) 0) as [v Hv].
    rewrite Hv in *. cbn [Z.opp] in *. rewrite eqb_Fin_0 in H.
    apply Z.eqb_eq in H. subst v. reflexivity. }
  rewrite Hv. reflexivity.
Qed.

(** C5: when the magnitude of the input rounds to zero milliseconds,
    [getExactDuration] returns "0" followed by the abbreviated glyph of
    the precision token (abbreviation on) or by a space and the token
    itself (abbreviation off), which is never the empty string; so
    [getExactDuration(0, false, 'milliseconds')] is "0 milliseconds" and
    [getExactDuration(0, true, 'milliseconds')] is "0ms". *)
Theorem C5_zero_duration :
  (forall (x : number) (abbr : bool) (p : Precision) (fuel : nat),
      Num.eqb (round (Num.abs (Num.mul x (Fin 1000 0))) 0) (Fin 0 0) = true ->
      getExactDuration (S fuel) x abbr p
      = Some ("0" ++ (if abbr then SUFFIX_ABBR p else " " ++ precisionName p))
      /\ getExactDuration (S fuel) x abbr p <> Some "") /\
  getExactDuration 1 (ofZ 0) false Milliseconds = Some "0 milliseconds" /\
  getExactDuration 1 (ofZ 0) true Milliseconds = Some "0ms".
Proof.
  split; [| split; reflexivity].
  intros x abbr p fuel H.
  assert (E : getExactDuration (S fuel) x abbr p
              = Some ("0" ++ (if abbr then SUFFIX_ABBR p else " " ++ precisionName p))).
  { unfold getExactDuration. rewrite (convertDuration_zero _ _ _ _ H). reflexivity. }
  split; [exact E |]. rewrite E. discriminate.
Qed.

Lemma C5_zero_duration_witness :
  getExactDuration 1 (Fin (-4) (-4)) true Hours = Some "0hr" /\
  getExactDuration 3 (Fin 49 (-5)) false Weeks = Some "0 weeks".
Proof.
  split.
  - apply (proj1 C5_zero_duration (Fin (-4) (-4)) true Hours 0%nat). reflexivity.
  - apply (proj1 C5_zero_duration (Fin 49 (-5)) false Weeks 2%nat). reflexivity.
Defined.

(** ** Facts about strings of digits *)

Lemma append_empty_r (s : string) : s ++ "" = s.
Proof. induction s as [| c r IH]; cbn; [| rewrite IH]; reflexivity. Qed.

Lemma append_assoc (a b c : string) : (a ++ b) ++ c = a ++ b ++ c.
Proof. induction a as [| x a IH]; cbn; [| rewrite IH]; reflexivity. Qed.

Lemma allb_app (p : ascii -> bool) (a b : string) :
  allb p (a ++ b) = allb p a && allb p b.
Proof.
  induction a as [| c a IH]; cbn; [reflexivity |].
  rewrite IH, andb_assoc. reflexivity.
Qed.

Lemma allb_impl (p q : ascii -> bool) (s : string) :
  (forall c, p c = true -> q c = true) -> allb p s = true -> allb q s = true.
Proof.
  intros Hpq. induction s as [| c r IH]; cbn; [reflexivity |].
  intros H. apply andb_true_iff in H as [H1 H2].
  rewrite (Hpq _ H1), (IH H2). reflexivity.
Qed.

Lemma isDigit_cases (c : ascii) :
  Str.isDigit c = true ->
  Str.isSpace c = false /\
  Ascii.eqb c ":" = false /\ Ascii.eqb c "." = false /\
  Ascii.eqb c "-" = false /\ Ascii.eqb c "+" = false /\
  Ascii.eqb c "I" = false /\ Ascii.eqb c "e" = false /\ Ascii.eqb c "E" = false /\
  Ascii.eqb c "x" = false /\ Ascii.eqb c "X" = false /\
  Ascii.eqb c "o" = false /\ Ascii.eqb c "O" = false /\
  Ascii.eqb c "b" = false /\ Ascii.eqb c "B" = false.
Proof.
  destruct c as [[] [] [] [] [] [] [] []]; cbv; intros H;
    try discriminate H; repeat split.
Qed.

Lemma string_of_uint_allDigits (d : Decimal.uint) :
  allDigits (NilEmpty.string_of_uint d) = true.
Proof. induction d; cbn; auto. Qed.

Lemma digits_allDigits (z : Z) : allDigits (Str.digits z) = true.
Proof. apply string_of_uint_allDigits. Qed.

Lemma to_uint_not_Nil (n : N) : N.to_uint n <> Decimal.Nil.
Proof.
  destruct n as [| p]; [discriminate |].
  cbn. intros H.
  assert (E := DecimalPos.Unsigned.of_to p). rewrite H in E. discriminate E.
Qed.

Lemma digits_nonempty (z : Z) : Str.digits z <> "".
Proof.
  unfold Str.digits. intros H.
  destruct (N.to_uint (Z.to_N z)) eqn:E; try discriminate H.
  exact (to_uint_not_Nil _ E).
Qed.

Lemma digitsValue_digits (z : Z) : 0 <= z -> Str.digitsValue (Str.digits z) = Some z.
Proof.
  intros Hz. unfold Str.digitsValue, Str.digits.
  rewrite NilEmpty.usu, DecimalN.Unsigned.of_to, Z2N.id by exact Hz.
  reflexivity.
Qed.

Lemma digitsValue_zero (s : string) :
  Str.digitsValue (String "0" s) = Str.digitsValue s.
Proof.
  unfold Str.digitsValue. cbn [NilEmpty.uint_of_string].
  destruct (NilEmpty.uint_of_string s); reflexivity.
Qed.

Lemma digitsValue_zero_digits (z : Z) :
  0 <= z -> Str.digitsValue ("0" ++ Str.digits z) = Some z.
Proof.
  intros Hz. cbn [append]. rewrite digitsValue_zero.
  apply digitsValue_digits. exact Hz.
Qed.

Lemma trimEnd_no_space (s : string) :
  allb (fun c => negb (Str.isSpace c)) s = true -> Str.trimEnd s = s.
Proof.
  induction s as [| c r IH]; cbn; [reflexivity |].
  intros H. apply andb_true_iff in H as [H1 H2].
  rewrite (IH H2). apply negb_true_iff in H1. rewrite H1, andb_false_r.
  reflexivity.
Qed.

Lemma allDigits_no_space (s : string) :
  allDigits s = true -> allb (fun c => negb (Str.isSpace c)) s = true.
Proof.
  apply allb_impl. intros c H. apply isDigit_cases in H as [H _].
  rewrite H. reflexivity.
Qed.

Lemma trim_digits (s : string) : allDigits s = true -> Str.trim s = s.
Proof.
  intros H. unfold Str.trim.
  assert (E : Str.trimStart s = s).
  { destruct s as [| c r]; [reflexivity |]. cbn in *.
    apply andb_true_iff in H as [H _]. apply isDigit_cases in H as [H _].
    rewrite H. reflexivity. }
  rewrite E. apply trimEnd_no_space, allDigits_no_space, H.
Qed.

Lemma spanDigits_allDigits (s : string) :
  allDigits s = true -> Str.spanDigits s = (s, "").
Proof.
  induction s as [| c r IH]; cbn; [reflexivity |].
  intros H. apply andb_true_iff in H as [H1 H2].
  rewrite H1, (IH H2). reflexivity.
Qed.

Lemma radixLiteral_digits (s : string) :
  allDigits s = true -> radixLiteral s = None.
Proof.
  intros H.
  destruct s as [| a [| c [| d r]]];
    [reflexivity
    | destruct a as [[] [] [] [] [] [] [] []]; reflexivity
    | destruct a as [[] [] [] [] [] [] [] []]; reflexivity
    | ].
  unfold allDigits in H. cbn [allb] in H.
  apply andb_true_iff in H as [_ H1]. apply andb_true_iff in H1 as [H2 _].
  apply isDigit_cases in H2.
  destruct H2 as (_ & _ & _ & _ & _ & _ & _ & _ & Hx & HX & Ho & HO & Hb & HB).
  unfold radixLiteral.
  destruct a as [[] [] [] [] [] [] [] []]; try reflexivity.
  rewrite Hx, HX, Ho, HO, Hb, HB. reflexivity.
Qed.

(** [Number] on a non-empty string of digits is the value it denotes. *)
Lemma Number_digits (s : string) (v : Z) :
  s <> "" -> allDigits s = true -> Str.digitsValue s = Some v ->
  Number s = Fin v 0.
Proof.
  intros Hne Hd Hv. unfold Number.
  rewrite (trim_digits _ Hd), (radixLiteral_digits _ Hd).
  destruct s as [| c r]; [congruence |].
  cbn [Str.isEmpty].
  assert (Hc : Str.isDigit c = true).
  { cbn in Hd. apply andb_true_iff in Hd as [Hd _]. exact Hd. }
  destruct (isDigit_cases c Hc) as (_ & _ & _ & Hm & Hp & HI & _).
  unfold takeSign. cbn [startsWithChar]. rewrite Hm, Hp.
  cbn [String.eqb]. rewrite HI.
  unfold decimalPrefix. rewrite (spanDigits_allDigits _ Hd).
  cbn [startsWithChar Str.isEmpty andb orb]. rewrite append_empty_r, Hv.
  reflexivity.
Qed.

Lemma orZero_Fin (v e : Z) : v <> 0 \/ e = 0 -> orZero (Fin v e) = Fin v e.
Proof.
  intros H. unfold orZero. rewrite truthy_Fin.
  destruct (v =? 0) eqn:E; [| reflexivity].
  apply Z.eqb_eq in E. destruct H as [H | H]; [contradiction | subst; reflexivity].
Qed.

(** ** Splitting *)

Lemma split_no_sep (sep : ascii) (s : string) :
  allb (fun c => negb (Ascii.eqb c sep)) s = true -> Str.split sep s = [s].
Proof.
  induction s as [| c r IH]; cbn; [reflexivity |].
  intros H. apply andb_true_iff in H as [H1 H2].
  apply negb_true_iff in H1. rewrite H1, (IH H2). reflexivity.
Qed.

Lemma split_app_sep (sep : ascii) (a r : string) :
  allb (fun c => negb (Ascii.eqb c sep)) a = true ->
  Str.split sep (a ++ String sep r) = a :: Str.split sep r.
Proof.
  induction a as [| c a IH]; cbn.
  - intros _. rewrite Ascii.eqb_refl. reflexivity.
  - intros H. apply andb_true_iff in H as [H1 H2].
    apply negb_true_iff in H1. rewrite H1, (IH H2). reflexivity.
Qed.

Lemma allDigits_no_colon (s : string) :
  allDigits s = true -> allb (fun c => negb (Ascii.eqb c ":")) s = true.
Proof.
  apply allb_impl. intros c H. apply isDigit_cases in H as (_ & H & _).
  rewrite H. reflexivity.
Qed.

Lemma allDigits_no_dot (s : string) :
  allDigits s = true -> allb (fun c => negb (Ascii.eqb c ".")) s = true.
Proof.
  apply allb_impl. intros c H. apply isDigit_cases in H as (_ & _ & H & _).
  rewrite H. reflexivity.
Qed.

(** ** Integers as strings *)

Lemma toString_int (z : Z) :
  0 <= z < 10 ^ 21 -> toString (Fin z 0) = Str.digits z.
Proof.
  intros [H0 H1]. unfold toString.
  destruct (z =? 0) eqn:E.
  - apply Z.eqb_eq in E. subst z. reflexivity.
  - apply Z.eqb_neq in E.
    replace (Z.abs z * 10 ^ 0) with z by (rewrite pow10_0; lia).
    replace (z <? 0) with false by (symmetry; apply Z.ltb_ge; lia).
    replace (z <? 10 ^ 21) with true by (symmetry; apply Z.ltb_lt; lia).
    reflexivity.
Qed.

Lemma fill_int (z : Z) : 0 <= z < 10 ^ 21 -> fill (Fin z 0) = fillZ z.
Proof.
  intros H. unfold fill, fillZ. rewrite ltb_Fin_int, (toString_int _ H).
  reflexivity.
Qed.

Lemma fillZ_allDigits (z : Z) : allDigits (fillZ z) = true.
Proof.
  unfold fillZ. destruct (z <? 10); [cbn [append] |]; unfold allDigits;
    cbn [allb]; apply digits_allDigits.
Qed.

Lemma fillZ_nonempty (z : Z) : fillZ z <> "".
Proof.
  unfold fillZ. destruct (z <? 10); [discriminate | apply digits_nonempty].
Qed.

Lemma fillZ_value (z : Z) : 0 <= z -> Str.digitsValue (fillZ z) = Some z.
Proof.
  intros H. unfold fillZ. destruct (z <? 10);
    [apply digitsValue_zero_digits | apply digitsValue_digits]; exact H.
Qed.

Lemma Number_fillZ (z : Z) : 0 <= z -> Number (fillZ z) = Fin z 0.
Proof.
  intros H. apply Number_digits;
    [apply fillZ_nonempty | apply fillZ_allDigits | apply fillZ_value, H].
Qed.

Lemma divideBy_nonneg (a t : Z) :
  0 <= a -> 0 < t -> divideBy (Fin a 0) t = (Fin (a / t) 0, Fin (a mod t) 0).
Proof.
  intros Ha Ht. unfold divideBy. rewrite ltb_Fin_int.
  replace (a <? 0) with false by (symmetry; apply Z.ltb_ge; lia).
  unfold Num.floorDiv, Num.rem, Num.align.
  change (0 <=? 0) with true. change (Z.min 0 0) with 0. change (0 - 0) with 0.
  cbv iota. rewrite pow10_0, !Z.mul_1_r, Z.rem_mod_nonneg by lia. reflexivity.
Qed.

(** The clock of a positive whole number of seconds, with every bucket
    padded. *)
Lemma formatSecondsToClock_int (s : Z) :
  0 < s < 3600 * 10 ^ 21 ->
  formatSecondsToClock (ofZ s) true =
  if s / 3600 =? 0
  then fillZ (s mod 3600 / 60) ++ ":" ++ fillZ (s mod 60)
  else fillZ (s / 3600) ++ ":" ++ fillZ (s mod 3600 / 60) ++ ":" ++ fillZ (s mod 60).
Proof.
  intros Hs. unfold formatSecondsToClock, ofZ.
  rewrite eqb_Fin_0. replace (s =? 0) with false by (symmetry; apply Z.eqb_neq; lia).
  cbn [orb Num.isNaN Num.mul Num.abs].
  assert (Ha : round (Fin (Z.abs (s * 1000)) (0 + 0)) 0 = Fin (s * 1000) 0).
  { unfold round. cbn [Z.eqb Z.add Num.round Z.leb Z.compare].
    rewrite pow10_0. f_equal. lia. }
  rewrite Ha.
  assert (P21 : 10 ^ 21 = 1000000000000000000000) by reflexivity.
  rewrite divideBy_nonneg by (unfold HOUR; lia).
  rewrite divideBy_nonneg by (unfold MINUTE; try apply Z.mod_pos_bound; unfold HOUR; lia).
  rewrite divideBy_nonneg by (unfold SECOND; try apply Z.mod_pos_bound; unfold MINUTE; lia).
  unfold HOUR, MINUTE, SECOND.
  assert (Eh : s * 1000 / 3600000 = s / 3600).
  { replace 3600000 with (3600 * 1000) by reflexivity.
    rewrite Z.div_mul_cancel_r by lia. reflexivity. }
  assert (Em : (s * 1000) mod 3600000 = (s mod 3600) * 1000).
  { replace 3600000 with (3600 * 1000) by reflexivity.
    rewrite Z.mul_mod_distr_r by lia. reflexivity. }
  rewrite Eh, Em.
  assert (Emi : s mod 3600 * 1000 / 60000 = s mod 3600 / 60).
  { replace 60000 with (60 * 1000) by reflexivity.
    rewrite Z.div_mul_cancel_r by lia. reflexivity. }
  assert (Emr : (s mod 3600 * 1000) mod 60000 = (s mod 60) * 1000).
  { replace 60000 with (60 * 1000) by reflexivity.
    rewrite Z.mul_mod_distr_r by lia. f_equal.
    replace 3600 with (60 * 60) by reflexivity.
    rewrite Z.rem_mul_r by lia.
    rewrite Z.add_mod, Z.mul_comm, Z.mod_mul, Z.add_0_r, !Z.mod_mod by lia.
    reflexivity. }
  rewrite Emi, Emr.
  rewrite Z.div_mul, Z.mod_mul by lia.
  rewrite !truthy_Fin. cbn [Z.eqb negb].
  pose proof (Z.mod_pos_bound s 3600 ltac:(lia)) as B1.
  pose proof (Z.mod_pos_bound s 60 ltac:(lia)) as B2.
  assert (B3 : 0 <= s mod 3600 / 60 < 60).
  { split; [apply Z.div_pos; lia | apply Z.div_lt_upper_bound; lia]. }
  assert (B4 : 0 <= s / 3600 < 10 ^ 21).
  { split; [apply Z.div_pos; lia | apply Z.div_lt_upper_bound; lia]. }
  rewrite !fill_int by lia.
  destruct (s / 3600 =? 0); reflexivity.
Qed.

(** ** Parsing a rendered clock *)

Lemma parseClock_two (a b : string) (va vb : Z) :
  allDigits a = true -> allDigits b = true ->
  Number a = Fin va 0 -> Number b = Fin vb 0 ->
  Num.eqb (parseClockToSeconds (a ++ ":" ++ b)) (Fin (va * 60 + vb) 0) = true.
Proof.
  intros Da Db Na Nb. unfold parseClockToSeconds.
  rewrite (split_no_sep "." (a ++ ":" ++ b)).
  2:{ rewrite allb_app. rewrite (allDigits_no_dot _ Da). cbn.
      apply allDigits_no_dot, Db. }
  cbn [hd nth_error append].
  rewrite (split_app_sep ":" a b (allDigits_no_colon _ Da)).
  rewrite (split_no_sep ":" b (allDigits_no_colon _ Db)).
  cbn [List.length seq fold_left nth_error sliceFromEnd skipn Nat.sub NumberOpt].
  rewrite Na, Nb, !orZero_Fin by (right; reflexivity).
  change (orZero NaN) with (Fin 0 0).
  unfold Num.add, Num.mul, Num.divPow10, Num.eqb, Num.align, ofZ, MINUTE, SECOND.
  cbn. apply Z.eqb_eq. lia.
Qed.

Lemma parseClock_three (a b c : string) (va vb vc : Z) :
  allDigits a = true -> allDigits b = true -> allDigits c = true ->
  Number a = Fin va 0 -> Number b = Fin vb 0 -> Number c = Fin vc 0 ->
  Num.eqb (parseClockToSeconds (a ++ ":" ++ b ++ ":" ++ c))
          (Fin (va * 3600 + vb * 60 + vc) 0) = true.
Proof.
  intros Da Db Dc Na Nb Nc. unfold parseClockToSeconds.
  rewrite (split_no_sep "." (a ++ ":" ++ b ++ ":" ++ c)).
  2:{ rewrite allb_app, (allDigits_no_dot _ Da). cbn.
      rewrite allb_app, (allDigits_no_dot _ Db). cbn.
      apply allDigits_no_dot, Dc. }
  cbn [hd nth_error append].
  rewrite (split_app_sep ":" a _ (allDigits_no_colon _ Da)).
  rewrite (split_app_sep ":" b _ (allDigits_no_colon _ Db)).
  rewrite (split_no_sep ":" c (allDigits_no_colon _ Dc)).
  cbn [List.length seq fold_left nth_error sliceFromEnd skipn Nat.sub NumberOpt].
  rewrite Na, Nb, Nc, !orZero_Fin by (right; reflexivity).
  change (orZero NaN) with (Fin 0 0).
  unfold Num.add, Num.mul, Num.divPow10, Num.eqb, Num.align, ofZ, HOUR, MINUTE, SECOND.
  cbn. apply Z.eqb_eq. lia.
Qed.

(** In exact arithmetic the round trip holds for every whole number of
    seconds below 3600 * 10^21, where hours stop printing as plain
    digits. *)
Lemma clock_round_trip_seconds_exact (s : Z) :
  0 <= s < 3600 * 10 ^ 21 ->
  Num.eqb (parseClockToSeconds (formatSecondsToClock (ofZ s) true)) (ofZ s) = true.
Proof.
  intros [H0 H1].
  destruct (Z.eq_dec s 0) as [-> | Hnz]; [reflexivity |].
  rewrite formatSecondsToClock_int by lia.
  pose proof (Z.mod_pos_bound s 3600 ltac:(lia)) as B1.
  pose proof (Z.mod_pos_bound s 60 ltac:(lia)) as B2.
  assert (B3 : 0 <= s mod 3600 / 60) by (apply Z.div_pos; lia).
  assert (B4 : 0 <= s / 3600) by (apply Z.div_pos; lia).
  assert (Es : s mod 60 = (s mod 3600) mod 60).
  { replace 3600 with (60 * 60) by reflexivity.
    rewrite Z.rem_mul_r by lia.
    rewrite Z.add_mod, Z.mul_comm, Z.mod_mul, Z.add_0_r, !Z.mod_mod by lia.
    reflexivity. }
  assert (Em : s mod 3600 = 60 * (s mod 3600 / 60) + s mod 60).
  { rewrite Es. apply Z.div_mod. lia. }
  assert (Eh : s = 3600 * (s / 3600) + s mod 3600) by (apply Z.div_mod; lia).
  unfold ofZ.
  destruct (s / 3600 =? 0) eqn:E.
  - apply Z.eqb_eq in E.
    replace s with ((s mod 3600 / 60) * 60 + s mod 60) at 3 by lia.
    apply parseClock_two;
      try apply fillZ_allDigits; apply Number_fillZ; lia.
  - replace s with ((s / 3600) * 3600 + (s mod 3600 / 60) * 60 + s mod 60) at 4 by lia.
    apply parseClock_three;
      try apply fillZ_allDigits; apply Number_fillZ; lia.
Qed.

(** C1, as stated, fails on doubles: 72057594037929 is an integer a
    double holds exactly, but its count of milliseconds is beyond 2^53
    and is rounded to ...928992; the clock shows 992 milliseconds, and
    parsing it does not give the seconds back. *)
Lemma C1_round_trip_fails_past_2_53 :
  F64.formatSecondsToClock (F64.ofZ 72057594037929) true = "20015998343:52:08.992" /\
  PrimFloat.eqb
    (F64.parseClockToSeconds (F64.formatSecondsToClock (F64.ofZ 72057594037929) true))
    (F64.ofZ 72057594037929) = false.
Proof. split; vm_compute; reflexivity. Qed.

(** C1, amended: for every whole number of seconds [s >= 0] whose count
    of milliseconds is at most 2^53 (so that every intermediate value
    of the two functions is an integer a double holds exactly), parsing
    the clock rendered at the default options gives [s] back. *)
Theorem C1_clock_round_trip (s : Z) :
  0 <= s -> s * 1000 <= 2 ^ 53 ->
  Num.eqb (parseClockToSeconds (formatSecondsToClock (ofZ s) true)) (ofZ s) = true.
Proof.
  intros H0 Hb. apply clock_round_trip_seconds_exact.
  change (2 ^ 53) with 9007199254740992 in Hb.
  change (10 ^ 21) with 1000000000000000000000. lia.
Qed.

Lemma C1_clock_round_trip_witness :
  Num.eqb (parseClockToSeconds (formatSecondsToClock (ofZ 3915) true)) (ofZ 3915) = true.
Proof.
  apply (C1_clock_round_trip 3915); [lia | apply Z.leb_le; reflexivity].
Defined.

(** ** Every result is a list of segments *)

Lemma unitBlock_segments (rec : number -> option string) (minSuffix : string)
    (msValue : number) (abbr : bool) (u : TimeUnit) (r : string) :
  u <> UMillisecond ->
  (forall y r', rec y = Some r' -> exists segs, r' = render abbr segs) ->
  unitBlock rec minSuffix msValue abbr (unitMs u) (unitShort u) (unitSingular u)
    (unitPlural u) = Some r ->
  exists segs, r = render abbr segs.
Proof.
  intros Hu Hrec. unfold unitBlock.
  destruct (divideBy msValue (unitMs u)) as [quotient remainder].
  set (sg := {| shown := quotient; counted := quotient; segUnit := u |}).
  change (if abbr then t (unitShort u)
          else " " ++ tn (unitSingular u) (unitPlural u) quotient)
    with (segmentSuffix abbr sg).
  destruct (String.eqb minSuffix (segmentSuffix abbr sg)).
  - intros H. injection H as <-. exists [sg]. cbn [render].
    destruct u; try reflexivity. contradiction.
  - destruct (rec (Num.divPow10 remainder 3)) as [rest |] eqn:E; [| discriminate].
    intros H. injection H as <-.
    destruct (Hrec _ _ E) as [segs ->].
    exists (sg :: segs). cbn [render].
    destruct u; try reflexivity. contradiction.
Qed.

(** Every text [convertDuration] returns, at any precision, is a list
    of week, day, hour, minute, second and millisecond segments. *)
Lemma convertDuration_segments (fuel : nat) (minSuffix : string) (x : number)
    (abbr : bool) (r : string) :
  convertDuration fuel minSuffix x abbr = Some r ->
  exists segs, r = render abbr segs.
Proof.
  revert x r. induction fuel as [| fuel IH]; intros x r; [discriminate |].
  rewrite convertDuration_S. cbv zeta.
  set (msValue := round (Num.mul x (Fin 1000 0)) 0).
  set (value := round (Num.abs (Num.mul x (Fin 1000 0))) 0).
  assert (Hrec : forall y r', convertDuration fuel minSuffix y abbr = Some r' ->
                              exists segs, r' = render abbr segs)
    by (intros y r'; apply IH).
  destruct (_ || _).
  { apply (unitBlock_segments _ minSuffix msValue abbr UWeek); [discriminate | exact Hrec]. }
  destruct (_ || _).
  { apply (unitBlock_segments _ minSuffix msValue abbr UDay); [discriminate | exact Hrec]. }
  destruct (_ || _).
  { apply (unitBlock_segments _ minSuffix msValue abbr UHour); [discriminate | exact Hrec]. }
  destruct (_ || _).
  { apply (unitBlock_segments _ minSuffix msValue abbr UMinute); [discriminate | exact Hrec]. }
  destruct (_ || _).
  { apply (unitBlock_segments _ minSuffix msValue abbr USecond); [discriminate | exact Hrec]. }
  destruct (Num.eqb value (Fin 0 0)).
  - intros H. injection H as <-. exists []. reflexivity.
  - intros H. injection H as <-.
    exists [{| shown := msValue; counted := value; segUnit := UMillisecond |}].
    cbn [render segUnit shown]. unfold segmentSuffix. cbn [segUnit counted].
    rewrite !append_empty_r. reflexivity.
Qed.

(** ** Precision 'years': nothing is elided *)

Lemma rank_lt_unit (v : Z) (u : TimeUnit) :
  0 <= v < unitMs u -> (rank v < unitRank u)%nat.
Proof.
  intros H. unfold rank, unitRank.
  destruct u; unfold_units;
    repeat match goal with
           | |- context [?a <=? ?b] => destruct (Z.leb_spec a b); try lia
           | |- context [?a =? ?b] => destruct (Z.eqb_spec a b); try lia
           end.
Qed.

Lemma rank_ge_unit (V : Z) (u : TimeUnit) :
  unitMs u <= V -> (unitRank u <= rank V)%nat.
Proof.
  intros H. unfold rank, unitRank.
  destruct u; unfold_units;
    repeat match goal with
           | |- context [?a <=? ?b] => destruct (Z.leb_spec a b); try lia
           | |- context [?a =? ?b] => destruct (Z.eqb_spec a b); try lia
           end.
Qed.

Lemma unitMs_pos (u : TimeUnit) : 0 < unitMs u.
Proof. destruct u; reflexivity. Qed.

Lemma divideBy_int (M U : Z) :
  0 < U -> divideBy (Fin M 0) U = (Fin (Z.quot M U) 0, Fin (Z.rem M U) 0).
Proof.
  intros HU. unfold divideBy. rewrite ltb_Fin_int.
  unfold Num.floorDiv, Num.ceilDiv, Num.rem, Num.align.
  change (0 <=? 0) with true. change (Z.min 0 0) with 0. change (0 - 0) with 0.
  cbv iota. rewrite pow10_0, !Z.mul_1_r.
  destruct (Z.ltb_spec M 0) as [Hm | Hm]; f_equal; f_equal.
  - rewrite <- (Z.opp_involutive M) at 2.
    rewrite Z.quot_opp_l by lia. rewrite Z.quot_div_nonneg by lia. reflexivity.
  - rewrite Z.quot_div_nonneg by lia. reflexivity.
Qed.

Lemma round_ms (r : Z) :
  round (Num.mul (Num.divPow10 (Fin r 0) 3) (Fin 1000 0)) 0 = Fin r 0 /\
  round (Num.abs (Num.mul (Num.divPow10 (Fin r 0) 3) (Fin 1000 0))) 0 = Fin (Z.abs r) 0.
Proof.
  unfold round, Num.divPow10, Num.mul, Num.abs, Num.round.
  change (0 =? 0) with true. change (0 <=? 0 - 3 + 0) with false.
  change (- (0 - 3 + 0)) with 3. change (10 ^ 3) with 1000. cbv iota.
  split; f_equal.
  - replace (2 * (r * 1000) + 1000) with (1000 + r * (2 * 1000)) by lia.
    rewrite Z.div_add by lia. reflexivity.
  - rewrite Z.abs_mul. change (Z.abs 1000) with 1000.
    replace (2 * (Z.abs r * 1000) + 1000) with (1000 + Z.abs r * (2 * 1000)) by lia.
    rewrite Z.div_add by lia. reflexivity.
Qed.

Lemma years_unitBlock (rec : number -> option string) (M : Z) (abbr : bool)
    (u : TimeUnit) (zs : list (Z * Z * TimeUnit)) :
  u <> UMillisecond ->
  rec (Num.divPow10 (Fin (Z.rem M (unitMs u)) 0) 3) = Some (render abbr (map segOfZ zs)) ->
  unitBlock rec " years" (Fin M 0) abbr (unitMs u) (unitShort u) (unitSingular u)
    (unitPlural u)
  = Some (render abbr (map segOfZ ((Z.quot M (unitMs u), Z.quot M (unitMs u), u) :: zs))).
Proof.
  intros Hu Hrec. unfold unitBlock.
  rewrite (divideBy_int M (unitMs u) (unitMs_pos u)), Hrec.
  cbn [map segOfZ render shown segUnit]. unfold segmentSuffix. cbn [segUnit counted].
  assert (E : String.eqb " years"
                (if abbr then t (unitShort u)
                 else " " ++ tn (unitSingular u) (unitPlural u)
                               (Fin (Z.quot M (unitMs u)) 0)) = false).
  { unfold tn. destruct abbr; [destruct u; reflexivity |].
    destruct (Num.eqb _ _); destruct u; reflexivity. }
  rewrite E. destruct u; try reflexivity. contradiction.
Qed.

Lemma years_step (fuel : nat) (x : number) (M V : Z) (abbr : bool) (u : TimeUnit) :
  (forall y M' V',
      round (Num.mul y (Fin 1000 0)) 0 = Fin M' 0 ->
      round (Num.abs (Num.mul y (Fin 1000 0))) 0 = Fin V' 0 ->
      0 <= V' -> (V' = 0 -> M' = 0) -> (rank V' < fuel)%nat ->
      exists zs,
        convertDuration fuel " years" y abbr = Some (render abbr (map segOfZ zs))
        /\ totalMs zs = M' /\ (V' <> 0 -> zs <> [])
        /\ Forall (fun z => unitMs (snd z) <= V') zs) ->
  u <> UMillisecond -> unitMs u <= V -> (rank V < S fuel)%nat ->
  exists zs,
    unitBlock (fun r => convertDuration fuel " years" r abbr) " years" (Fin M 0) abbr
      (unitMs u) (unitShort u) (unitSingular u) (unitPlural u)
    = Some (render abbr (map segOfZ zs))
    /\ totalMs zs = M /\ (V <> 0 -> zs <> [])
    /\ Forall (fun z => unitMs (snd z) <= V) zs.
Proof.
  intros IH Hu HV Hfuel.
  pose proof (unitMs_pos u) as HU.
  pose proof (Z.rem_bound_abs M (unitMs u) ltac:(lia)) as Hr.
  destruct (round_ms (Z.rem M (unitMs u))) as [R1 R2].
  destruct (IH _ _ _ R1 R2) as (zs & Hc & Ht & _ & Hall).
  - lia.
  - lia.
  - pose proof (rank_lt_unit (Z.abs (Z.rem M (unitMs u))) u ltac:(lia)).
    pose proof (rank_ge_unit V u HV). lia.
  - exists ((Z.quot M (unitMs u), Z.quot M (unitMs u), u) :: zs).
    split; [apply years_unitBlock; assumption |].
    split; [| split].
    + cbn [totalMs]. rewrite Ht.
      pose proof (Z.quot_rem' M (unitMs u)). lia.
    + discriminate.
    + constructor; [exact HV |].
      eapply Forall_impl; [| exact Hall]. cbn beta. intros z Hz. lia.
Qed.

(** With the precision token 'years' no block ever stops the
    recursion: the segments account for every millisecond. *)
Lemma years_full (fuel : nat) (abbr : bool) :
  forall (x : number) (M V : Z),
    round (Num.mul x (Fin 1000 0)) 0 = Fin M 0 ->
    round (Num.abs (Num.mul x (Fin 1000 0))) 0 = Fin V 0 ->
    0 <= V -> (V = 0 -> M = 0) -> (rank V < fuel)%nat ->
    exists zs,
      convertDuration fuel " years" x abbr = Some (render abbr (map segOfZ zs))
      /\ totalMs zs = M /\ (V <> 0 -> zs <> [])
      /\ Forall (fun z => unitMs (snd z) <= V) zs.
Proof.
  induction fuel as [| fuel IH]; intros x M V HM HV H0 Hz Hfuel; [lia |].
  rewrite convertDuration_S. cbv zeta. rewrite HM, HV.
  change (" years" =? " weeks")%string with false.
  change (" years" =? " days")%string with false.
  change (" years" =? " hours")%string with false.
  change (" years" =? " minutes")%string with false.
  change (" years" =? " seconds")%string with false.
  rewrite !andb_false_r, !orb_false_r. unfold ofZ. rewrite !geb_Fin_int.
  destruct (Z.leb_spec WEEK V) as [H1 | H1].
  { apply (years_step fuel x M V abbr UWeek IH); [discriminate | exact H1 | exact Hfuel]. }
  destruct (Z.leb_spec DAY V) as [H2 | H2].
  { apply (years_step fuel x M V abbr UDay IH); [discriminate | exact H2 | exact Hfuel]. }
  destruct (Z.leb_spec HOUR V) as [H3 | H3].
  { apply (years_step fuel x M V abbr UHour IH); [discriminate | exact H3 | exact Hfuel]. }
  destruct (Z.leb_spec MINUTE V) as [H4 | H4].
  { apply (years_step fuel x M V abbr UMinute IH); [discriminate | exact H4 | exact Hfuel]. }
  destruct (Z.leb_spec SECOND V) as [H5 | H5].
  { apply (years_step fuel x M V abbr USecond IH); [discriminate | exact H5 | exact Hfuel]. }
  rewrite eqb_Fin_0. destruct (Z.eqb_spec V 0) as [E | E].
  - exists []. repeat split; [symmetry; auto | congruence | constructor].
  - exists [(M, V, UMillisecond)]. repeat split.
    + cbn [map segOfZ render shown segUnit]. unfold segmentSuffix.
      cbn [segUnit counted]. rewrite !append_empty_r. reflexivity.
    + cbn [totalMs]. unfold unitMs, MILLISECOND. lia.
    + discriminate.
    + constructor; [| constructor]. cbn. unfold MILLISECOND. lia.
Qed.

Lemma rank_le_6 (V : Z) : (rank V <= 6)%nat.
Proof.
  unfold rank.
  repeat match goal with
         | |- context [if ?b then _ else _] => destruct b
         end; lia.
Qed.

Lemma round_finite (m e : Z) :
  exists M V,
    round (Num.mul (Fin m e) (Fin 1000 0)) 0 = Fin M 0 /\
    round (Num.abs (Num.mul (Fin m e) (Fin 1000 0))) 0 = Fin V 0 /\
    0 <= V /\ (V = 0 -> M = 0).
Proof.
  unfold round, Num.mul, Num.abs, Num.round. change (0 =? 0) with true. cbv iota.
  set (a := m * 1000). set (e' := e + 0).
  destruct (Z.leb_spec 0 e') as [He | He].
  - exists (a * 10 ^ e'), (Z.abs a * 10 ^ e').
    assert (0 < 10 ^ e') by (apply Z.pow_pos_nonneg; lia).
    repeat split; [nia | nia].
  - set (D := 10 ^ (- e')).
    assert (HD : 0 < D) by (apply Z.pow_pos_nonneg; lia).
    exists ((2 * a + D) / (2 * D)), ((2 * Z.abs a + D) / (2 * D)).
    repeat split.
    + apply Z.div_pos; lia.
    + intros Hz. apply Z.div_small_iff in Hz; [| lia].
      apply Z.div_small. lia.
Qed.

(** ** Trimming a rendered duration *)

Lemma trimEnd_empty (s : string) :
  Str.trimEnd s = "" -> allb Str.isSpace s = true.
Proof.
  induction s as [| c r IH]; cbn; [reflexivity |].
  destruct (Str.trimEnd r) as [| d r'] eqn:E; cbn.
  - destruct (Str.isSpace c); [intros _; cbn; apply IH; reflexivity | discriminate].
  - discriminate.
Qed.

Lemma trimStart_all_space (s : string) :
  allb Str.isSpace (Str.trimStart s) = true -> allb Str.isSpace s = true.
Proof.
  induction s as [| c r IH]; cbn; [reflexivity |].
  destruct (Str.isSpace c) eqn:E; cbn.
  - exact IH.
  - rewrite E. cbn. discriminate.
Qed.

Lemma trim_empty_all_space (s : string) :
  Str.trim s = "" -> allb Str.isSpace s = true.
Proof.
  intros H. apply trimStart_all_space, trimEnd_empty, H.
Qed.

Lemma segmentSuffix_not_space (abbr : bool) (s : Segment) :
  allb Str.isSpace (segmentSuffix abbr s) = false.
Proof.
  unfold segmentSuffix, tn. destruct abbr; [destruct (segUnit s); reflexivity |].
  destruct (Num.eqb _ _); destruct (segUnit s); reflexivity.
Qed.

Lemma render_not_blank (abbr : bool) (segs : list Segment) :
  segs <> [] -> Str.trim (render abbr segs) <> "".
Proof.
  intros Hne H. apply trim_empty_all_space in H.
  destruct segs as [| s rest]; [congruence |].
  cbn [render] in H. rewrite !allb_app, segmentSuffix_not_space in H.
  rewrite andb_false_r in H. discriminate H.
Qed.

Lemma length_zero_iff (s : string) : (String.length s =? 0)%nat = true <-> s = "".
Proof. destruct s; cbn; split; intros H; congruence. Qed.

(** C10, as stated, fails: a duration of zero at precision 'years'
    comes out with the year label, "0yr" abbreviated and "0 years" in
    long form. *)
Lemma C10_zero_years_has_year_label :
  getExactDuration 1 (ofZ 0) true Years = Some ("0" ++ SUFFIX_ABBR Years) /\
  getExactDuration 1 (ofZ 0) true Years = Some "0yr" /\
  getExactDuration 1 (ofZ 0) false Years = Some "0 years".
Proof. repeat split. Qed.

(** C10, amended: whatever [getExactDuration] returns is either the
    zero fallback ("0" and the label of the precision token, which for
    'years' is the year label) or a list of week, day, hour, minute,
    second and millisecond segments; no month or year segment exists.
    For a nonzero whole number [n] of milliseconds, of magnitude at
    most 2^50 (where the products and quotients of the code are exact
    or round back to the integers they stand for), and the precision
    'years', the result is such a non-empty list, the quotients times
    their units add up to [n] (no remainder is elided), and no segment
    has a unit larger than the magnitude of [n] (no lock-in). *)
Theorem C10_segments_and_years :
  (forall (fuel : nat) (x : number) (abbr : bool) (p : Precision) (out : string),
      getExactDuration fuel x abbr p = Some out ->
      out = "0" ++ (if abbr then SUFFIX_ABBR p else " " ++ precisionName p)
      \/ exists segs, out = Str.trim (render abbr segs)) /\
  (forall (n : Z) (abbr : bool),
      n <> 0 -> Z.abs n <= 2 ^ 50 ->
      exists zs,
        zs <> [] /\
        getExactDuration 7 (Fin n (-3)) abbr Years
        = Some (Str.trim (render abbr (map segOfZ zs))) /\
        totalMs zs = n /\
        Forall (fun z => unitMs (snd z) <= Z.abs n) zs).
Proof.
  split.
  - intros fuel x abbr p out. unfold getExactDuration.
    destruct (convertDuration fuel (" " ++ precisionName p) x abbr) as [r |] eqn:E;
      [| discriminate].
    destruct (negb _); intros H; injection H as <-; [right | left; reflexivity].
    destruct (convertDuration_segments _ _ _ _ _ E) as [segs ->].
    exists segs. reflexivity.
  - intros n abbr Hnz _.
    change (Fin n (-3)) with (Num.divPow10 (Fin n 0) 3).
    destruct (round_ms n) as [HM HV].
    destruct (years_full 7 abbr (Num.divPow10 (Fin n 0) 3) n (Z.abs n) HM HV)
      as (zs & Hc & Ht & Hne & Hall); [lia | lia | |].
    { pose proof (rank_le_6 (Z.abs n)). lia. }
    assert (Hzs : zs <> []) by (apply Hne; lia).
    exists zs. split; [exact Hzs |]. split; [| split; [exact Ht | exact Hall]].
    unfold getExactDuration. cbn [precisionName append]. rewrite Hc.
    destruct (String.length _ =? 0)%nat eqn:E; [| reflexivity].
    apply length_zero_iff in E. exfalso.
    apply (render_not_blank abbr (map segOfZ zs)); [| exact E].
    destruct zs; [contradiction | discriminate].
Qed.

Lemma C10_segments_and_years_witness :
  exists zs,
    zs <> [] /\
    getExactDuration 7 (Fin (-3915123) (-3)) false Years
    = Some (Str.trim (render false (map segOfZ zs))) /\
    totalMs zs = -3915123 /\
    Forall (fun z => unitMs (snd z) <= Z.abs (-3915123)) zs.
Proof.
  apply (proj2 C10_segments_and_years (-3915123) false);
    [discriminate | apply Z.leb_le; reflexivity].
Defined.

(** * Further properties of the module *)

(** ** Span operation descriptions *)

(** Whenever the short description of an operation falls back to
    "span", so does the long one: the long form names nothing that the
    short form does not recognise. *)
Theorem span_short_fallback_is_long_fallback (operation : option string) :
  formatSpanOperation operation short = "span" ->
  formatSpanOperation operation long = "span".
Proof.
  unfold formatSpanOperation, getShortSpanOperationDescription,
    getLongSpanOperationDescription, t.
  destruct operation as [op |]; [| reflexivity].
  cbn [startsWith isOperation].
  destruct (String.prefix "http" op); [discriminate |].
  destruct (String.prefix "db" op) eqn:Hdb; [discriminate |].
  destruct (String.prefix "task" op); [discriminate |].
  destruct (String.prefix "serialize" op); [discriminate |].
  destruct (String.prefix "middleware" op); [discriminate |].
  destruct (String.prefix "resource" op) eqn:Hres; [discriminate |].
  intros _.
  destruct (String.eqb_spec op "db.redis") as [-> | _]; [discriminate Hdb |].
  destruct (String.eqb_spec op "resource") as [-> | _]; [discriminate Hres |].
  destruct (String.eqb_spec op "resource.script") as [-> | _]; [discriminate Hres |].
  destruct (String.eqb_spec op "resource.css") as [-> | _]; [discriminate Hres |].
  destruct (String.eqb_spec op "resource.img") as [-> | _]; [discriminate Hres |].
  reflexivity.
Qed.

Lemma span_short_fallback_is_long_fallback_witness :
  formatSpanOperation (Some "ui.render") long = "span".
Proof.
  apply (span_short_fallback_is_long_fallback (Some "ui.render")). reflexivity.
Defined.

(** ** Display names *)

Lemma length_leb_0 (s : string) : (String.length s <=? 0)%nat = true <-> s = "".
Proof. destruct s; cbn; split; intros H; congruence. Qed.

(** [userDisplayName] never returns the empty string, whatever is
    missing or blank in the user. *)
Theorem userDisplayName_not_empty (user : option UserLike) (includeEmail : bool) :
  userDisplayName user includeEmail <> "".
Proof.
  unfold userDisplayName.
  match goal with
  | |- context [(String.length ?x <=? 0)%nat] => set (d := x)
  end.
  assert (Hd : (if (String.length d <=? 0)%nat then t "Unknown author" else d) <> "").
  { destruct (String.length d <=? 0)%nat eqn:E; [discriminate |].
    intros H. apply length_leb_0 in H. congruence. }
  destruct (_ && _ && _); [| exact Hd].
  destruct (if (String.length d <=? 0)%nat then t "Unknown author" else d);
    [congruence | discriminate].
Qed.

Lemma trimEnd_idempotent (s : string) : Str.trimEnd (Str.trimEnd s) = Str.trimEnd s.
Proof.
  induction s as [| c r IH]; [reflexivity |].
  cbn [Str.trimEnd].
  destruct (Str.isEmpty (Str.trimEnd r) && Str.isSpace c) eqn:E; [reflexivity |].
  cbn [Str.trimEnd]. rewrite IH, E. reflexivity.
Qed.

Lemma trimStart_head (s : string) :
  Str.trimStart s = "" \/
  exists c r, Str.trimStart s = String c r /\ Str.isSpace c = false.
Proof.
  induction s as [| c r IH]; [left; reflexivity |].
  cbn [Str.trimStart]. destruct (Str.isSpace c) eqn:E; [exact IH |].
  right. exists c, r. split; [reflexivity | exact E].
Qed.

Lemma trim_idempotent (s : string) : Str.trim (Str.trim s) = Str.trim s.
Proof.
  unfold Str.trim.
  destruct (trimStart_head s) as [-> | (c & r & -> & Hc)]; [reflexivity |].
  cbn [Str.trimEnd]. rewrite Hc, andb_false_r.
  cbn [Str.trimStart]. rewrite Hc.
  change (Str.trimEnd (String c (Str.trimEnd r)))
    with (if Str.isEmpty (Str.trimEnd (Str.trimEnd r)) && Str.isSpace c
          then "" else String c (Str.trimEnd (Str.trimEnd r))).
  rewrite Hc, andb_false_r, trimEnd_idempotent. reflexivity.
Qed.

(** Without the email, the display name has no white space around it:
    trimming the result changes nothing. *)
Theorem userDisplayName_without_email_is_trimmed (user : option UserLike) :
  Str.trim (userDisplayName user false) = userDisplayName user false.
Proof.
  unfold userDisplayName. rewrite andb_false_r.
  match goal with
  | |- context [(String.length ?x <=? 0)%nat] => set (d := x)
  end.
  destruct (String.length d <=? 0)%nat; [reflexivity |].
  apply trim_idempotent.
Qed.

(** ** Versions *)

(** [formatVersion] falls back to the raw version whenever the parser
    throws or describes the release as the empty string: the result is
    empty only if the raw version is. *)
Theorem formatVersion_not_empty (Release : string -> option ReleaseInfo)
    (rawVersion : string) (withPackage : bool) :
  rawVersion <> "" -> formatVersion Release rawVersion withPackage <> "".
Proof.
  intros Hraw. unfold formatVersion.
  destruct (Release rawVersion) as [p |]; [| exact Hraw].
  destruct (describe p) as [v |]; [| exact Hraw].
  destruct v as [| c v]; [exact Hraw |]. cbn. discriminate.
Qed.

Lemma formatVersion_not_empty_witness :
  formatVersion
    (fun raw => if String.eqb raw "app@1.2.3"
                then Some {| versionParsed := true; describe := Some "1.2.3";
                             package := Some "app" |}
                else None)
    "app@1.2.3" true <> "".
Proof. apply formatVersion_not_empty. discriminate. Defined.

(** ** Signs *)

Lemma pow10_pos (n : Z) : 0 <= n -> 0 < 10 ^ n.
Proof. intros H. apply Z.pow_pos_nonneg; lia. Qed.

Lemma ltb_Fin_zero (m e : Z) : Num.ltb (Fin m e) (Fin 0 0) = (m <? 0).
Proof.
  unfold Num.ltb, Num.align. rewrite Z.mul_0_l.
  pose proof (pow10_pos (e - Z.min e 0) ltac:(lia)) as HP.
  destruct (Z.ltb_spec (m * 10 ^ (e - Z.min e 0)) 0), (Z.ltb_spec m 0);
    try reflexivity; nia.
Qed.

Lemma ltb_zero_Fin (m e : Z) : Num.ltb (Fin 0 0) (Fin m e) = (0 <? m).
Proof.
  unfold Num.ltb, Num.align. rewrite Z.mul_0_l.
  pose proof (pow10_pos (e - Z.min 0 e) ltac:(lia)) as HP.
  destruct (Z.ltb_spec 0 (m * 10 ^ (e - Z.min 0 e))), (Z.ltb_spec 0 m);
    try reflexivity; nia.
Qed.

Lemma eqb_Fin_zero (m e : Z) : Num.eqb (Fin m e) (Fin 0 0) = (m =? 0).
Proof.
  unfold Num.eqb, Num.align. rewrite Z.mul_0_l.
  pose proof (pow10_pos (e - Z.min e 0) ltac:(lia)) as HP.
  destruct (Z.eqb_spec (m * 10 ^ (e - Z.min e 0)) 0), (Z.eqb_spec m 0);
    try reflexivity; nia.
Qed.

(** ** formatRate *)

(** [formatRate] compares the value itself, not its magnitude, with
    the floor: at the default floor every negative value, however
    large, renders as "<0" and the unit label. *)
Theorem formatRate_negative (RateUnit : Type) (RATE_UNIT_LABELS : RateUnit -> string)
    (compactLocaleString : number -> Z -> string)
    (value : number) (unit : RateUnit) (significantDigits : option Z) :
  Num.ltb value (Fin 0 0) = true ->
  formatRate RateUnit RATE_UNIT_LABELS compactLocaleString value unit None
    significantDigits
  = "<0" ++ RATE_UNIT_LABELS unit.
Proof.
  intros H. unfold formatRate.
  destruct value as [| | | m e]; try discriminate H; [reflexivity |].
  rewrite ltb_Fin_zero in H. apply Z.ltb_lt in H.
  rewrite eqb_Fin_zero. replace (m =? 0) with false by (symmetry; apply Z.eqb_neq; lia).
  unfold Num.leb. rewrite ltb_zero_Fin.
  replace (0 <? m) with false by (symmetry; apply Z.ltb_ge; lia).
  reflexivity.
Qed.

Lemma formatRate_negative_witness :
  formatRate bool (fun u => if u then "/s" else "/min") (fun _ _ => "") (Fin (-125) (-1))
    true None (Some 2)
  = "<0/s".
Proof.
  apply (formatRate_negative bool (fun u => if u then "/s" else "/min") (fun _ _ => "")
           (Fin (-125) (-1)) true (Some 2)).
  reflexivity.
Defined.

(** ** The clock ignores the sign *)

(** [formatSecondsToClock] renders a duration and its negation alike:
    a clock never shows a sign. *)
Theorem formatSecondsToClock_negate (x : number) (padAll : bool) :
  formatSecondsToClock (negate x) padAll = formatSecondsToClock x padAll.
Proof.
  destruct x as [| | | m e]; try reflexivity.
  unfold formatSecondsToClock, negate.
  rewrite !eqb_Fin_zero.
  replace (- m =? 0) with (m =? 0)
    by (destruct (Z.eqb_spec m 0), (Z.eqb_spec (- m) 0); try reflexivity; lia).
  cbn [Num.mul Num.abs]. rewrite Z.mul_opp_l, Z.abs_opp. reflexivity.
Qed.

(** ** formatAbbreviatedNumber: sign and small magnitudes *)

Lemma abbreviateFrom_negate (steps : list (Z * string)) (x : number)
    (ms : option Z) (inc : bool) :
  Num.gtb x (Fin 0 0) = true ->
  abbreviateFrom steps (negate x) ms inc = "-" ++ abbreviateFrom steps x ms inc.
Proof.
  intros Hpos.
  assert (Hneg : Num.ltb (negate x) (Fin 0 0) = true).
  { destruct x as [| | | m e]; try discriminate Hpos; [reflexivity |].
    unfold Num.gtb in Hpos. rewrite ltb_zero_Fin in Hpos. apply Z.ltb_lt in Hpos.
    cbn [negate]. rewrite ltb_Fin_zero. apply Z.ltb_lt. lia. }
  assert (Hx : Num.ltb x (Fin 0 0) = false).
  { destruct x as [| | | m e]; try discriminate Hpos; [reflexivity |].
    unfold Num.gtb in Hpos. rewrite ltb_zero_Fin in Hpos. apply Z.ltb_lt in Hpos.
    rewrite ltb_Fin_zero. apply Z.ltb_ge. lia. }
  assert (Habs : Num.abs (negate x) = Num.abs x).
  { destruct x; cbn; try reflexivity. rewrite Z.abs_opp. reflexivity. }
  induction steps as [| [k suffix] rest IH]; cbn [abbreviateFrom].
  - destruct x as [| | | m e]; try discriminate Hpos; [reflexivity |].
    unfold Num.gtb in Hpos. rewrite ltb_zero_Fin in Hpos. apply Z.ltb_lt in Hpos.
    cbn [negate]. unfold toLocaleString. rewrite Z.abs_opp.
    replace (- m <? 0) with true by (symmetry; apply Z.ltb_lt; lia).
    replace (m <? 0) with false by (symmetry; apply Z.ltb_ge; lia).
    reflexivity.
  - rewrite Hneg, Hx, Habs, IH.
    destruct (Num.leb _ _); [reflexivity |].
    destruct (negb inc && _); [destruct ms |]; reflexivity.
Qed.

(** Sign symmetry: the abbreviation of a negative number is "-"
    followed by the abbreviation of its magnitude, at every setting of
    the two options. *)
Theorem formatAbbreviatedNumber_negate (x : number) (ms : option Z) (inc : bool) :
  Num.gtb x (Fin 0 0) = true ->
  formatAbbreviatedNumber (IsNumber (negate x)) ms inc
  = "-" ++ formatAbbreviatedNumber (IsNumber x) ms inc.
Proof. intros H. apply abbreviateFrom_negate, H. Qed.

Lemma formatAbbreviatedNumber_negate_witness :
  formatAbbreviatedNumber (IsNumber (negate (Fin 12345 (-1)))) (Some 3) true
  = "-" ++ formatAbbreviatedNumber (IsNumber (Fin 12345 (-1))) (Some 3) true.
Proof. apply (formatAbbreviatedNumber_negate (Fin 12345 (-1)) (Some 3) true). reflexivity. Defined.

Lemma shortValue_below_thousand (m e k : Z) :
  3 <= k ->
  Num.ltb (Num.abs (Fin m e)) (Fin 1000 0) = true ->
  Num.leb (shortValueAt (Fin m e) k) (Fin 0 0) = true.
Proof.
  intros Hk H. unfold shortValueAt, Num.abs, Num.divPow10, Num.floor.
  unfold Num.ltb, Num.abs, Num.align in H. apply Z.ltb_lt in H.
  set (a := Z.abs m) in *. assert (Ha : 0 <= a) by (unfold a; lia).
  assert (Hk3 : 1000 <= 10 ^ k).
  { change 1000 with (10 ^ 3). apply Z.pow_le_mono_r; lia. }
  destruct (Z.leb_spec 0 (e - k)) as [Hek | Hek]; rewrite leb_Fin_int; apply Z.leb_le.
  - replace (Z.min e 0) with 0 in H by lia.
    rewrite !Z.sub_0_r, pow10_0 in H.
    assert (1000 <= 10 ^ e).
    { change 1000 with (10 ^ 3). apply Z.pow_le_mono_r; lia. }
    assert (a = 0) by nia. subst a. rewrite H1. lia.
  - rewrite Z.div_small; [lia |]. split; [exact Ha |].
    replace (- (e - k)) with (k - e) in * by lia.
    destruct (Z.le_ge_cases 0 e) as [He | He].
    + replace (Z.min e 0) with 0 in H by lia.
      rewrite !Z.sub_0_r, pow10_0 in H.
      assert (E : 10 ^ k = 10 ^ e * 10 ^ (k - e)).
      { rewrite <- Z.pow_add_r by lia. f_equal. lia. }
      pose proof (pow10_pos e He). pose proof (pow10_pos (k - e) ltac:(lia)). nia.
    + replace (Z.min e 0) with e in H by lia.
      rewrite Z.sub_diag, pow10_0 in H.
      assert (E : 10 ^ (k - e) = 10 ^ k * 10 ^ (0 - e)).
      { rewrite <- Z.pow_add_r by lia. f_equal. }
      pose proof (pow10_pos (0 - e) ltac:(lia)). nia.
Qed.

(** A number of magnitude below one thousand is never abbreviated: no
    step of the table applies and the result is the locale rendering of
    the number itself, without suffix. *)
Theorem formatAbbreviatedNumber_below_thousand (x : number) (ms : option Z) (inc : bool) :
  Num.ltb (Num.abs x) (Fin 1000 0) = true ->
  formatAbbreviatedNumber (IsNumber x) ms inc
  = toLocaleString x {| maximumSignificantDigits := ms;
                        maximumFractionDigits := None |}.
Proof.
  intros H. destruct x as [| | | m e]; try discriminate H.
  unfold formatAbbreviatedNumber, toNumber, numberFormatSteps.
  cbn [abbreviateFrom].
  fold (shortValueAt (Fin m e) 9). fold (shortValueAt (Fin m e) 6).
  fold (shortValueAt (Fin m e) 3).
  rewrite !shortValue_below_thousand by (try exact H; lia).
  reflexivity.
Qed.

Lemma formatAbbreviatedNumber_below_thousand_witness :
  formatAbbreviatedNumber (IsNumber (Fin (-99999) (-2))) None true
  = toLocaleString (Fin (-99999) (-2))
      {| maximumSignificantDigits := None; maximumFractionDigits := None |}.
Proof.
  apply (formatAbbreviatedNumber_below_thousand (Fin (-99999) (-2)) None true).
  reflexivity.
Defined.

(** ** formatFloat on numbers that need no truncation *)

Lemma trimStart_digits (s : string) : allDigits s = true -> Str.trimStart s = s.
Proof.
  intros H. destruct s as [| c r]; [reflexivity |]. cbn in *.
  apply andb_true_iff in H as [H _]. apply isDigit_cases in H as [H _].
  rewrite H. reflexivity.
Qed.

Lemma takeSign_digits (s : string) : allDigits s = true -> takeSign s = (false, s).
Proof.
  intros H. destruct s as [| c r]; [reflexivity |].
  cbn in H. apply andb_true_iff in H as [H _].
  destruct (isDigit_cases c H) as (_ & _ & _ & Hm & Hp & _).
  unfold takeSign. cbn [startsWithChar]. rewrite Hm, Hp. reflexivity.
Qed.

Lemma parseInt_digits (n : Z) :
  0 <= n ->
  parseInt (Str.digits n) = Fin n 0 /\
  parseInt ("-" ++ Str.digits n) = Fin (-1 * n) 0.
Proof.
  intros Hn.
  pose proof (digits_allDigits n) as Hd.
  pose proof (digits_nonempty n) as Hne.
  pose proof (digitsValue_digits n Hn) as Hv.
  set (s := Str.digits n) in *.
  split; unfold parseInt.
  - rewrite (trimStart_digits _ Hd), (takeSign_digits _ Hd),
      (spanDigits_allDigits _ Hd).
    destruct s; [congruence |]. rewrite Hv. reflexivity.
  - cbn [append Str.trimStart]. change (Str.isSpace "-") with false. cbv iota.
    unfold takeSign. cbn [startsWithChar tail]. change (Ascii.eqb "-" "-") with true.
    cbv iota. rewrite (spanDigits_allDigits _ Hd).
    destruct s; [congruence |]. rewrite Hv. reflexivity.
Qed.

(** In exact arithmetic a number that has at most [places] decimals
    goes through unchanged, as long as the number shifted by [places]
    digits still prints without an exponent (it is below 10^21). *)
Lemma formatFloat_exact_decimal (m e places : Z) :
  0 <= e + places ->
  Z.abs m * 10 ^ (e + places) < 10 ^ 21 ->
  Num.eqb (formatFloat (Fin m e) places) (Fin m e) = true.
Proof.
  intros He Hb. unfold formatFloat. cbn [Num.mul]. rewrite Z.mul_1_r.
  pose proof (pow10_pos (e + places) He) as HP.
  set (N := Z.abs m * 10 ^ (e + places)) in *.
  assert (HN : 0 <= N) by (unfold N; nia).
  destruct (parseInt_digits N HN) as [P1 P2].
  unfold toString. cbv zeta. fold N.
  replace (0 <=? e + places) with true by (symmetry; apply Z.leb_le; exact He).
  replace (N <? 10 ^ 21) with true by (symmetry; apply Z.ltb_lt; exact Hb).
  cbn [andb].
  assert (Hmin : Z.min (0 - places) e = 0 - places) by lia.
  destruct (Z.eqb_spec m 0) as [-> | Hm].
  - change (parseInt "0") with (Fin 0 0). cbn [Num.divPow10].
    unfold Num.eqb, Num.align. rewrite !Z.mul_0_l. reflexivity.
  - destruct (Z.ltb_spec m 0) as [Hneg | Hpos].
    + rewrite P2. cbn [Num.divPow10]. unfold Num.eqb, Num.align.
      rewrite Hmin, Z.sub_diag, pow10_0. apply Z.eqb_eq.
      replace (e - (0 - places)) with (e + places) by lia. unfold N. lia.
    + change ("" ++ Str.digits N) with (Str.digits N).
      rewrite P1. cbn [Num.divPow10]. unfold Num.eqb, Num.align.
      rewrite Hmin, Z.sub_diag, pow10_0. apply Z.eqb_eq.
      replace (e - (0 - places)) with (e + places) by lia. unfold N. lia.
Qed.

(** [formatFloat] returns an integer unchanged, sign included, for
    every number of places from 0 to 22 (where the power of ten is a
    double), as long as the integer shifted by [places] digits is one a
    double holds exactly (at most 2^53 in magnitude). *)
Theorem formatFloat_integer (n places : Z) :
  0 <= places <= 22 ->
  Z.abs n * 10 ^ places <= 2 ^ 53 ->
  Num.eqb (formatFloat (ofZ n) places) (ofZ n) = true.
Proof.
  intros [Hp _] Hb. apply formatFloat_exact_decimal; rewrite Z.add_0_l; [exact Hp |].
  eapply Z.le_lt_trans; [exact Hb | reflexivity].
Qed.

Lemma formatFloat_integer_witness :
  Num.eqb (formatFloat (ofZ (-1234)) 3) (ofZ (-1234)) = true.
Proof.
  apply (formatFloat_integer (-1234) 3); [lia | discriminate].
Defined.

(** ** parseClockToSeconds, field by field *)

Lemma parseClockToSeconds_unfold (clock : string) :
  parseClockToSeconds clock =
  Num.add (clockPartsSeconds (Str.split ":" (hd "" (Str.split "." clock))))
          (Num.divPow10 (orZero (NumberOpt (nth_error (Str.split "." clock) 1))) 3).
Proof. reflexivity. Qed.

Lemma add_NaN_l (y : number) : Num.add NaN y = NaN.
Proof. reflexivity. Qed.

Lemma add_NaN_r (x : number) : Num.add x NaN = NaN.
Proof. destruct x; reflexivity. Qed.

Lemma mul_NaN_r (x : number) : Num.mul x NaN = NaN.
Proof. destruct x; reflexivity. Qed.

Lemma fold_left_add_NaN {A : Type} (g : A -> number) (l : list A) :
  fold_left (fun acc i => Num.add acc (g i)) l NaN = NaN.
Proof. induction l as [| i l IH]; cbn; [reflexivity | exact IH]. Qed.

(** More than six colon-separated parts leave the progression of
    units exhausted: the seventh part is multiplied by an undefined unit
    and the result is NaN. *)
Theorem parseClockToSeconds_too_many_parts (clock : string) :
  (6 < List.length (Str.split ":" (hd "" (Str.split "." clock))))%nat ->
  parseClockToSeconds clock = NaN.
Proof.
  intros H. rewrite parseClockToSeconds_unfold.
  set (parts := Str.split ":" (hd "" (Str.split "." clock))) in *.
  assert (E : clockPartsSeconds parts = NaN).
  { unfold clockPartsSeconds.
    destruct (List.length parts) as [| [| [| [| [| [| [| n]]]]]]] eqn:L; try lia.
    cbn [sliceFromEnd List.length Nat.sub skipn].
    change (seq 0 (S (S (S (S (S (S (S n))))))))
      with (seq 0 6 ++ 6%nat :: seq 7 n)%list.
    rewrite fold_left_app. set (acc := fold_left _ (seq 0 6) _).
    cbn [fold_left nth_error]. rewrite mul_NaN_r, add_NaN_r.
    apply (fold_left_add_NaN
             (fun i => Num.mul (orZero (NumberOpt (nth_error parts i)))
                         match nth_error [MONTH; WEEK; DAY; HOUR; MINUTE; SECOND] i with
                         | Some p => Num.divPow10 (ofZ p) 3
                         | None => NaN
                         end)). }
  rewrite E. reflexivity.
Qed.

Lemma parseClockToSeconds_too_many_parts_witness :
  parseClockToSeconds "1:2:3:4:5:6:7.250" = NaN.
Proof.
  apply (parseClockToSeconds_too_many_parts "1:2:3:4:5:6:7.250"). cbn. lia.
Defined.

Lemma join_no_dot (ps : list string) :
  Forall (fun p => allDigits p = true) ps ->
  allb (fun c => negb (Ascii.eqb c ".")) (Str.join ":" ps) = true.
Proof.
  induction 1 as [| p ps Hp Hps IH]; [reflexivity |].
  destruct ps as [| q ps]; cbn [Str.join].
  - apply allDigits_no_dot, Hp.
  - rewrite allb_app, (allDigits_no_dot _ Hp). cbn [andb append allb].
    exact IH.
Qed.

Lemma join_cons (sep x y : string) (r : list string) :
  Str.join sep (x :: y :: r) = x ++ sep ++ Str.join sep (y :: r).
Proof. reflexivity. Qed.

Lemma split_join_colon (ps : list string) :
  ps <> [] -> Forall (fun p => allDigits p = true) ps ->
  Str.split ":" (Str.join ":" ps) = ps.
Proof.
  intros Hne H. induction H as [| p ps Hp Hps IH]; [congruence |].
  destruct ps as [| q ps].
  - apply split_no_sep, allDigits_no_colon, Hp.
  - rewrite join_cons. cbn [append]. rewrite (split_app_sep ":" p _ (allDigits_no_colon _ Hp)).
    rewrite IH by discriminate. reflexivity.
Qed.

Lemma digitField_all (ps : list string) (vs : list Z) :
  Forall2 digitField ps vs -> Forall (fun p => allDigits p = true) ps.
Proof.
  induction 1 as [| p v ps vs (_ & Hd & _) _ IH]; constructor; assumption.
Qed.

Lemma digitField_Number (p : string) (v : Z) : digitField p v -> Number p = Fin v 0.
Proof. intros (Hne & Hd & Hv). apply Number_digits; assumption. Qed.

Ltac invert_fields :=
  repeat match goal with
         | H : Forall2 digitField (_ :: _) _ |- _ => inversion H; subst; clear H
         | H : Forall2 digitField [] _ |- _ => inversion H; subst; clear H
         end.

Ltac number_fields :=
  repeat match goal with
         | H : digitField ?p ?v |- _ => rewrite (digitField_Number p v H); clear H
         end.

(** The loop on one to six fields of digits: the fields are weighted
    from the right by second, minute, hour, day, week and month. *)
Lemma clockParts_fields (ps : list string) (vs : list Z) :
  Forall2 digitField ps vs ->
  (1 <= List.length ps <= 6)%nat ->
  exists S, clockPartsSeconds ps = Fin S (-3)
            /\ S = weighted vs (sliceFromEnd (List.length vs) unitSeconds) * 1000.
Proof.
  intros F Hlen.
  destruct ps as [| a [| b [| c [| d [| e' [| f [| g ps]]]]]]];
    cbn [List.length] in Hlen; try lia; invert_fields;
    unfold clockPartsSeconds;
    cbn [List.length seq fold_left nth_error sliceFromEnd skipn Nat.sub NumberOpt];
    number_fields; rewrite !orZero_Fin by (right; reflexivity);
    unfold Num.add, Num.mul, Num.divPow10, Num.align, ofZ,
      MONTH, WEEK, DAY, HOUR, MINUTE, SECOND;
    cbn; eexists; (split; [reflexivity | lia]).
Qed.

Lemma parseClock_joined_value (ps : list string) (vs : list Z) :
  Forall2 digitField ps vs ->
  (1 <= List.length ps <= 6)%nat ->
  exists T, parseClockToSeconds (Str.join ":" ps) = Fin T (-3)
            /\ T = weighted vs (sliceFromEnd (List.length vs) unitSeconds) * 1000.
Proof.
  intros F Hlen.
  pose proof (digitField_all _ _ F) as Hall.
  rewrite parseClockToSeconds_unfold.
  rewrite (split_no_sep "." _ (join_no_dot _ Hall)).
  cbn [hd nth_error NumberOpt].
  assert (Hne : ps <> []) by (destruct ps; [cbn in Hlen; lia | discriminate]).
  rewrite (split_join_colon ps Hne Hall).
  destruct (clockParts_fields ps vs F Hlen) as (S & -> & ->).
  change (orZero NaN) with (Fin 0 0).
  unfold Num.add, Num.divPow10, Num.align. cbn.
  eexists. split; [reflexivity | lia].
Qed.

Lemma parseClock_joined_fraction_value (ps : list string) (vs : list Z)
    (f : string) (vf : Z) :
  Forall2 digitField ps vs ->
  (1 <= List.length ps <= 6)%nat ->
  digitField f vf ->
  exists T, parseClockToSeconds (Str.join ":" ps ++ "." ++ f) = Fin T (-3)
            /\ T = weighted vs (sliceFromEnd (List.length vs) unitSeconds) * 1000 + vf.
Proof.
  intros F Hlen Hf.
  pose proof (digitField_all _ _ F) as Hall.
  rewrite parseClockToSeconds_unfold. cbn [append].
  rewrite (split_app_sep "." _ f (join_no_dot _ Hall)).
  rewrite (split_no_sep "." f) by (apply allDigits_no_dot, Hf).
  cbn [hd nth_error NumberOpt].
  assert (Hne : ps <> []) by (destruct ps; [cbn in Hlen; lia | discriminate]).
  rewrite (split_join_colon ps Hne Hall).
  destruct (clockParts_fields ps vs F Hlen) as (S & -> & ->).
  rewrite (digitField_Number f vf Hf), orZero_Fin by (right; reflexivity).
  unfold Num.add, Num.divPow10, Num.align. cbn.
  eexists. split; [reflexivity | lia].
Qed.

Lemma parseClock_joined (ps : list string) (vs : list Z) :
  Forall2 digitField ps vs ->
  (1 <= List.length ps <= 6)%nat ->
  Num.eqb (parseClockToSeconds (Str.join ":" ps))
          (Fin (weighted vs (sliceFromEnd (List.length vs) unitSeconds)) 0) = true.
Proof.
  intros F Hlen.
  destruct (parseClock_joined_value ps vs F Hlen) as (T & -> & ->).
  unfold Num.eqb, Num.align. cbn. apply Z.eqb_eq. lia.
Qed.

Lemma parseClock_joined_fraction (ps : list string) (vs : list Z)
    (f : string) (vf : Z) :
  Forall2 digitField ps vs ->
  (1 <= List.length ps <= 6)%nat ->
  digitField f vf ->
  Num.eqb (parseClockToSeconds (Str.join ":" ps ++ "." ++ f))
          (Fin (weighted vs (sliceFromEnd (List.length vs) unitSeconds) * 1000 + vf) (-3))
  = true.
Proof.
  intros F Hlen Hf.
  destruct (parseClock_joined_fraction_value ps vs f vf F Hlen Hf) as (T & -> & ->).
  unfold Num.eqb, Num.align. cbn. apply Z.eqb_eq. lia.
Qed.

(** One to six fields of digits separated by colons, with no fraction,
    are read from the right as seconds, minutes, hours, days, weeks and
    months (of 2629800 seconds), as long as the total is an integer a
    double holds exactly (at most 2^53; every field and every partial
    sum is then one too). *)
Theorem parseClockToSeconds_fields (ps : list string) (vs : list Z) :
  Forall2 digitField ps vs ->
  (1 <= List.length ps <= 6)%nat ->
  weighted vs (sliceFromEnd (List.length vs) unitSeconds) <= 2 ^ 53 ->
  Num.eqb (parseClockToSeconds (Str.join ":" ps))
          (Fin (weighted vs (sliceFromEnd (List.length vs) unitSeconds)) 0) = true.
Proof. intros F Hlen _. apply parseClock_joined; assumption. Qed.

Lemma parseClockToSeconds_fields_witness :
  Num.eqb (parseClockToSeconds (Str.join ":" ["2"; "03"; "04"; "05"]))
          (Fin (weighted [2; 3; 4; 5] (sliceFromEnd 4 unitSeconds)) 0) = true.
Proof.
  apply (parseClockToSeconds_fields ["2"; "03"; "04"; "05"] [2; 3; 4; 5]).
  - repeat constructor; discriminate.
  - cbn. lia.
  - apply Z.leb_le. reflexivity.
Defined.

(** What follows the first '.' is read as a count of milliseconds,
    whatever its number of digits: "1.5" is 1.005 seconds, not 1.5.
    The fraction is added as thousandths, which a double holds only
    approximately; to the millisecond the result is the sum of the
    fields and the fraction, for totals of at most 2^50 milliseconds. *)
Theorem parseClockToSeconds_fraction (ps : list string) (vs : list Z)
    (f : string) (vf : Z) :
  Forall2 digitField ps vs ->
  (1 <= List.length ps <= 6)%nat ->
  digitField f vf ->
  weighted vs (sliceFromEnd (List.length vs) unitSeconds) * 1000 + vf <= 2 ^ 50 ->
  round (Num.mul (parseClockToSeconds (Str.join ":" ps ++ "." ++ f)) (ofZ 1000)) 0
  = Fin (weighted vs (sliceFromEnd (List.length vs) unitSeconds) * 1000 + vf) 0.
Proof.
  intros F Hlen Hf _.
  destruct (parseClock_joined_fraction_value ps vs f vf F Hlen Hf) as (T & -> & ->).
  set (T := _ * 1000 + vf).
  change (Fin T (-3)) with (Num.divPow10 (Fin T 0) 3).
  exact (proj1 (round_ms T)).
Qed.

Lemma parseClockToSeconds_fraction_witness :
  round (Num.mul (parseClockToSeconds (Str.join ":" ["1"] ++ "." ++ "5")) (ofZ 1000)) 0
  = Fin 1005 0.
Proof.
  apply (parseClockToSeconds_fraction ["1"] [1] "5" 5).
  - repeat constructor; discriminate.
  - cbn. lia.
  - repeat constructor; discriminate.
  - apply Z.leb_le. reflexivity.
Defined.

(** ** The clock of a parsed clock *)

Lemma range_check (f : Z -> bool) (n : nat) :
  forallb f (map Z.of_nat (seq 0 n)) = true ->
  forall r, 0 <= r < Z.of_nat n -> f r = true.
Proof.
  intros H r Hr. rewrite forallb_forall in H. apply H.
  apply in_map_iff. exists (Z.to_nat r). split; [lia |].
  apply in_seq. lia.
Qed.

Lemma isDigitField_spec (s : string) (v : Z) :
  isDigitField s v = true -> digitField s v.
Proof.
  unfold isDigitField, digitField. intros H.
  apply andb_true_iff in H as [H H3]. apply andb_true_iff in H as [H1 H2].
  repeat split.
  - destruct s; [discriminate H1 | discriminate].
  - exact H2.
  - destruct (Str.digitsValue s) as [x |]; [| discriminate H3].
    apply Z.eqb_eq in H3. congruence.
Qed.

Lemma msField_digitField (r : Z) : 0 <= r < 1000 -> digitField (msField r) r.
Proof.
  intros Hr. apply isDigitField_spec.
  apply (range_check (fun z => isDigitField (msField z) z) 1000);
    [vm_compute; reflexivity | lia].
Qed.

Lemma fillZ_digitField (z : Z) : 0 <= z -> digitField (fillZ z) z.
Proof.
  intros H. repeat split;
    [apply fillZ_nonempty | apply fillZ_allDigits | apply fillZ_value, H].
Qed.

Lemma leadZ_digitField (padAll : bool) (z : Z) : 0 <= z -> digitField (leadZ padAll z) z.
Proof.
  intros H. destruct padAll; [apply fillZ_digitField, H |].
  repeat split;
    [apply digits_nonempty | apply digits_allDigits | apply digitsValue_digits, H].
Qed.

(** The clock of a nonzero whole number [n] of milliseconds. *)
Lemma formatSecondsToClock_ms (n : Z) (padAll : bool) :
  n <> 0 -> Z.abs n < 3600000 * 10 ^ 21 ->
  let a := Z.abs n in
  let h := a / 3600000 in
  let mi := a mod 3600000 / 60000 in
  let se := (a mod 3600000) mod 60000 / 1000 in
  let ms := ((a mod 3600000) mod 60000) mod 1000 in
  formatSecondsToClock (Fin n (-3)) padAll =
  let parts := if h =? 0 then [leadZ padAll mi; fillZ se]
               else [leadZ padAll h; fillZ mi; fillZ se] in
  if ms =? 0 then Str.join ":" parts
  else Str.join ":" parts ++ "." ++ msField ms.
Proof.
  intros Hn Hb a h mi se ms. unfold formatSecondsToClock.
  rewrite eqb_Fin_zero.
  replace (n =? 0) with false by (symmetry; apply Z.eqb_neq; exact Hn).
  cbn [orb Num.isNaN].
  change (Fin n (-3)) with (Num.divPow10 (Fin n 0) 3).
  rewrite (proj2 (round_ms n)). fold a.
  assert (P21 : 10 ^ 21 = 1000000000000000000000) by reflexivity.
  assert (Ha : 0 <= a) by (unfold a; lia).
  pose proof (Z.mod_pos_bound a 3600000 ltac:(lia)) as B1.
  pose proof (Z.mod_pos_bound (a mod 3600000) 60000 ltac:(lia)) as B2.
  pose proof (Z.mod_pos_bound ((a mod 3600000) mod 60000) 1000 ltac:(lia)) as B3.
  rewrite (divideBy_nonneg a HOUR) by (unfold HOUR; lia).
  rewrite (divideBy_nonneg _ MINUTE) by (unfold HOUR, MINUTE; lia).
  rewrite (divideBy_nonneg _ SECOND) by (unfold HOUR, MINUTE, SECOND; lia).
  unfold HOUR, MINUTE, SECOND. fold h mi se ms.
  assert (Bh : 0 <= h < 10 ^ 21).
  { unfold h, a in *. split; [apply Z.div_pos; lia | apply Z.div_lt_upper_bound; lia]. }
  assert (Bmi : 0 <= mi < 60).
  { unfold mi. split; [apply Z.div_pos; lia | apply Z.div_lt_upper_bound; lia]. }
  assert (Bse : 0 <= se < 60).
  { unfold se. split; [apply Z.div_pos; lia | apply Z.div_lt_upper_bound; lia]. }
  fold ms in B3.
  rewrite !truthy_Fin.
  rewrite !fill_int by lia. rewrite !toString_int by lia.
  unfold leadZ, msField.
  destruct (h =? 0), (ms =? 0), padAll; reflexivity.
Qed.

(** In exact arithmetic, parsing the clock of a nonzero whole number
    [n] of milliseconds gives its magnitude, in thousandths. *)
Lemma clock_round_trip_value (n : Z) (padAll : bool) :
  n <> 0 -> Z.abs n < 3600000 * 10 ^ 21 ->
  parseClockToSeconds (formatSecondsToClock (Fin n (-3)) padAll) = Fin (Z.abs n) (-3).
Proof.
  intros Hn Hb.
  rewrite (formatSecondsToClock_ms n padAll Hn Hb). cbv zeta.
  set (a := Z.abs n). assert (Ha : 0 <= a) by (unfold a; lia).
  set (h := a / 3600000). set (r1 := a mod 3600000).
  set (mi := r1 / 60000). set (r2 := r1 mod 60000).
  set (se := r2 / 1000). set (ms := r2 mod 1000).
  pose proof (Z.div_mod a 3600000 ltac:(lia)) as E1. fold h r1 in E1.
  pose proof (Z.div_mod r1 60000 ltac:(lia)) as E2. fold mi r2 in E2.
  pose proof (Z.div_mod r2 1000 ltac:(lia)) as E3. fold se ms in E3.
  pose proof (Z.mod_pos_bound a 3600000 ltac:(lia)) as B1. fold r1 in B1.
  pose proof (Z.mod_pos_bound r1 60000 ltac:(lia)) as B2. fold r2 in B2.
  pose proof (Z.mod_pos_bound r2 1000 ltac:(lia)) as B3. fold ms in B3.
  assert (Bh : 0 <= h) by (apply Z.div_pos; lia).
  assert (Bmi : 0 <= mi) by (apply Z.div_pos; lia).
  assert (Bse : 0 <= se) by (apply Z.div_pos; lia).
  assert (F2 : Forall2 digitField [leadZ padAll mi; fillZ se] [mi; se])
    by (constructor; [apply leadZ_digitField; lia |];
        constructor; [apply fillZ_digitField; lia | constructor]).
  assert (F3 : Forall2 digitField [leadZ padAll h; fillZ mi; fillZ se] [h; mi; se])
    by (constructor; [apply leadZ_digitField; lia |];
        constructor; [apply fillZ_digitField; lia |];
        constructor; [apply fillZ_digitField; lia | constructor]).
  assert (L2 : (1 <= List.length [leadZ padAll mi; fillZ se] <= 6)%nat) by (cbn; lia).
  assert (L3 : (1 <= List.length [leadZ padAll h; fillZ mi; fillZ se] <= 6)%nat)
    by (cbn; lia).
  destruct (Z.eqb_spec h 0) as [Eh | Eh], (Z.eqb_spec ms 0) as [Em | Em].
  - destruct (parseClock_joined_value _ _ F2 L2) as (T & -> & ->).
    f_equal. cbn. lia.
  - destruct (parseClock_joined_fraction_value _ _ _ ms F2 L2
                (msField_digitField ms B3)) as (T & -> & ->).
    f_equal. cbn. lia.
  - destruct (parseClock_joined_value _ _ F3 L3) as (T & -> & ->).
    f_equal. cbn. lia.
  - destruct (parseClock_joined_fraction_value _ _ _ ms F3 L3
                (msField_digitField ms B3)) as (T & -> & ->).
    f_equal. cbn. lia.
Qed.

(** The clock of a parsed clock is that clock.  Parsing the clock of a
    whole number [n] of milliseconds gives back the seconds only up to
    the rounding of the thousandths (1.118 comes back as
    1.1179999999999999), but within half a millisecond, so that
    rendering the parsed value shows the same clock again, with either
    padding on either side and for either sign of [n] (for magnitudes
    of at most 2^50 milliseconds). *)
Theorem formatSecondsToClock_of_parsed_clock (n : Z) (padAll padAll' : bool) :
  Z.abs n <= 2 ^ 50 ->
  formatSecondsToClock
    (parseClockToSeconds (formatSecondsToClock (Fin n (-3)) padAll)) padAll'
  = formatSecondsToClock (Fin n (-3)) padAll'.
Proof.
  intros Hb.
  destruct (Z.eq_dec n 0) as [-> | Hn]; [destruct padAll, padAll'; reflexivity |].
  assert (Hb' : Z.abs n < 3600000 * 10 ^ 21).
  { change (2 ^ 50) with 1125899906842624 in Hb.
    change (10 ^ 21) with 1000000000000000000000. lia. }
  rewrite (clock_round_trip_value n padAll Hn Hb').
  rewrite (formatSecondsToClock_ms (Z.abs n) padAll') by lia.
  rewrite (formatSecondsToClock_ms n padAll' Hn Hb').
  cbv zeta. rewrite (Z.abs_eq (Z.abs n)) by lia. reflexivity.
Qed.

Lemma formatSecondsToClock_of_parsed_clock_witness :
  formatSecondsToClock
    (parseClockToSeconds (formatSecondsToClock (Fin (-3915007) (-3)) false)) true
  = formatSecondsToClock (Fin (-3915007) (-3)) true.
Proof.
  apply (formatSecondsToClock_of_parsed_clock (-3915007) false true).
  apply Z.leb_le. reflexivity.
Defined.

(** ** getExactDuration at a precision that names no block *)

Lemma quot_sign (M U : Z) : 0 < U -> 0 <= Z.quot M U * M.
Proof.
  intros HU. destruct (Z.le_ge_cases 0 M) as [H | H].
  - pose proof (Z.quot_pos M U H HU). nia.
  - assert (E : Z.quot M U = - Z.quot (- M) U).
    { rewrite Z.quot_opp_l by lia. lia. }
    pose proof (Z.quot_pos (- M) U ltac:(lia) HU). nia.
Qed.

Section FreePrecision.

Variable minSuffix : string.
Hypothesis no_lock :
  String.eqb minSuffix " weeks" = false /\
  String.eqb minSuffix " days" = false /\
  String.eqb minSuffix " hours" = false /\
  String.eqb minSuffix " minutes" = false /\
  String.eqb minSuffix " seconds" = false.
Hypothesis no_match :
  forall (abbr : bool) (u : TimeUnit) (q : Z),
    u <> UMillisecond ->
    String.eqb minSuffix
      (if abbr then t (unitShort u)
       else " " ++ tn (unitSingular u) (unitPlural u) (Fin q 0)) = false.

Lemma free_unitBlock (rec : number -> option string) (M : Z) (abbr : bool)
    (u : TimeUnit) (zs : list (Z * Z * TimeUnit)) :
  u <> UMillisecond ->
  rec (Num.divPow10 (Fin (Z.rem M (unitMs u)) 0) 3) = Some (render abbr (map segOfZ zs)) ->
  unitBlock rec minSuffix (Fin M 0) abbr (unitMs u) (unitShort u) (unitSingular u)
    (unitPlural u)
  = Some (render abbr (map segOfZ ((Z.quot M (unitMs u), Z.quot M (unitMs u), u) :: zs))).
Proof.
  intros Hu Hrec. unfold unitBlock.
  rewrite (divideBy_int M (unitMs u) (unitMs_pos u)), Hrec, no_match by exact Hu.
  cbn [map segOfZ render shown segUnit]. unfold segmentSuffix. cbn [segUnit counted].
  destruct u; try reflexivity. contradiction.
Qed.

Lemma free_step (fuel : nat) (x : number) (M V : Z) (abbr : bool) (u : TimeUnit) :
  (forall y M' V',
      round (Num.mul y (Fin 1000 0)) 0 = Fin M' 0 ->
      round (Num.abs (Num.mul y (Fin 1000 0))) 0 = Fin V' 0 ->
      0 <= V' -> (V' = 0 -> M' = 0) -> (rank V' < fuel)%nat ->
      exists zs, fullRun minSuffix fuel y abbr M' V' zs) ->
  u <> UMillisecond -> unitMs u <= V -> (rank V < S fuel)%nat ->
  exists zs,
    unitBlock (fun r => convertDuration fuel minSuffix r abbr) minSuffix (Fin M 0) abbr
      (unitMs u) (unitShort u) (unitSingular u) (unitPlural u)
    = Some (render abbr (map segOfZ zs))
    /\ totalMs zs = M
    /\ (V = 0 <-> zs = [])
    /\ Forall (fun z => unitMs (snd z) <= V) zs
    /\ Forall (fun z => 0 <= fst (fst z) * M) zs
    /\ descending zs.
Proof.
  intros IH Hu HV Hfuel.
  pose proof (unitMs_pos u) as HU.
  pose proof (Z.rem_bound_abs M (unitMs u) ltac:(lia)) as Hr.
  pose proof (Z.rem_sign_mul M (unitMs u) ltac:(lia)) as Hs.
  destruct (round_ms (Z.rem M (unitMs u))) as [R1 R2].
  destruct (IH _ _ _ R1 R2) as (zs & Hc & Ht & Hz & Hall & Hsign & Hdesc).
  - lia.
  - lia.
  - pose proof (rank_lt_unit (Z.abs (Z.rem M (unitMs u))) u ltac:(lia)).
    pose proof (rank_ge_unit V u HV). lia.
  - exists ((Z.quot M (unitMs u), Z.quot M (unitMs u), u) :: zs).
    split; [apply free_unitBlock; assumption |].
    split; [| split; [| split; [| split]]].
    + cbn [totalMs]. rewrite Ht.
      pose proof (Z.quot_rem' M (unitMs u)). lia.
    + split; [lia | discriminate].
    + constructor; [exact HV |].
      eapply Forall_impl; [| exact Hall]. cbn beta. intros z Hle. lia.
    + constructor; [cbn [fst]; apply quot_sign, HU |].
      destruct (Z.eq_dec (Z.rem M (unitMs u)) 0) as [E | E].
      * assert (zs = []) as -> by (apply Hz; lia). constructor.
      * eapply Forall_impl; [| exact Hsign]. cbn beta. intros z Hq. nia.
    + cbn [descending]. split; [| exact Hdesc].
      eapply Forall_impl; [| exact Hall]. cbn beta. cbn [snd]. intros z Hle. lia.
Qed.

Lemma free_full (fuel : nat) (abbr : bool) :
  forall (x : number) (M V : Z),
    round (Num.mul x (Fin 1000 0)) 0 = Fin M 0 ->
    round (Num.abs (Num.mul x (Fin 1000 0))) 0 = Fin V 0 ->
    0 <= V -> (V = 0 -> M = 0) -> (rank V < fuel)%nat ->
    exists zs, fullRun minSuffix fuel x abbr M V zs.
Proof.
  destruct no_lock as (Lw & Ld & Lh & Lm & Ls).
  induction fuel as [| fuel IH]; intros x M V HM HV H0 Hz Hfuel; [lia |].
  unfold fullRun.
  rewrite convertDuration_S. cbv zeta. rewrite HM, HV, Lw, Ld, Lh, Lm, Ls.
  rewrite !andb_false_r, !orb_false_r. unfold ofZ. rewrite !geb_Fin_int.
  destruct (Z.leb_spec WEEK V) as [H1 | H1].
  { apply (free_step fuel x M V abbr UWeek IH); [discriminate | exact H1 | exact Hfuel]. }
  destruct (Z.leb_spec DAY V) as [H2 | H2].
  { apply (free_step fuel x M V abbr UDay IH); [discriminate | exact H2 | exact Hfuel]. }
  destruct (Z.leb_spec HOUR V) as [H3 | H3].
  { apply (free_step fuel x M V abbr UHour IH); [discriminate | exact H3 | exact Hfuel]. }
  destruct (Z.leb_spec MINUTE V) as [H4 | H4].
  { apply (free_step fuel x M V abbr UMinute IH); [discriminate | exact H4 | exact Hfuel]. }
  destruct (Z.leb_spec SECOND V) as [H5 | H5].
  { apply (free_step fuel x M V abbr USecond IH); [discriminate | exact H5 | exact Hfuel]. }
  rewrite eqb_Fin_0. destruct (Z.eqb_spec V 0) as [E | E].
  - exists []. repeat split; auto; try constructor. symmetry. auto.
  - exists [(M, V, UMillisecond)]. repeat split; try discriminate; try constructor;
      try constructor.
    + cbn [map segOfZ render shown segUnit]. unfold segmentSuffix.
      cbn [segUnit counted]. rewrite !append_empty_r. reflexivity.
    + cbn [totalMs]. unfold unitMs, MILLISECOND. lia.
    + intros; contradiction.
    + cbn. unfold MILLISECOND. lia.
    + cbn [fst]. nia.
Qed.

End FreePrecision.

Lemma default_precision_free :
  (String.eqb " milliseconds" " weeks" = false /\
   String.eqb " milliseconds" " days" = false /\
   String.eqb " milliseconds" " hours" = false /\
   String.eqb " milliseconds" " minutes" = false /\
   String.eqb " milliseconds" " seconds" = false) /\
  (forall (abbr : bool) (u : TimeUnit) (q : Z),
      u <> UMillisecond ->
      String.eqb " milliseconds"
        (if abbr then t (unitShort u)
         else " " ++ tn (unitSingular u) (unitPlural u) (Fin q 0)) = false).
Proof.
  split; [repeat split |].
  intros abbr u q Hu. unfold tn.
  destruct abbr; [destruct u; try reflexivity; contradiction |].
  destruct (Num.eqb _ _); destruct u; try reflexivity; contradiction.
Qed.

(** At the default precision, in either form, a nonzero whole number
    [n] of milliseconds (of magnitude at most 2^50, where the products
    and quotients of the code are exact or round back to the integers
    they stand for) comes out as a non-empty list of segments that
    accounts for every millisecond: the quotients times their units add
    up to [n], each quotient carries the sign of [n] (there is no
    separate minus sign), and the units strictly decrease from one
    segment to the next. *)
Theorem getExactDuration_default_is_exact (n : Z) (abbr : bool) :
  n <> 0 -> Z.abs n <= 2 ^ 50 ->
  exists zs,
    zs <> [] /\
    getExactDuration 7 (Fin n (-3)) abbr Milliseconds
    = Some (Str.trim (render abbr (map segOfZ zs))) /\
    totalMs zs = n /\
    Forall (fun z => 0 <= fst (fst z) * n) zs /\
    descending zs.
Proof.
  intros Hnz _.
  change (Fin n (-3)) with (Num.divPow10 (Fin n 0) 3).
  destruct (round_ms n) as [HM HV].
  destruct default_precision_free as [L N].
  destruct (free_full " milliseconds" L N 7 abbr (Num.divPow10 (Fin n 0) 3) n (Z.abs n)
              HM HV)
    as (zs & Hc & Ht & Hne & _ & Hsign & Hdesc); [lia | lia | |].
  { pose proof (rank_le_6 (Z.abs n)). lia. }
  assert (Hzs : zs <> []) by (intros E; apply Hne in E; lia).
  exists zs. split; [exact Hzs |]. split; [| split; [exact Ht | split]].
  - unfold getExactDuration. cbn [precisionName append]. rewrite Hc.
    destruct (String.length _ =? 0)%nat eqn:E; [| reflexivity].
    apply length_zero_iff in E. exfalso.
    apply (render_not_blank abbr (map segOfZ zs)); [| exact E].
    destruct zs; [contradiction | discriminate].
  - exact Hsign.
  - exact Hdesc.
Qed.

Lemma getExactDuration_default_is_exact_witness :
  exists zs,
    zs <> [] /\
    getExactDuration 7 (Fin (-90061500) (-3)) true Milliseconds
    = Some (Str.trim (render true (map segOfZ zs))) /\
    totalMs zs = -90061500 /\
    Forall (fun z => 0 <= fst (fst z) * -90061500) zs /\
    descending zs.
Proof.
  apply (getExactDuration_default_is_exact (-90061500) true);
    [discriminate | apply Z.leb_le; reflexivity].
Defined.

(** ** getExactDuration in long form always returns *)

Lemma small_quot_rem (M U : Z) :
  0 < U -> Z.abs M < U -> Z.quot M U = 0 /\ Z.rem M U = M.
Proof.
  intros HU H. split.
  - apply Z.quot_small_iff; lia.
  - apply Z.rem_small_iff; lia.
Qed.

Lemma round_finite_le (m e : Z) :
  exists M V,
    round (Num.mul (Fin m e) (Fin 1000 0)) 0 = Fin M 0 /\
    round (Num.abs (Num.mul (Fin m e) (Fin 1000 0))) 0 = Fin V 0 /\
    Z.abs M <= V.
Proof.
  unfold round, Num.mul, Num.abs, Num.round. change (0 =? 0) with true. cbv iota.
  set (a := m * 1000). set (e' := e + 0).
  destruct (Z.leb_spec 0 e') as [He | He].
  - exists (a * 10 ^ e'), (Z.abs a * 10 ^ e').
    pose proof (pow10_pos e' He).
    repeat split. rewrite Z.abs_mul. rewrite (Z.abs_eq (10 ^ e')) by lia. lia.
  - set (D := 10 ^ (- e')).
    assert (HD : 0 < D) by (apply Z.pow_pos_nonneg; lia).
    exists ((2 * a + D) / (2 * D)), ((2 * Z.abs a + D) / (2 * D)).
    repeat split.
    pose proof (Z.mul_div_le (2 * Z.abs a + D) (2 * D) ltac:(lia)) as V1.
    pose proof (Z.mul_succ_div_gt (2 * Z.abs a + D) (2 * D) ltac:(lia)) as V2.
    pose proof (Z.mul_div_le (2 * a + D) (2 * D) ltac:(lia)) as M1.
    pose proof (Z.mul_succ_div_gt (2 * a + D) (2 * D) ltac:(lia)) as M2.
    set (V := (2 * Z.abs a + D) / (2 * D)) in *.
    set (M := (2 * a + D) / (2 * D)) in *.
    apply Z.abs_le. split; nia.
Qed.

Lemma long_block (rec : number -> option string) (minSuffix : string)
    (M V : Z) (u : TimeUnit) :
  Z.abs M <= V ->
  unitMs u <= V \/ minSuffix = " " ++ unitPlural u ->
  (unitMs u <= V ->
   exists r, rec (Num.divPow10 (Fin (Z.rem M (unitMs u)) 0) 3) = Some r) ->
  exists r,
    unitBlock rec minSuffix (Fin M 0) false (unitMs u) (unitShort u) (unitSingular u)
      (unitPlural u) = Some r.
Proof.
  intros HM Hcond Hrec. unfold unitBlock.
  rewrite (divideBy_int M (unitMs u) (unitMs_pos u)).
  destruct (String.eqb minSuffix _) eqn:E; [eexists; reflexivity |].
  destruct (Z.le_gt_cases (unitMs u) V) as [HV | HV].
  - destruct (Hrec HV) as [r ->]. eexists; reflexivity.
  - destruct Hcond as [? | Hlock]; [lia |]. exfalso.
    destruct (small_quot_rem M (unitMs u) (unitMs_pos u) ltac:(lia)) as [Q _].
    rewrite Q in E. unfold tn in E.
    change (Num.eqb (Fin 0 0) (Fin 1 0)) with false in E. cbv iota in E.
    rewrite Hlock, String.eqb_refl in E. discriminate E.
Qed.

Lemma long_total (minSuffix : string) (fuel : nat) :
  forall (x : number) (M V : Z),
    round (Num.mul x (Fin 1000 0)) 0 = Fin M 0 ->
    round (Num.abs (Num.mul x (Fin 1000 0))) 0 = Fin V 0 ->
    Z.abs M <= V -> (rank V < fuel)%nat ->
    exists r, convertDuration fuel minSuffix x false = Some r.
Proof.
  induction fuel as [| fuel IH]; intros x M V HM HV Hle Hfuel; [lia |].
  assert (Hrec : forall u, unitMs u <= V ->
            exists r, convertDuration fuel minSuffix
                        (Num.divPow10 (Fin (Z.rem M (unitMs u)) 0) 3) false = Some r).
  { intros u HU. pose proof (unitMs_pos u) as Hp.
    pose proof (Z.rem_bound_abs M (unitMs u) ltac:(lia)) as Hr.
    destruct (round_ms (Z.rem M (unitMs u))) as [R1 R2].
    apply (IH _ _ _ R1 R2); [lia |].
    pose proof (rank_lt_unit (Z.abs (Z.rem M (unitMs u))) u ltac:(lia)).
    pose proof (rank_ge_unit V u HU). lia. }
  assert (Hcond : forall (U : Z) (w : string),
            (U <=? V) || (negb (V =? 0) && String.eqb minSuffix w) = true ->
            U <= V \/ minSuffix = w).
  { intros U w C. apply orb_true_iff in C as [C | C].
    - left. apply Z.leb_le, C.
    - right. apply andb_true_iff in C as [_ C]. apply String.eqb_eq, C. }
  rewrite convertDuration_S. cbv zeta. rewrite HM, HV.
  unfold ofZ. rewrite !geb_Fin_int, !truthy_Fin.
  match goal with
  | |- exists r, (if ?c then _ else _) = Some r => destruct c eqn:C1
  end.
  { apply (long_block _ minSuffix M V UWeek Hle (Hcond _ _ C1) (Hrec UWeek)). }
  match goal with
  | |- exists r, (if ?c then _ else _) = Some r => destruct c eqn:C2
  end.
  { apply (long_block _ minSuffix M V UDay Hle (Hcond _ _ C2) (Hrec UDay)). }
  match goal with
  | |- exists r, (if ?c then _ else _) = Some r => destruct c eqn:C3
  end.
  { apply (long_block _ minSuffix M V UHour Hle (Hcond _ _ C3) (Hrec UHour)). }
  match goal with
  | |- exists r, (if ?c then _ else _) = Some r => destruct c eqn:C4
  end.
  { apply (long_block _ minSuffix M V UMinute Hle (Hcond _ _ C4) (Hrec UMinute)). }
  match goal with
  | |- exists r, (if ?c then _ else _) = Some r => destruct c eqn:C5
  end.
  { apply (long_block _ minSuffix M V USecond Hle (Hcond _ _ C5) (Hrec USecond)). }
  destruct (Num.eqb _ _); eexists; reflexivity.
Qed.

(** In long form [getExactDuration] returns for every finite duration
    and every precision token, within seven nested calls: the runaway
    recursion of the abbreviated form cannot happen, because a quotient
    of zero takes the plural word, which is the precision token. *)
Theorem getExactDuration_long_returns (m e : Z) (p : Precision) :
  exists out, getExactDuration 7 (Fin m e) false p = Some out /\ out <> "".
Proof.
  destruct (round_finite_le m e) as (M & V & HM & HV & Hle).
  destruct (long_total (" " ++ precisionName p) 7 (Fin m e) M V HM HV Hle) as [r Hr].
  { pose proof (rank_le_6 V). lia. }
  unfold getExactDuration. rewrite Hr.
  destruct (String.length (Str.trim r) =? 0)%nat eqn:E; cbn [negb].
  - eexists. split; [reflexivity | discriminate].
  - eexists. split; [reflexivity |]. intros H. rewrite H in E. discriminate E.
Qed.

(** ** getExactDuration abbreviated, below the precision unit *)

Ltac eval_string_eqb :=
  repeat match goal with
         | |- context [String.eqb ?a ?b] =>
             let v := eval vm_compute in (String.eqb a b) in
             change (String.eqb a b) with v
         end.

Lemma abbr_lock_loops (p : Precision) (u : TimeUnit) (r : Z) :
  lockUnit p = Some u ->
  0 < Z.abs r < unitMs u ->
  forall fuel,
    convertDuration fuel (" " ++ precisionName p) (Num.divPow10 (Fin r 0) 3) true = None.
Proof.
  intros Hp Hr fuel. induction fuel as [| fuel IH]; [reflexivity |].
  rewrite convertDuration_S. cbv zeta.
  rewrite (proj1 (round_ms r)), (proj2 (round_ms r)).
  unfold ofZ. rewrite !geb_Fin_int, !truthy_Fin.
  replace (Z.abs r =? 0) with false by (symmetry; apply Z.eqb_neq; lia).
  pose proof (unitMs_pos u) as HU.
  destruct (small_quot_rem r (unitMs u) HU ltac:(lia)) as [Q R].
  destruct p; cbn in Hp; inversion Hp; subst u; clear Hp;
    cbn [precisionName append negb andb]; cbn [precisionName append] in IH;
    eval_string_eqb; cbn [andb orb];
    repeat match goal with
           | |- context [?a <=? Z.abs r] =>
               replace (a <=? Z.abs r) with false
                 by (symmetry; apply Z.leb_gt; unfold_units; lia)
           end;
    rewrite ?orb_false_r, ?orb_true_r; cbv iota;
    unfold unitBlock;
    match goal with
    | |- context [divideBy (Fin r 0) ?U] =>
        rewrite (divideBy_int r U ltac:(reflexivity))
    end;
    unfold unitMs in Q, R; rewrite Q, R;
    unfold t; eval_string_eqb; cbv iota; rewrite IH; reflexivity.
Qed.

(** Abbreviated, with one of the precision tokens 'weeks', 'days',
    'hours', 'minutes' or 'seconds', a duration of a nonzero whole
    number of milliseconds below the unit of the token never comes back:
    the block of that unit hands the unchanged value to itself. *)
Theorem getExactDuration_abbreviated_below_precision_loops
    (p : Precision) (u : TimeUnit) (r : Z) :
  lockUnit p = Some u ->
  0 < Z.abs r < unitMs u ->
  forall fuel, getExactDuration fuel (Fin r (-3)) true p = None.
Proof.
  intros Hp Hr fuel. unfold getExactDuration.
  change (Fin r (-3)) with (Num.divPow10 (Fin r 0) 3).
  rewrite (abbr_lock_loops p u r Hp Hr fuel). reflexivity.
Qed.

Lemma getExactDuration_abbreviated_below_precision_loops_witness :
  getExactDuration 1000 (Fin (-100) (-3)) true Seconds = None.
Proof.
  apply (getExactDuration_abbreviated_below_precision_loops Seconds USecond (-100)).
  - reflexivity.
  - split; reflexivity.
Defined.

(** ** The width of a padded clock *)

Lemma length_app (a b : string) :
  String.length (a ++ b) = (String.length a + String.length b)%nat.
Proof. induction a as [| c a IH]; cbn; [| rewrite IH]; reflexivity. Qed.

Lemma fillZ_length (z : Z) : 0 <= z < 60 -> String.length (fillZ z) = 2%nat.
Proof.
  intros H. apply Nat.eqb_eq.
  apply (range_check (fun v => (String.length (fillZ v) =? 2)%nat) 60);
    [vm_compute; reflexivity | lia].
Qed.

Lemma msField_length (r : Z) : 0 <= r < 1000 -> String.length (msField r) = 3%nat.
Proof.
  intros H. apply Nat.eqb_eq.
  apply (range_check (fun v => (String.length (msField v) =? 3)%nat) 1000);
    [vm_compute; reflexivity | lia].
Qed.

(** Below one hour the padded clock has a fixed width: "MM:SS", five
    characters, for a whole number of seconds and "MM:SS.mmm", nine
    characters, otherwise; the sign of the duration plays no part. *)
Theorem formatSecondsToClock_width (n : Z) :
  Z.abs n < 3600000 ->
  String.length (formatSecondsToClock (Fin n (-3)) true)
  = if Z.abs n mod 1000 =? 0 then 5%nat else 9%nat.
Proof.
  intros Hb.
  destruct (Z.eq_dec n 0) as [-> | Hn]; [reflexivity |].
  rewrite (formatSecondsToClock_ms n true Hn) by (change (10 ^ 21) with 1000000000000000000000; lia).
  cbv zeta. set (a := Z.abs n) in *.
  assert (Ha : 0 <= a) by (unfold a; lia).
  rewrite (Z.div_small a 3600000) by lia.
  rewrite (Z.mod_small a 3600000) by lia.
  change (0 =? 0) with true. cbv iota.
  pose proof (Z.mod_pos_bound a 60000 ltac:(lia)) as B2.
  pose proof (Z.mod_pos_bound (a mod 60000) 1000 ltac:(lia)) as B3.
  assert (Bmi : 0 <= a / 60000 < 60).
  { split; [apply Z.div_pos; lia | apply Z.div_lt_upper_bound; lia]. }
  assert (Bse : 0 <= a mod 60000 / 1000 < 60).
  { split; [apply Z.div_pos; lia | apply Z.div_lt_upper_bound; lia]. }
  assert (Ems : (a mod 60000) mod 1000 = a mod 1000).
  { replace 60000 with (1000 * 60) by reflexivity.
    rewrite Z.rem_mul_r by lia.
    rewrite Z.add_mod, Z.mul_comm, Z.mod_mul, Z.add_0_r, !Z.mod_mod by lia.
    reflexivity. }
  rewrite Ems in *.
  unfold leadZ. cbn [Str.join].
  destruct (a mod 1000 =? 0);
    rewrite ?length_app, ?fillZ_length, ?msField_length by lia; reflexivity.
Qed.

Lemma formatSecondsToClock_width_witness :
  String.length (formatSecondsToClock (Fin (-754321) (-3)) true)
  = if Z.abs (-754321) mod 1000 =? 0 then 5%nat else 9%nat.
Proof. apply (formatSecondsToClock_width (-754321)). reflexivity. Defined.

(** * Properties on binary64 numbers *)

(** ** The host primitives on sample values *)

Example F64_toString_samples :
  map F64.toString
    [PrimFloat.add (F64.ofDecimal 1 (-1)) (F64.ofDecimal 2 (-1));
     PrimFloat.mul (F64.ofDecimal 7 (-2)) (F64.ofZ 100);
     F64.ofDecimal 1 21; F64.ofZ 72057594037928992; F64.ofDecimal 5 (-324);
     F64.ofDecimal 17976931348623157 292; F64.ofDecimal 1 (-7);
     F64.ofZ 123456789012345678901; F64.ofDecimal (-15) (-1); F64.ofDecimal 1 400;
     PrimFloat.div (F64.ofZ 1) (F64.ofZ 3); F64.ofDecimal 1118 (-3);
     PrimFloat.add (F64.ofZ 1) (PrimFloat.div (F64.ofZ 118) (F64.ofZ 1000));
     PrimFloat.mul (F64.ofZ 72057594037929) (F64.ofZ 1000); F64.ofDecimal 1 23;
     PrimFloat.neg_zero]
  = ["0.30000000000000004"; "7.000000000000001"; "1e+21"; "72057594037929000";
     "5e-324"; "1.7976931348623157e+308"; "1e-7"; "123456789012345680000"; "-1.5";
     "Infinity"; "0.3333333333333333"; "1.118"; "1.1179999999999999";
     "72057594037929000"; "1e+23"; "0"].
Proof. vm_compute. reflexivity. Qed.

(** The rounding of [ofDecimal] is that of the processor's division. *)
Example F64_nearest_agrees_with_division :
  forallb (fun pq => PrimFloat.eqb (F64.nearestDouble (fst pq) (snd pq))
                       (PrimFloat.div (F64.ofZ (fst pq)) (F64.ofZ (snd pq))))
    [(1, 3); (2, 3); (1, 10); (7, 100); (123456789, 1000); (9007199254740991, 7);
     (1, 9007199254740991); (5, 1000); (118, 1000); (4503599627370497, 2)] = true.
Proof. vm_compute. reflexivity. Qed.

Example F64_Number_samples :
  map (fun s => F64.toString (F64.Number s))
    ["12"; " 12 "; "0x1f"; "-0x1f"; "1e3"; ".5"; "5."; "."; "1_000"; "Infinity";
     "abc"; ""; "12px"; "1e999"; "12999999.9999999999999"]
  = ["12"; "12"; "31"; "NaN"; "1000"; "0.5"; "5"; "NaN"; "NaN"; "Infinity";
     "NaN"; "0"; "NaN"; "Infinity"; "13000000"].
Proof. vm_compute. reflexivity. Qed.

(** White space of the script around a number is trimmed, U+00A0 and
    U+FEFF included. *)
Example F64_Number_trims_no_break_space :
  F64.toString
    (F64.Number (String (ascii_of_nat 194) (String (ascii_of_nat 160) "5000"))) = "5000"
  /\ F64.toString
       (F64.Number ("5" ++ String (ascii_of_nat 239) (String (ascii_of_nat 187)
                             (String (ascii_of_nat 191) "")))) = "5".
Proof. split; vm_compute; reflexivity. Qed.

Example F64_round_samples :
  map (fun x => F64.toString (F64.round (fst x) (snd x)))
    [(F64.ofDecimal 1005 (-3), 2); (F64.ofDecimal 1234567 (-3), -2);
     (F64.ofDecimal 25 (-1), 0); (F64.ofDecimal (-25) (-1), 0);
     (F64.ofDecimal 4999 (-4), 2)]
  = ["1.01"; "1200"; "3"; "-2"; "0.5"].
Proof. vm_compute. reflexivity. Qed.

(** ** The clock *)

(** On whole seconds and whole milliseconds of ordinary size the two
    embeddings print the same clocks. *)
Example F64_clock_samples :
  map (fun x => F64.formatSecondsToClock (fst x) (snd x))
    [(F64.ofZ 3915, true); (F64.ofZ 3915, false); (F64.ofZ 5, false);
     (PrimFloat.zero, true); (PrimFloat.nan, false); (F64.ofDecimal (-3915007) (-3), true);
     (F64.ofDecimal 1118 (-3), true); (PrimFloat.infinity, true)]
  = ["01:05:15"; "1:05:15"; "0:05"; "00:00"; "0:00"; "01:05:15.007"; "00:01.118";
     "Infinity:NaN:NaN"]
  /\ map (fun x => formatSecondsToClock (fst x) (snd x))
       [(ofZ 3915, true); (ofZ 3915, false); (ofZ 5, false);
        (Fin 0 0, true); (NaN, false); (Fin (-3915007) (-3), true);
        (Fin 1118 (-3), true); (PosInf, true)]
     = ["01:05:15"; "1:05:15"; "0:05"; "00:00"; "0:00"; "01:05:15.007"; "00:01.118";
        "Infinity:NaN:NaN"].
Proof. split; vm_compute; reflexivity. Qed.

(** The thousandths of a parsed clock are rounded: the seconds do not
    come back exactly, the clock does. *)
Example F64_clock_fraction_is_rounded :
  F64.toString (F64.parseClockToSeconds (F64.formatSecondsToClock (F64.ofDecimal 1118 (-3)) true))
  = "1.1179999999999999"
  /\ F64.formatSecondsToClock
       (F64.parseClockToSeconds (F64.formatSecondsToClock (F64.ofDecimal 1118 (-3)) true))
       true
     = F64.formatSecondsToClock (F64.ofDecimal 1118 (-3)) true.
Proof. split; vm_compute; reflexivity. Qed.

(** Parsing is lenient: a clock without ':' and '.' that [Number()]
    does not accept reads as zero seconds. *)
Theorem parseClockToSeconds_not_a_number (clock : string) :
  allb (fun c => negb (Ascii.eqb c ".")) clock = true ->
  allb (fun c => negb (Ascii.eqb c ":")) clock = true ->
  F64.Number clock = PrimFloat.nan ->
  F64.parseClockToSeconds clock = PrimFloat.zero.
Proof.
  intros Hdot Hcolon HN. unfold F64.parseClockToSeconds.
  rewrite (split_no_sep "." clock Hdot). cbn [hd nth_error].
  rewrite (split_no_sep ":" clock Hcolon).
  cbn [List.length seq fold_left nth_error sliceFromEnd skipn Nat.sub map
       F64.NumberOpt].
  rewrite HN. vm_compute. reflexivity.
Qed.

Lemma parseClockToSeconds_not_a_number_witness :
  F64.parseClockToSeconds "soon" = PrimFloat.zero.
Proof. apply (parseClockToSeconds_not_a_number "soon"); vm_compute; reflexivity. Defined.

(** ** formatPercentage *)

(** C9: zero, of either sign, renders as "0%" whatever the places and
    the floor; a nonzero value whose magnitude is at most the floor
    renders as "<", the product [floor * 100] as the script computes
    and prints it, and "%"; [formatPercentage(0.005, 2, {minimumValue:
    0.01})] is "<1%". *)
Theorem C9_percentage_zero_and_floor :
  (forall (host : float -> NumberFormatOptions -> string) (z : float) (places : Z)
          (floor : option float),
      PrimFloat.eqb z PrimFloat.zero = true ->
      F64.formatPercentage host z places floor = F64.Ok "0%") /\
  (forall (host : float -> NumberFormatOptions -> string) (v floor : float) (places : Z),
      PrimFloat.eqb v PrimFloat.zero = false ->
      PrimFloat.leb (PrimFloat.abs v) floor = true ->
      F64.formatPercentage host v places (Some floor)
      = F64.Ok ("<" ++ F64.toString (PrimFloat.mul floor (F64.ofZ 100)) ++ "%")) /\
  (forall host : float -> NumberFormatOptions -> string,
      F64.formatPercentage host (F64.ofDecimal 5 (-3)) 2 (Some (F64.ofDecimal 1 (-2)))
      = F64.Ok "<1%").
Proof.
  split; [| split].
  - intros host z places floor Hz. unfold F64.formatPercentage. rewrite Hz. reflexivity.
  - intros host v floor places Hv Hle. unfold F64.formatPercentage.
    rewrite Hv, Hle. reflexivity.
  - intros host. vm_compute. reflexivity.
Qed.

Lemma C9_percentage_zero_and_floor_witness :
  F64.formatPercentage hostEnUS (F64.ofDecimal (-5) (-4)) 2 (Some (F64.ofDecimal 7 (-2)))
  = F64.Ok ("<" ++ F64.toString (PrimFloat.mul (F64.ofDecimal 7 (-2)) (F64.ofZ 100)) ++ "%")
  /\ F64.formatPercentage hostEnUS PrimFloat.neg_zero 2 None = F64.Ok "0%".
Proof.
  split.
  - apply (proj1 (proj2 C9_percentage_zero_and_floor) hostEnUS); vm_compute; reflexivity.
  - apply (proj1 C9_percentage_zero_and_floor hostEnUS). vm_compute; reflexivity.
Defined.

(** The product is the rounded one: a floor of 0.07 shows as
    7.000000000000001. *)
Example F64_percentage_floor_is_the_double_product :
  F64.formatPercentage hostEnUS (F64.ofDecimal 5 (-4)) 2 (Some (F64.ofDecimal 7 (-2)))
  = F64.Ok "<7.000000000000001%".
Proof. vm_compute. reflexivity. Qed.

(** ** formatAbbreviatedNumber: the integer quotient *)

Lemma F64_abbreviateFrom_skip (host : float -> NumberFormatOptions -> string)
    (pre rest : list (float * string)) (x : float) (ms : option Z) (inc : bool) :
  Forall (fun st => PrimFloat.leb (F64.floor (PrimFloat.div (PrimFloat.abs x) (fst st)))
                      PrimFloat.zero = true) pre ->
  F64.abbreviateFrom host (pre ++ rest) x ms inc = F64.abbreviateFrom host rest x ms inc.
Proof.
  induction 1 as [| [thr suf] pre H _ IH]; [reflexivity |].
  cbn [app F64.abbreviateFrom]. cbn [fst] in H. rewrite H. exact IH.
Qed.

(** C7, as stated, fails: the claim leaves the significant-digit
    argument free, and when it is given the quotient goes through
    [toPrecision] and is no longer the truncated one.
    [formatAbbreviatedNumber(12345000, 1)], whose quotient 12 exceeds 10,
    is "10m" and not "12m". *)
Lemma C7_significant_digits_alter_quotient :
  F64.toString (F64.floor (PrimFloat.div (F64.ofZ 12345000) (F64.ofZ 1000000))) = "12" /\
  F64.formatAbbreviatedNumber hostEnUS (F64.IsNumber (F64.ofZ 12345000)) (Some 1) false
  = F64.Ok "10m".
Proof. split; vm_compute; reflexivity. Qed.

(** C7, amended: take the first step of the table (billion "b", million
    "m", thousand "k") at which the quotient, the floor of the double
    [|x| / threshold], is positive, every earlier step having a
    quotient that is not.  When no maximumSignificantDigits is given,
    decimals are not requested, and the quotient exceeds 10 or [|x|]
    leaves no remainder at the threshold, the result is the sign
    prefix, the quotient as the script prints it, and the suffix of the
    step; [formatAbbreviatedNumber(1000)] is "1k" and
    [formatAbbreviatedNumber(-500000)] is "-500k". *)
Theorem C7_abbreviated_integer_quotient :
  (forall (host : float -> NumberFormatOptions -> string) (x : float)
          (pre post : list (float * string)) (threshold : float) (suffix : string),
      F64.numberFormatSteps = (pre ++ (threshold, suffix) :: post)%list ->
      Forall (fun st => PrimFloat.leb (F64.floor (PrimFloat.div (PrimFloat.abs x) (fst st)))
                          PrimFloat.zero = true) pre ->
      let q := F64.floor (PrimFloat.div (PrimFloat.abs x) threshold) in
      PrimFloat.leb q PrimFloat.zero = false ->
      F64.gtb q (F64.ofZ 10) = true
      \/ PrimFloat.eqb (F64.rem (PrimFloat.abs x) threshold) PrimFloat.zero = true ->
      F64.formatAbbreviatedNumber host (F64.IsNumber x) None false
      = F64.Ok ((if PrimFloat.ltb x PrimFloat.zero then "-" else "")
                ++ F64.toString q ++ suffix)) /\
  (forall host : float -> NumberFormatOptions -> string,
      F64.formatAbbreviatedNumber host (F64.IsNumber (F64.ofZ 1000)) None false
      = F64.Ok "1k" /\
      F64.formatAbbreviatedNumber host (F64.IsNumber (F64.ofZ (-500000))) None false
      = F64.Ok "-500k").
Proof.
  split.
  - intros host x pre post threshold suffix Hsteps Hpre q Hq Huse.
    unfold F64.formatAbbreviatedNumber. rewrite Hsteps. cbn [F64.toNumber].
    rewrite (F64_abbreviateFrom_skip host pre _ x None false Hpre).
    cbn [F64.abbreviateFrom]. fold q. rewrite Hq. cbn [negb andb].
    destruct Huse as [H | H]; rewrite H; [| rewrite orb_true_r]; reflexivity.
  - intros host. split; vm_compute; reflexivity.
Qed.

Lemma C7_abbreviated_integer_quotient_witness :
  F64.formatAbbreviatedNumber hostEnUS (F64.IsNumber (F64.ofZ (-2000000))) None false
  = F64.Ok ((if PrimFloat.ltb (F64.ofZ (-2000000)) PrimFloat.zero then "-" else "")
            ++ F64.toString
                 (F64.floor (PrimFloat.div (PrimFloat.abs (F64.ofZ (-2000000)))
                               (F64.ofZ 1000000)))
            ++ "m").
Proof.
  apply (proj1 C7_abbreviated_integer_quotient hostEnUS (F64.ofZ (-2000000))
           [(F64.ofZ 1000000000, "b")] [(F64.ofZ 1000, "k")] (F64.ofZ 1000000) "m").
  - reflexivity.
  - constructor; [vm_compute; reflexivity | constructor].
  - vm_compute; reflexivity.
  - right. vm_compute; reflexivity.
Defined.

(** The quotient is the floor of the rounded division and prints with
    the digits of a double: beyond 2^53 it is not the integer
    quotient, and a string with more digits than a double holds is
    read as the nearest double first. *)
Example F64_abbreviated_quotient_is_a_double :
  F64.formatAbbreviatedNumber hostEnUS (F64.IsNumber (F64.ofZ 9223372036999999488))
    None false = F64.Ok "9223372037b"
  /\ F64.formatAbbreviatedNumber hostEnUS (F64.IsString "12999999.9999999999999")
       None false = F64.Ok "13m"
  /\ F64.formatAbbreviatedNumber hostEnUS (F64.IsNumber PrimFloat.infinity)
       None false = F64.Ok "Infinityb".
Proof. repeat split; vm_compute; reflexivity. Qed.

(** ** formatAbbreviatedNumber on strings that are not numbers *)

Lemma hostEnUS_nan (o : NumberFormatOptions) : hostEnUS PrimFloat.nan o = "NaN".
Proof. reflexivity. Qed.

(** C8, as stated, fails: the loop does not skip a step for NaN
    ([NaN <= 0] is false), so "abc" is formatted at the first step and
    comes out with its suffix, "NaNb". *)
Lemma C8_abc_has_suffix :
  F64.Number "abc" = PrimFloat.nan /\
  F64.formatAbbreviatedNumber hostEnUS (F64.IsString "abc") None false = F64.Ok "NaNb".
Proof. split; vm_compute; reflexivity. Qed.

(** C8, amended: for every string that [Number()] coerces to NaN, on a
    host that prints NaN as "NaN", [formatAbbreviatedNumber] returns
    "NaNb", "NaN" with the suffix of the first step of the table,
    whether decimals are requested or not, when maximumSignificantDigits
    is absent or an integer from 1 to 21; for any other integer the host
    refuses the option and the call throws a RangeError. *)
Theorem C8_non_numeric_string (host : float -> NumberFormatOptions -> string)
    (s : string) (ms : option Z) (inc : bool) :
  F64.Number s = PrimFloat.nan ->
  (forall o, host PrimFloat.nan o = "NaN") ->
  F64.formatAbbreviatedNumber host (F64.IsString s) ms inc =
  match ms with
  | None => F64.Ok "NaNb"
  | Some p => if (1 <=? p) && (p <=? 21) then F64.Ok "NaNb" else F64.RangeError
  end.
Proof.
  intros HN Hhost. unfold F64.formatAbbreviatedNumber. cbn [F64.toNumber]. rewrite HN.
  unfold F64.numberFormatSteps. cbn [F64.abbreviateFrom].
  change (PrimFloat.leb (F64.floor (PrimFloat.div (PrimFloat.abs PrimFloat.nan)
                                       (F64.ofZ 1000000000))) PrimFloat.zero) with false.
  cbv iota.
  change (F64.gtb (F64.floor (PrimFloat.div (PrimFloat.abs PrimFloat.nan)
                                (F64.ofZ 1000000000))) (F64.ofZ 10)) with false.
  change (PrimFloat.eqb (F64.rem (PrimFloat.abs PrimFloat.nan) (F64.ofZ 1000000000))
            PrimFloat.zero) with false.
  rewrite andb_false_r. cbv iota.
  change (if PrimFloat.ltb PrimFloat.nan PrimFloat.zero then "-" else "") with "".
  unfold F64.toLocaleString. cbn [maximumSignificantDigits maximumFractionDigits].
  destruct ms as [p |].
  - rewrite andb_true_r.
    destruct ((1 <=? p) && (p <=? 21)) eqn:R; [| reflexivity].
    apply andb_true_iff in R as [R1 R2]. apply Z.leb_le in R1, R2.
    replace (if p =? 0 then 1 else p) with p
      by (destruct (Z.eqb_spec p 0); [lia | reflexivity]).
    assert (E : F64.formatFloat
                  (PrimFloat.div (PrimFloat.abs PrimFloat.nan) (F64.ofZ 1000000000)) p
                = PrimFloat.nan).
    { assert (C : p = 1 \/ p = 2 \/ p = 3 \/ p = 4 \/ p = 5 \/ p = 6 \/ p = 7
                  \/ p = 8 \/ p = 9 \/ p = 10 \/ p = 11 \/ p = 12 \/ p = 13
                  \/ p = 14 \/ p = 15 \/ p = 16 \/ p = 17 \/ p = 18 \/ p = 19
                  \/ p = 20 \/ p = 21) by lia.
      repeat (destruct C as [-> | C]; [vm_compute; reflexivity |]).
      subst p. vm_compute. reflexivity. }
    rewrite E. cbn [F64.andThen]. rewrite Hhost. reflexivity.
  - cbn [andb].
    change (F64.formatFloat
              (PrimFloat.div (PrimFloat.abs PrimFloat.nan) (F64.ofZ 1000000000)) 1)
      with PrimFloat.nan.
    cbn [F64.andThen]. rewrite Hhost. reflexivity.
Qed.

Lemma C8_non_numeric_string_witness :
  F64.formatAbbreviatedNumber hostEnUS (F64.IsString "abc") (Some 3) true = F64.Ok "NaNb".
Proof.
  apply (C8_non_numeric_string hostEnUS "abc" (Some 3) true);
    [vm_compute; reflexivity | exact hostEnUS_nan].
Defined.

(** The option is checked whatever the number. *)
Example F64_abbreviated_range_error :
  F64.formatAbbreviatedNumber hostEnUS (F64.IsString "abc") (Some 0) false = F64.RangeError
  /\ F64.formatAbbreviatedNumber hostEnUS (F64.IsString "abc") (Some 22) true
     = F64.RangeError
  /\ F64.formatAbbreviatedNumber hostEnUS (F64.IsNumber (F64.ofZ 12)) (Some 0) false
     = F64.RangeError.
Proof. repeat split; vm_compute; reflexivity. Qed.

(** ** formatFloat *)

(** The power of ten overflows from 309 places on, and the result is
    NaN even for 0; the truncation reads the printed product, so a
    product that is rounded up is not truncated. *)
Example F64_formatFloat_samples :
  map (fun x => F64.toString (F64.formatFloat (fst x) (snd x)))
    [(F64.ofDecimal 115 (-2), 2); (F64.ofDecimal 1 (-7), 0); (F64.ofDecimal 5 21, 0);
     (PrimFloat.zero, 309); (F64.ofZ (-1234), 3); (F64.ofDecimal 1234567 (-3), 1)]
  = ["1.14"; "1"; "5"; "NaN"; "-1234"; "1234.5"].
Proof. vm_compute. reflexivity. Qed.
